(** * F-For-LLM backend: scoring ensemble and diversity sampler

    A shallow embedding of the Python services under [backend/app/services]
    ([cold_start_service.py], [committee_service.py], [svm_utils.py],
    [classification_service.py], [data_service.py], [pytorch_mlp.py]), of the
    request and response models under [backend/app/models], of the endpoints
    under [backend/app/api] and of the application start in
    [backend/app/main.py], together with the properties that the design
    document states about them and further properties read off the code.

    Conventions of the embedding:
    - a Python [float] (and a numpy [float64] cell) is a real number [R];
      rounding, NaN and infinities are outside the model;
    - a numpy vector is a [list R], a 2-d array is a list of rows;
    - Python [int]s that can be negative are [Z], indices and counts are [nat];
    - a call that may raise returns a [result]: [Ok v], or [Raise e] with
      the name of the exception class;
    - a method that changes its object returns the object afterwards;
    - the estimators of scikit-learn and torch, the digest and the random
      sampler are an interface ([Estimators]): the services are verified
      against every implementation of it, and two small implementations
      ([Reference]) serve for worked examples.

    The first part holds the model (one module per source file), the second
    part the lemmas and the theorems (one module of facts per model module). *)

From Stdlib Require Import Reals Lra Lia ZArith List String Sorted Permutation.
From stdpp Require Import gmap strings list fin_maps pretty sorting.
From Equations Require Import Equations.
Import ListNotations.

Open Scope R_scope.

Abbreviation vector := (list R).
Abbreviation matrix := (list (list R)).

(** ** Python runtime: exceptions and insertion-ordered dictionaries *)

(** The outcome of a call that may raise: [Raise e] carries the name of the
    exception class. *)
Inductive result (A : Type) : Type :=
| Ok (a : A)
| Raise (e : string).
Arguments Ok {A} a.
Arguments Raise {A} e.

#[export] Instance result_ret : MRet result := fun A a => Ok a.
#[export] Instance result_bind : MBind result :=
  fun A B f m => match m with Ok a => f a | Raise e => Raise e end.

(** A Python [dict]: keys are unique and iteration follows insertion order. *)
Module PyDict.
Section dict.
Context {K V : Type} `{EqDecision K}.

(** [d.get(k)] *)
Fixpoint get (d : list (K * V)) (k : K) : option V :=
  match d with
  | [] => None
  | (k', v) :: rest => if decide (k' = k) then Some v else get rest k
  end.

(** [k in d] *)
Definition contains (d : list (K * V)) (k : K) : bool :=
  match get d k with Some _ => true | None => false end.

(** [d[k] = v]: an existing key keeps its position, a new key goes last. *)
Fixpoint set (d : list (K * V)) (k : K) (v : V) : list (K * V) :=
  match d with
  | [] => [(k, v)]
  | (k', v') :: rest =>
      if decide (k' = k) then (k', v) :: rest else (k', v') :: set rest k v
  end.

(** [d.pop(k)] for a key that is present. *)
Definition pop (d : list (K * V)) (k : K) : list (K * V) :=
  filter (fun e => k <> fst e) d.

(** [next(iter(d))]: the oldest key; [StopIteration] on an empty dict. *)
Definition first_key (d : list (K * V)) : result K :=
  match d with
  | [] => Raise "StopIteration"
  | (k, _) :: _ => Ok k
  end.

Definition keys (d : list (K * V)) : list K := map fst d.
Definition values (d : list (K * V)) : list V := map snd d.

(** [{k: v for k, v in items}] *)
Definition of_items (items : list (K * V)) : list (K * V) :=
  fold_left (fun d e => set d (fst e) (snd e)) items [].

End dict.
End PyDict.

(** ** numpy primitives used by the services *)
Module Np.

(** [a - b] on two rows of equal length. *)
Definition sub (u v : vector) : vector := zip_with Rminus u v.

(** [np.linalg.norm] of a row: the Euclidean norm. *)
Definition norm (v : vector) : R :=
  sqrt (fold_right Rplus 0 (map (fun x => x * x) v)).

(** Index and value of the first maximum of the non-empty vector [x :: l]. *)
Fixpoint first_max (x : R) (l : vector) : nat * R :=
  match l with
  | [] => (0%nat, x)
  | y :: t =>
      let '(i, m) := first_max y t in
      if Rlt_dec x m then (S i, m) else (0%nat, x)
  end.

(** [np.argmax]: first index of the maximum; numpy raises [ValueError] on an
    empty sequence. *)
Definition argmax (l : vector) : result nat :=
  match l with
  | [] => Raise "ValueError"
  | x :: t => Ok (fst (first_max x t))
  end.

(** [rows.min(axis=0)]: the column-wise minimum of a non-empty stack of rows. *)
Definition min_axis0 (rows : matrix) : vector :=
  fold_left (zip_with Rmin) (tl rows) (hd [] rows).

(** [v[idx] = c]: assignment through a list of (valid) indices. *)
Definition set_at (idx : list nat) (c : R) (v : vector) : vector :=
  fold_left (fun acc i => <[i := c]> acc) idx v.

(** [np.min] and [np.max] of the non-empty vector [x :: l]. *)
Definition amin (x : R) (l : vector) : R := fold_left Rmin l x.
Definition amax (x : R) (l : vector) : R := fold_left Rmax l x.

Definition sum (l : vector) : R := fold_right Rplus 0 l.

(** [np.mean] *)
Definition mean (l : vector) : R := sum l / INR (length l).

Fixpoint insert_sorted (x : R) (l : vector) : vector :=
  match l with
  | [] => [x]
  | y :: t => if Rle_dec x y then x :: y :: t else y :: insert_sorted x t
  end.

(** [np.sort] *)
Definition sort (l : vector) : vector := fold_right insert_sorted [] l.

(** [np.median]: the middle of the sorted vector, the mean of the two middle
    values when the length is even. *)
Definition median (l : vector) : R :=
  let s := sort l in
  let n := length l in
  if Nat.even n then (nth (n / 2 - 1) s 0 + nth (n / 2) s 0) / 2
  else nth (n / 2) s 0.

(** [np.linspace(start, stop, num)] for [num >= 2]. *)
Definition linspace (start stop : R) (num : nat) : vector :=
  map (fun i => start + INR i * ((stop - start) / INR (num - 1))) (seq 0 num).

(** The range [np.histogram] bins over: [(0, 1)] for an empty vector, the
    minimum and maximum otherwise, widened by one half on each side when they
    coincide. *)
Definition outer_edges (a : vector) : R * R :=
  match a with
  | [] => (0, 1)
  | x :: t =>
      let first_edge := amin x t in
      let last_edge := amax x t in
      if Req_EM_T first_edge last_edge
      then (first_edge - 1 / 2, last_edge + 1 / 2)
      else (first_edge, last_edge)
  end.

(** Bin [i] of [bins] holds [edges[i] <= x < edges[i+1]]; the last bin also
    holds its right edge. *)
Definition in_bin (edges : vector) (bins i : nat) (x : R) : bool :=
  if Rle_dec (nth i edges 0) x then
    if Nat.eq_dec (S i) bins
    then (if Rle_dec x (nth (S i) edges 0) then true else false)
    else (if Rlt_dec x (nth (S i) edges 0) then true else false)
  else false.

(** Membership of [x] in bin [i] of [m] bins with edges [e 0 <= ... <= e m]. *)
Definition hit (e : nat -> R) (m : nat) (x : R) (i : nat) : nat :=
  if Rle_dec (e i) x then
    if Nat.eq_dec (S i) m
    then (if Rle_dec x (e (S i)) then 1 else 0)
    else (if Rlt_dec x (e (S i)) then 1 else 0)
  else 0.

(** [np.histogram(a, bins)]: counts and bin edges. *)
Definition histogram (a : vector) (bins : nat) : list nat * vector :=
  let '(first_edge, last_edge) := outer_edges a in
  let edges := linspace first_edge last_edge (S bins) in
  (map (fun i => length (List.filter (in_bin edges bins i) a)) (seq 0 bins), edges).

End Np.

(** ** External collaborators

    scikit-learn's [StandardScaler], [SVC] and [RandomForestClassifier], the
    torch-based [WeightedMLPClassifier] of [pytorch_mlp.py], [hashlib.md5],
    [random.sample] after [random.seed(42)], and the two weights of
    [constants.py].  Transforms and predictions act row by row.  A [fit] that
    can fail returns a [result]. *)
Class Estimators := {
  StandardScaler : Type;
  SVC : Type;
  RandomForestClassifier : Type;
  WeightedMLPClassifier : Type;
  (** [StandardScaler().fit(X)] and one row of [scaler.transform] *)
  scaler_fit : matrix -> StandardScaler;
  scaler_transform_row : StandardScaler -> vector -> vector;
  (** [SVC(kernel="rbf", C=1.0, gamma="scale", class_weight="balanced").fit(X, y, sample_weight)] *)
  svc_fit : matrix -> list Z -> vector -> SVC;
  svc_decision_row : SVC -> vector -> R;
  (** [RandomForestClassifier(n_estimators, max_depth, ...).fit(X, y, sample_weight)] *)
  rf_fit : nat -> nat -> matrix -> list Z -> vector -> result RandomForestClassifier;
  rf_predict_row : RandomForestClassifier -> vector -> Z;
  (** [WeightedMLPClassifier(hidden_layer_sizes, ...).fit(X, y, sample_weight)] *)
  mlp_fit : list nat -> matrix -> list Z -> vector -> result WeightedMLPClassifier;
  mlp_predict_row : WeightedMLPClassifier -> vector -> Z;
  (** [hashlib.md5(s.encode()).hexdigest()] *)
  md5 : string -> string;
  (** [random.seed(42); random.sample(population, k)] *)
  random_sample : list Z -> Z -> result (list Z);
  CLICK_WEIGHT : R;
  THRESHOLD_WEIGHT : R
}.

(** [scaler.transform(X)] *)
Definition scaler_transform `{Estimators} (s : StandardScaler) (X : matrix) : matrix :=
  map (scaler_transform_row s) X.

(** [StandardScaler().fit_transform(X)] *)
Definition scaler_fit_transform `{Estimators} (X : matrix) : matrix :=
  scaler_transform (scaler_fit X) X.

(** ** data_service.py *)
Module DataService.

(** One row of the metrics frame: the block id and one cell (possibly null)
    per metric column, in the order of [metric_columns]. *)
Record MetricsRow := {
  block_id : Z;
  cells : list (option R)
}.

Record t := {
  _metrics_lazy : option (list MetricsRow);
  _metric_columns : list string;
  _ready : bool
}.

(** [DataService()] *)
Definition __init__ : t :=
  {| _metrics_lazy := None; _metric_columns := []; _ready := false |}.

Definition is_ready (self : t) : bool := _ready self.

Definition metric_columns (self : t) : list string := _metric_columns self.

(** [get_metrics]: the rows whose block id is in [block_ids], in frame order. *)
Definition get_metrics (self : t) (block_ids : list Z) : option (list MetricsRow) :=
  match _metrics_lazy self with
  | None => None
  | Some frame => Some (filter (fun row => block_id row ∈ block_ids) frame)
  end.

(** [np.column_stack([df[col].fill_null(0.0).to_numpy() for col in metric_cols])] *)
Definition to_matrix (df : list MetricsRow) : matrix :=
  map (fun row => map (fun c => default 0 c) (cells row)) df.

End DataService.

(** ** models/common.py, models/classification.py *)
Module Models.

(** [Literal["click", "threshold"]] *)
Inductive Source := click | threshold.

Record WeightedBlockId := {
  id : Z;
  source : Source
}.

Record CommitteeVoteInfo := {
  svm_prediction : Z;
  rf_prediction : Z;
  mlp_prediction : Z;
  vote_entropy : R
}.

Record SimilarityHistogramRequest := {
  selected_items : list WeightedBlockId;
  rejected_items : list WeightedBlockId;
  block_ids : list Z
}.

Record HistogramData := {
  bins : vector;
  counts : list nat;
  bin_edges : vector
}.

Record HistogramStatistics := {
  min : R;
  max : R;
  mean : R;
  median : R
}.

Record SimilarityHistogramResponse := {
  scores : list (string * R);
  histogram : HistogramData;
  statistics : HistogramStatistics;
  total_items : nat;
  committee_votes : option (list (string * CommitteeVoteInfo))
}.

#[export] Instance Source_eq_dec : EqDecision Source.
Proof. solve_decision. Defined.

End Models.

(** ** cold_start_service.py: Kennard-Stone selection *)
Module ColdStart.

(** [np.linalg.norm(X[:, np.newaxis] - X, axis=2)] *)
Definition pairwise_dist (X : matrix) : matrix :=
  map (fun xi => map (fun xj => Np.norm (Np.sub xi xj)) X) X.

(** [min_dists = dist[selected].min(axis=0); min_dists[selected] = -1] *)
Definition min_dists (dist : matrix) (selected : list nat) : vector :=
  Np.set_at selected (-1)
    (Np.min_axis0 (map (fun s => nth s dist []) selected)).

(** The [while len(selected) < n] loop of [_kennard_stone]. *)
Equations? ks_loop (dist : matrix) (n : Z) (selected : list nat) : result (list nat)
  by wf (Z.to_nat (n - Z.of_nat (length selected))) lt :=
  ks_loop dist n selected with Z_lt_dec (Z.of_nat (length selected)) n => {
    | left _ with Np.argmax (min_dists dist selected) => {
        | Ok a := ks_loop dist n (selected ++ [a]);
        | Raise e := Raise e };
    | right _ := Ok selected }.
Proof. rewrite length_app. simpl. lia. Qed.

(** [_kennard_stone(X, n)] *)
Definition _kennard_stone (X : matrix) (n : Z) : result (list nat) :=
  let n_samples := length X in
  if Z_le_dec (Z.of_nat n_samples) n then Ok (seq 0 n_samples)
  else
    let dist := pairwise_dist X in
    match Np.argmax (concat dist) with
    | Raise e => Raise e
    | Ok flat =>
        let i := (flat / n_samples)%nat in
        let j := (flat mod n_samples)%nat in
        ks_loop dist n [i; j]
    end.

(** [_random_fallback] *)
Definition _random_fallback `{Estimators} (block_ids : list Z) (n : Z) : result (list Z) :=
  random_sample block_ids (Z.min n (Z.of_nat (length block_ids))).

(** [[id_list[i] for i in indices]] *)
Definition take_ids (id_list : list Z) (indices : list nat) : result (list Z) :=
  mapM (fun i => match id_list !! i with
                 | Some b => Ok b
                 | None => Raise "IndexError"
                 end) indices.

(** [get_suggestions(block_ids, num_suggestions)] *)
Definition get_suggestions `{Estimators} (data_service : DataService.t)
    (block_ids : list Z) (num_suggestions : Z) : result (list Z) :=
  match DataService.get_metrics data_service block_ids with
  | None => _random_fallback block_ids num_suggestions
  | Some metrics_df =>
      match metrics_df, DataService.metric_columns data_service with
      | [], _ | _, [] => _random_fallback block_ids num_suggestions
      | _ :: _, _ :: _ =>
          let id_list := map DataService.block_id metrics_df in
          let scaled := scaler_fit_transform (DataService.to_matrix metrics_df) in
          let n_select := Z.min num_suggestions (Z.of_nat (length id_list)) in
          indices ← _kennard_stone scaled n_select;
          take_ids id_list indices
      end
  end.

(** Euclidean distance between rows [i] and [j] of [X]. *)
Definition dist_at (X : matrix) (i j : nat) : R :=
  Np.norm (Np.sub (nth i X []) (nth j X [])).

(** Smallest distance from point [c] to the points of [sel]. *)
Definition min_to (X : matrix) (sel : list nat) (c : nat) : R :=
  match sel with
  | [] => 0
  | s :: ss => fold_left Rmin (map (fun s' => dist_at X s' c) ss) (dist_at X s c)
  end.

(** [(i, j)] is the first cell, in row-major order, that holds the largest
    pairwise distance. *)
Definition first_max_pair (X : matrix) (i j : nat) : Prop :=
  (i < length X)%nat /\ (j < length X)%nat /\
  forall a b, (a < length X)%nat -> (b < length X)%nat ->
    dist_at X a b <= dist_at X i j /\
    ((a < i)%nat \/ (a = i /\ (b < j)%nat) -> dist_at X a b < dist_at X i j).

(** [p] is the first unselected point, in index order, that is farthest from
    the selected set [sel]. *)
Definition farthest (X : matrix) (sel : list nat) (p : nat) : Prop :=
  (p < length X)%nat /\ ~ In p sel /\
  forall c, (c < length X)%nat -> ~ In c sel ->
    min_to X sel c <= min_to X sel p /\
    ((c < p)%nat -> min_to X sel c < min_to X sel p).

(** The selection the design document describes: [sel] holds [k] distinct
    valid indices, starts with the first maximal pair, and continues with the
    farthest unselected point each time. *)
Definition max_min_selection (X : matrix) (k : Z) (sel : list nat) : Prop :=
  Z.of_nat (length sel) = k /\ NoDup sel /\
  Forall (fun i => (i < length X)%nat) sel /\
  first_max_pair X (nth 0 sel 0%nat) (nth 1 sel 0%nat) /\
  forall t, (2 <= t < length sel)%nat ->
    farthest X (firstn t sel) (nth t sel 0%nat).

(** A ready data service with one metric column and three blocks. *)
Definition three_blocks : DataService.t :=
  {| DataService._metrics_lazy :=
       Some [ {| DataService.block_id := 1; DataService.cells := [Some 0] |};
              {| DataService.block_id := 2; DataService.cells := [Some 1] |};
              {| DataService.block_id := 3; DataService.cells := [Some 3] |} ];
     DataService._metric_columns := ["loc"%string];
     DataService._ready := true |}.

End ColdStart.

(** ** committee_service.py *)
Module Committee.

Record CommitteePrediction := {
  svm_prediction : Z;
  rf_prediction : Z;
  mlp_prediction : Z;
  vote_entropy : R
}.

Definition MIN_SAMPLES_PER_CLASS : nat := 3.

Section estimators.
Context `{Estimators}.

Record CommitteeService := {
  _rf_model : option RandomForestClassifier;
  _mlp_model : option WeightedMLPClassifier;
  _scaler : option StandardScaler
}.

(** [CommitteeService()] *)
Definition __init__ : CommitteeService :=
  {| _rf_model := None; _mlp_model := None; _scaler := None |}.

(** A call to an estimator's [fit], with the data it is given. *)
Inductive FitCall :=
| FitSVC (X : matrix) (y : list Z) (w : vector)
| FitRF (X : matrix) (y : list Z) (w : vector)
| FitMLP (X : matrix) (y : list Z) (w : vector).

(** [_train_rf]: a failure of the fit is caught and gives no model.
    [int(np.log2(n + 1))] is the integer logarithm of [n + 1]. *)
Definition _train_rf (X : matrix) (y : list Z) (weights : vector) (n : nat)
  : option RandomForestClassifier :=
  let n_est := Nat.max 10 (Nat.min 100 (n / 2)) in
  let depth := Nat.min 5 (Nat.max 2 (Nat.log2 (n + 1))) in
  match rf_fit n_est depth X y weights with
  | Ok rf => Some rf
  | Raise _ => None
  end.

(** [_train_mlp]: a failure of the fit is caught and gives no model. *)
Definition _train_mlp (X : matrix) (y : list Z) (weights : vector) (n : nat)
  : option WeightedMLPClassifier :=
  let hidden := if (n <? 20)%nat then [16%nat] else [32%nat; 16%nat] in
  match mlp_fit hidden X y weights with
  | Ok mlp => Some mlp
  | Raise _ => None
  end.

(** [np.sum(y_train == c)] *)
Definition count_label (c : Z) (y : list Z) : nat :=
  length (List.filter (fun v => bool_decide (v = c)) y).

(** [train_committee]: the three results, the updated service, and the fits
    that were started. *)
Definition train_committee (self : CommitteeService)
    (X_train : matrix) (y_train : list Z) (sample_weights : vector)
  : (option RandomForestClassifier * option WeightedMLPClassifier * option StandardScaler)
    * CommitteeService * list FitCall :=
  let n_positive := count_label 1 y_train in
  let n_negative := count_label 0 y_train in
  if ((n_positive <? MIN_SAMPLES_PER_CLASS) || (n_negative <? MIN_SAMPLES_PER_CLASS))%nat
  then ((None, None, None), self, [])
  else
    let n_samples := length y_train in
    let scaler := scaler_fit X_train in
    let X_scaled := scaler_transform scaler X_train in
    let rf_model := _train_rf X_scaled y_train sample_weights n_samples in
    let mlp_model := _train_mlp X_scaled y_train sample_weights n_samples in
    ((rf_model, mlp_model, Some scaler),
     {| _rf_model := rf_model; _mlp_model := mlp_model; _scaler := Some scaler |},
     [FitRF X_scaled y_train sample_weights; FitMLP X_scaled y_train sample_weights]).

(** [(svm_scores > 0).astype(int)] *)
Definition svm_vote (score : R) : Z := if Rlt_dec 0 score then 1%Z else 0%Z.

(** [votes.count(c)] *)
Definition count_votes (c : Z) (votes : list Z) : nat :=
  length (List.filter (fun v => bool_decide (v = c)) votes).

(** [sum(-p / 3 * np.log2(p / 3) for p in counts if p > 0)] *)
Definition entropy (counts : list nat) : R :=
  Np.sum (map (fun p => - INR p / 3 * Rlog 2 (INR p / 3))
              (List.filter (fun p => (0 <? p)%nat) counts)).

(** One term [(c/3) * log2(c/3)] of the vote entropy; a count of 0 adds nothing. *)
Definition entropy_term (c : nat) : R :=
  if (0 <? c)%nat then INR c / 3 * Rlog 2 (INR c / 3) else 0.

(** The three recorded votes of an item. *)
Definition votes_of (p : CommitteePrediction) : list Z :=
  [svm_prediction p; rf_prediction p; mlp_prediction p].

(** All three recorded votes agree. *)
Definition unanimous (p : CommitteePrediction) : Prop :=
  rf_prediction p = svm_prediction p /\ mlp_prediction p = svm_prediction p.

(** The element [v[i]] of a vector of votes; [IndexError] out of range. *)
Definition vote_at (v : list Z) (i : nat) : result Z :=
  match v !! i with
  | Some x => Ok x
  | None => Raise "IndexError"
  end.

(** [predict_with_committee]: entry [i] of the returned list is [results[i]].
    A fitted model is truthy, so [if rf_model] is [rf_model is not None]. *)
Definition predict_with_committee (X : matrix) (svm_scores : vector)
    (rf_model : option RandomForestClassifier)
    (mlp_model : option WeightedMLPClassifier)
    (scaler : option StandardScaler) : result (list CommitteePrediction) :=
  let n_samples := length svm_scores in
  let svm_preds := map svm_vote svm_scores in
  match rf_model, mlp_model with
  | None, None =>
      mapM (fun i =>
              v ← vote_at svm_preds i;
              mret {| svm_prediction := v; rf_prediction := v;
                      mlp_prediction := v; vote_entropy := 0 |})
           (seq 0 n_samples)
  | _, _ =>
      let X_scaled := match scaler with
                      | Some s => scaler_transform s X
                      | None => X
                      end in
      let rf_preds := match rf_model with
                      | Some rf => map (rf_predict_row rf) X_scaled
                      | None => svm_preds
                      end in
      let mlp_preds := match mlp_model with
                       | Some mlp => map (mlp_predict_row mlp) X_scaled
                       | None => svm_preds
                       end in
      mapM (fun i =>
              v0 ← vote_at svm_preds i;
              v1 ← vote_at rf_preds i;
              v2 ← vote_at mlp_preds i;
              let votes := [v0; v1; v2] in
              let counts := [count_votes 0 votes; count_votes 1 votes] in
              mret {| svm_prediction := v0; rf_prediction := v1;
                      mlp_prediction := v2; vote_entropy := entropy counts |})
           (seq 0 n_samples)
  end.

(** The record built for item [i] from the three vote vectors. *)
Definition record_at (svm_preds rf_preds mlp_preds : list Z) (i : nat)
  : CommitteePrediction :=
  let votes := [nth i svm_preds 0%Z; nth i rf_preds 0%Z; nth i mlp_preds 0%Z] in
  {| svm_prediction := nth i svm_preds 0%Z;
     rf_prediction := nth i rf_preds 0%Z;
     mlp_prediction := nth i mlp_preds 0%Z;
     vote_entropy := entropy [count_votes 0 votes; count_votes 1 votes] |}.

(** [get_vote_info_dict] *)
Definition get_vote_info_dict (item_ids : list string)
    (committee_predictions : list CommitteePrediction)
  : list (string * CommitteePrediction) :=
  fold_left (fun d '(idx, item_id) =>
               match committee_predictions !! idx with
               | Some pred => PyDict.set d item_id pred
               | None => d
               end)
            (zip (seq 0 (length item_ids)) item_ids) [].

End estimators.
End Committee.

(** ** svm_utils.py *)
Module SvmUtils.
Import Models.

Section estimators.
Context `{Estimators}.

(** [np.array([1] * len(selected) + [0] * len(rejected))] *)
Definition labels (n_selected n_rejected : nat) : list Z :=
  repeat 1%Z n_selected ++ repeat 0%Z n_rejected.

(** [np.ones(n)] *)
Definition ones (n : nat) : vector := repeat 1 n.

(** [train_svm_model]: the fitted model and scaler, and the fit it ran. *)
Definition train_svm_model (selected_vectors rejected_vectors : matrix)
    (selected_weights rejected_weights : option vector)
  : (SVC * StandardScaler) * Committee.FitCall :=
  let X := selected_vectors ++ rejected_vectors in
  let y := labels (length selected_vectors) (length rejected_vectors) in
  let selected_weights := default (ones (length selected_vectors)) selected_weights in
  let rejected_weights := default (ones (length rejected_vectors)) rejected_weights in
  let sample_weights := selected_weights ++ rejected_weights in
  let scaler := scaler_fit X in
  let X_scaled := scaler_transform scaler X in
  let model := svc_fit X_scaled y sample_weights in
  ((model, scaler), Committee.FitSVC X_scaled y sample_weights).

(** [score_with_svm] *)
Definition score_with_svm (model : SVC) (scaler : StandardScaler)
    (feature_vectors : matrix) : vector :=
  let X_scaled := scaler_transform scaler feature_vectors in
  map (svc_decision_row model) X_scaled.

End estimators.

(** The response of the degenerate cases. *)
Definition empty_response : SimilarityHistogramResponse :=
  {| scores := [];
     histogram := {| bins := []; counts := []; bin_edges := [] |};
     statistics := {| min := 0; max := 0; mean := 0; median := 0 |};
     total_items := 0;
     committee_votes := None |}.

(** [(bin_edges[:-1] + bin_edges[1:]) / 2] *)
Definition bin_centers (bin_edges : vector) : vector :=
  zip_with (fun a b => (a + b) / 2) (removelast bin_edges) (tl bin_edges).

(** [build_similarity_histogram_response] *)
Definition build_similarity_histogram_response
    (scores_dict : list (string * R)) (score_values : vector) (total_items : nat)
    (committee_votes : option (list (string * CommitteeVoteInfo)))
  : SimilarityHistogramResponse :=
  match score_values with
  | [] => empty_response
  | x :: t =>
      let '(counts, bin_edges) := Np.histogram score_values 60 in
      let bins := bin_centers bin_edges in
      let statistics :=
        {| min := Np.amin x t; max := Np.amax x t;
           mean := Np.mean score_values; median := Np.median score_values |} in
      {| scores := scores_dict;
         histogram := {| bins := bins; counts := counts; bin_edges := bin_edges |};
         statistics := statistics;
         total_items := total_items;
         committee_votes := committee_votes |}
  end.

End SvmUtils.

(** ** classification_service.py *)
Module Classification.
Import Models.

Section estimators.
Context `{Estimators}.

Record ClassificationService := {
  data_service : DataService.t;
  committee_service : Committee.CommitteeService;
  _svm_cache : list (string * (SVC * StandardScaler));
  _max_cache_size : nat;
  (** instrumentation: every estimator fit started so far, oldest first *)
  fit_log : list Committee.FitCall
}.

(** [ClassificationService(data_service)] *)
Definition __init__ (data_service : DataService.t) : ClassificationService :=
  {| data_service := data_service;
     committee_service := Committee.__init__;
     _svm_cache := [];
     _max_cache_size := 100;
     fit_log := [] |}.

(** [_extract_metrics]: the ids and the feature rows of the candidates that
    have metrics, or [None]. *)
Definition _extract_metrics (self : ClassificationService) (block_ids : list Z)
  : option (list Z * matrix) :=
  match DataService.get_metrics (data_service self) block_ids with
  | None => None
  | Some metrics_df =>
      match metrics_df, DataService.metric_columns (data_service self) with
      | [], _ | _, [] => None
      | _ :: _, _ :: _ =>
          Some (map DataService.block_id metrics_df, DataService.to_matrix metrics_df)
      end
  end.

(** [CLICK_WEIGHT if item.source == "click" else THRESHOLD_WEIGHT] *)
Definition tier_weight (s : Source) : R :=
  match s with
  | click => CLICK_WEIGHT
  | threshold => THRESHOLD_WEIGHT
  end.

(** One of the two labelling loops: adds each item's id to the set and
    (over)writes its weight in the shared [id_to_weight] map. *)
Definition add_items (items : list WeightedBlockId) (ids : gset Z)
    (id_to_weight : gmap Z R) : gset Z * gmap Z R :=
  fold_left (fun '(ids, w) item =>
               ({[ id item ]} ∪ ids, <[ id item := tier_weight (source item) ]> w))
            items (ids, id_to_weight).

(** The partition loop over [enumerate(block_ids_arr)]. *)
Definition partition_indices (block_ids_arr : list Z)
    (selected_ids rejected_ids : gset Z) : list nat * list nat :=
  fold_left (fun '(sel_indices, rej_indices) '(i, bid) =>
               if decide (bid ∈ selected_ids) then (sel_indices ++ [i], rej_indices)
               else if decide (bid ∈ rejected_ids) then (sel_indices, rej_indices ++ [i])
               else (sel_indices, rej_indices))
            (zip (seq 0 (length block_ids_arr)) block_ids_arr) ([], []).

(** The indices the partition loop appends, counted from [k]. *)
Fixpoint sel_from (selected_ids : gset Z) (k : nat) (l : list Z) : list nat :=
  match l with
  | [] => []
  | bid :: t =>
      if decide (bid ∈ selected_ids) then k :: sel_from selected_ids (S k) t
      else sel_from selected_ids (S k) t
  end.

Fixpoint rej_from (selected_ids rejected_ids : gset Z) (k : nat) (l : list Z) : list nat :=
  match l with
  | [] => []
  | bid :: t =>
      if decide (bid ∈ selected_ids) then rej_from selected_ids rejected_ids (S k) t
      else if decide (bid ∈ rejected_ids)
           then k :: rej_from selected_ids rejected_ids (S k) t
           else rej_from selected_ids rejected_ids (S k) t
  end.

(** The labelling loops followed by the partition loop: the row indices of
    the positive class, those of the negative class, and the weight map. *)
Definition label_partition (request : SimilarityHistogramRequest)
    (block_ids_arr : list Z) : list nat * list nat * gmap Z R :=
  let '(selected_ids, w) := add_items (selected_items request) ∅ ∅ in
  let '(rejected_ids, id_to_weight) := add_items (rejected_items request) ∅ w in
  let '(sel_indices, rej_indices) :=
    partition_indices block_ids_arr selected_ids rejected_ids in
  (sel_indices, rej_indices, id_to_weight).

(** The last item of the list that carries the identifier [x]. *)
Fixpoint last_with_id (items : list WeightedBlockId) (x : Z) : option WeightedBlockId :=
  match items with
  | [] => None
  | item :: rest =>
      match last_with_id rest x with
      | Some later => Some later
      | None => if decide (id item = x) then Some item else None
      end
  end.

(** [metrics_matrix[indices]] *)
Definition rows_at (metrics_matrix : matrix) (indices : list nat) : matrix :=
  map (fun i => nth i metrics_matrix []) indices.

(** [[id_to_weight.get(int(block_ids_arr[i]), CLICK_WEIGHT) for i in indices]] *)
Definition weights_at (id_to_weight : gmap Z R) (block_ids_arr : list Z)
    (indices : list nat) : vector :=
  map (fun i => default CLICK_WEIGHT (id_to_weight !! nth i block_ids_arr 0%Z)) indices.

Definition source_name (s : Source) : string :=
  match s with
  | click => "click"
  | threshold => "threshold"
  end.

(** Python's order on the tuples [(id, source)]. *)
Definition pair_le (a b : Z * Source) : bool :=
  if decide (fst a = fst b)
  then bool_decide (String.leb (source_name (snd a)) (source_name (snd b)) = true)
  else bool_decide (fst a < fst b)%Z.

Fixpoint insert_pair (a : Z * Source) (l : list (Z * Source)) : list (Z * Source) :=
  match l with
  | [] => [a]
  | b :: t => if pair_le a b then a :: b :: t else b :: insert_pair a t
  end.

(** [sorted([(i.id, i.source) for i in items])] *)
Definition sorted_pairs (items : list WeightedBlockId) : list (Z * Source) :=
  fold_right insert_pair [] (map (fun i => (id i, source i)) items).

(** The text of a list of tuples, as an f-string prints it. *)
Definition repr_pairs (l : list (Z * Source)) : string :=
  "[" +:+ String.concat ", "
            (map (fun p => "(" +:+ pretty (fst p) +:+ ", '" +:+ source_name (snd p) +:+ "')") l)
      +:+ "]".

(** [_cache_key] *)
Definition _cache_key (selected rejected : list WeightedBlockId) : string :=
  let sel := sorted_pairs selected in
  let rej := sorted_pairs rejected in
  md5 (repr_pairs sel +:+ "_" +:+ repr_pairs rej).

(** The cache block of the score operation: the model and scaler to score
    with, the cache afterwards, and the fits that were started. *)
Definition lookup_or_train (cache : list (string * (SVC * StandardScaler)))
    (max_cache_size : nat) (cache_key : string)
    (sel_vectors rej_vectors : matrix) (sel_weights rej_weights : vector)
  : result ((SVC * StandardScaler) * list (string * (SVC * StandardScaler))
            * list Committee.FitCall) :=
  match PyDict.get cache cache_key with
  | Some entry => Ok (entry, cache, [])
  | None =>
      let '(entry, call) :=
        SvmUtils.train_svm_model sel_vectors rej_vectors (Some sel_weights) (Some rej_weights) in
      cache ← (if (max_cache_size <=? length cache)%nat
               then (oldest ← PyDict.first_key cache; mret (PyDict.pop cache oldest))
               else mret cache);
      mret (entry, PyDict.set cache cache_key entry, [call])
  end.

(** [str(int(bid))] *)
Definition str_int (bid : Z) : string := pretty bid.

(** The conversion of a committee prediction to the response model. *)
Definition to_vote_info (p : Committee.CommitteePrediction) : CommitteeVoteInfo :=
  {| svm_prediction := Committee.svm_prediction p;
     rf_prediction := Committee.rf_prediction p;
     mlp_prediction := Committee.mlp_prediction p;
     vote_entropy := Committee.vote_entropy p |}.

(** The block under [if rf is not None or mlp is not None]: the committee
    record of every candidate, or no record when both models are absent. *)
Definition committee_votes_response (scaler : StandardScaler)
    (block_ids_arr : list Z) (metrics_matrix : matrix) (scores : vector)
    (rf : option RandomForestClassifier) (mlp : option WeightedMLPClassifier)
    (committee_scaler : option StandardScaler)
  : result (option (list (string * CommitteeVoteInfo))) :=
  match rf, mlp with
  | None, None => Ok None
  | _, _ =>
      let X_scaled := scaler_transform scaler metrics_matrix in
      preds ← Committee.predict_with_committee X_scaled scores rf mlp committee_scaler;
      let item_ids := map str_int block_ids_arr in
      let votes_dict := Committee.get_vote_info_dict item_ids preds in
      mret (Some (PyDict.of_items
                    (map (fun e => (fst e, to_vote_info (snd e))) votes_dict)))
  end.

(** No candidate has metric data: the frame is missing, or holds no row of a
    candidate, or has no metric column. *)
Definition no_metric_data (ds : DataService.t) (block_ids : list Z) : Prop :=
  match DataService._metrics_lazy ds with
  | None => True
  | Some frame =>
      (forall row, In row frame -> ~ In (DataService.block_id row) block_ids) \/
      DataService._metric_columns ds = []
  end.

(** [get_similarity_score_histogram]: the response (or the exception) and the
    service afterwards. *)
Definition get_similarity_score_histogram (self : ClassificationService)
    (request : SimilarityHistogramRequest)
  : result SimilarityHistogramResponse * ClassificationService :=
  if negb (DataService.is_ready (data_service self)) then (Raise "RuntimeError", self)
  else
    match _extract_metrics self (block_ids request) with
    | None => (Ok SvmUtils.empty_response, self)
    | Some (block_ids_arr, metrics_matrix) =>
        let '(sel_indices, rej_indices, id_to_weight) :=
          label_partition request block_ids_arr in
        match sel_indices, rej_indices with
        | [], _ | _, [] => (Ok SvmUtils.empty_response, self)
        | _ :: _, _ :: _ =>
            let sel_vectors := rows_at metrics_matrix sel_indices in
            let rej_vectors := rows_at metrics_matrix rej_indices in
            let sel_weights := weights_at id_to_weight block_ids_arr sel_indices in
            let rej_weights := weights_at id_to_weight block_ids_arr rej_indices in
            let cache_key := _cache_key (selected_items request) (rejected_items request) in
            match lookup_or_train (_svm_cache self) (_max_cache_size self) cache_key
                    sel_vectors rej_vectors sel_weights rej_weights with
            | Raise e => (Raise e, self)
            | Ok ((model, scaler), cache, svm_calls) =>
                let scores := SvmUtils.score_with_svm model scaler metrics_matrix in
                let scores_dict :=
                  PyDict.of_items (zip (map str_int block_ids_arr) scores) in
                let X_train := sel_vectors ++ rej_vectors in
                let y_train := SvmUtils.labels (length sel_vectors) (length rej_vectors) in
                let sample_weights := sel_weights ++ rej_weights in
                let '((rf, mlp, committee_scaler), committee, committee_calls) :=
                  Committee.train_committee (committee_service self)
                    X_train y_train sample_weights in
                let self' :=
                  {| data_service := data_service self;
                     committee_service := committee;
                     _svm_cache := cache;
                     _max_cache_size := _max_cache_size self;
                     fit_log := fit_log self ++ svm_calls ++ committee_calls |} in
                match committee_votes_response scaler block_ids_arr metrics_matrix
                        scores rf mlp committee_scaler with
                | Raise e => (Raise e, self')
                | Ok votes =>
                    (Ok (SvmUtils.build_similarity_histogram_response
                           scores_dict (PyDict.values scores_dict)
                           (length scores_dict) votes),
                     self')
                end
            end
        end
    end.

(** The request gets past the degenerate cases: the service is ready, some
    candidate has metrics, and both classes have a candidate row. *)
Definition scorable (self : ClassificationService)
    (request : SimilarityHistogramRequest) : bool :=
  DataService.is_ready (data_service self) &&
  match _extract_metrics self (block_ids request) with
  | None => false
  | Some (block_ids_arr, _) =>
      match label_partition request block_ids_arr with
      | (_ :: _, _ :: _, _) => true
      | _ => false
      end
  end.

(** The cache key of a request. *)
Definition request_key (request : SimilarityHistogramRequest) : string :=
  _cache_key (selected_items request) (rejected_items request).

(** The state of the cache that every request maintains. *)
Definition cache_ok (self : ClassificationService) : Prop :=
  _max_cache_size self = 100%nat /\
  List.NoDup (PyDict.keys (_svm_cache self)) /\
  (length (_svm_cache self) <= 100)%nat.

(** A sequence of score requests served one after the other. *)
Definition serve (self : ClassificationService)
    (requests : list SimilarityHistogramRequest) : ClassificationService :=
  fold_left (fun st request => snd (get_similarity_score_histogram st request))
            requests self.

End estimators.

(** A ready data service holding blocks 0 to 101, and the request that
    selects block [i] against block 0. *)
Definition many_blocks : DataService.t :=
  {| DataService._metrics_lazy :=
       Some (map (fun i => {| DataService.block_id := Z.of_nat i;
                              DataService.cells := [Some (INR i)] |})
                 (seq 0 102));
     DataService._metric_columns := ["loc"%string];
     DataService._ready := true |}.

Definition select_one (i : nat) : SimilarityHistogramRequest :=
  {| selected_items := [ {| id := Z.of_nat i; source := click |} ];
     rejected_items := [ {| id := 0; source := click |} ];
     block_ids := [0%Z; Z.of_nat i] |}.

(** Blocks 1, 2, 3 clicked as matching and 4, 5, 6 as not matching. *)
Definition three_against_three : SimilarityHistogramRequest :=
  {| selected_items := map (fun i => {| id := i; source := click |}) [1; 2; 3]%Z;
     rejected_items := map (fun i => {| id := i; source := click |}) [4; 5; 6]%Z;
     block_ids := [1; 2; 3; 4; 5; 6]%Z |}.

(** A ready data service with six blocks on one metric: blocks 1 to 3 at 4,
    blocks 4 to 6 at 0. *)
Definition six_blocks : DataService.t :=
  {| DataService._metrics_lazy :=
       Some (map (fun '(i, x) => {| DataService.block_id := i;
                                    DataService.cells := [Some x] |})
                 [(1%Z, 4); (2%Z, 4); (3%Z, 4); (4%Z, 0); (5%Z, 0); (6%Z, 0)]);
     DataService._metric_columns := ["loc"%string];
     DataService._ready := true |}.

End Classification.

(** ** A small implementation of the interface, for worked examples

    The scaler is the per-column standardization (mean 0, variance 1, a
    constant column is left unscaled); the three classifiers are threshold
    rules on the first feature; the digest is the identity. *)
Module Reference.

Definition column (X : matrix) (j : nat) : vector := map (fun row => nth j row 0) X.

Definition column_scale (col : vector) : R :=
  let m := Np.mean col in
  let var := Np.mean (map (fun x => (x - m) * (x - m)) col) in
  if Req_EM_T var 0 then 1 else sqrt var.

(** The fitted scaler: the means and the scales of the columns. *)
Definition fit (X : matrix) : vector * vector :=
  let d := length (hd [] X) in
  (map (fun j => Np.mean (column X j)) (seq 0 d),
   map (fun j => column_scale (column X j)) (seq 0 d)).

Definition transform_row (s : vector * vector) (row : vector) : vector :=
  zip_with (fun x ms => (x - fst ms) / snd ms) row (zip (fst s) (snd s)).

Definition threshold_vote (row : vector) : Z :=
  if Rlt_dec 0 (nth 0 row 0) then 1%Z else 0%Z.

Definition estimators : Estimators :=
  {| StandardScaler := vector * vector;
     SVC := unit;
     RandomForestClassifier := unit;
     WeightedMLPClassifier := unit;
     scaler_fit := fit;
     scaler_transform_row := transform_row;
     svc_fit := fun _ _ _ => tt;
     svc_decision_row := fun _ row => nth 0 row 0;
     rf_fit := fun _ _ _ _ _ => Ok tt;
     rf_predict_row := fun _ => threshold_vote;
     mlp_fit := fun _ _ _ _ => Ok tt;
     mlp_predict_row := fun _ => threshold_vote;
     md5 := fun s => s;
     random_sample := fun population k => Ok (firstn (Z.to_nat k) population);
     CLICK_WEIGHT := 1;
     THRESHOLD_WEIGHT := 1 / 2 |}.

(** The same, except that both auxiliary fits raise. *)
Definition failing_estimators : Estimators :=
  {| StandardScaler := vector * vector;
     SVC := unit;
     RandomForestClassifier := unit;
     WeightedMLPClassifier := unit;
     scaler_fit := fit;
     scaler_transform_row := transform_row;
     svc_fit := fun _ _ _ => tt;
     svc_decision_row := fun _ row => nth 0 row 0;
     rf_fit := fun _ _ _ _ _ => Raise "ValueError";
     rf_predict_row := fun _ => threshold_vote;
     mlp_fit := fun _ _ _ _ => Raise "RuntimeError";
     mlp_predict_row := fun _ => threshold_vote;
     md5 := fun s => s;
     random_sample := fun population k => Ok (firstn (Z.to_nat k) population);
     CLICK_WEIGHT := 1;
     THRESHOLD_WEIGHT := 1 / 2 |}.

End Reference.

(** ** data_service.py: the block frame and the loading of the files

    The metrics side of [DataService] is [DataService.t]; this module adds
    the block frame and [initialize].  The columns of the block frame are
    those of [pipeline/schema.py], typed as the annotations of the accessors
    give them ([-> Optional[str]] stands for a missing row); null cells are
    outside the model. *)
Module DataFiles.

(** One row of [blocks.parquet]. *)
Record BlockRow := {
  block_id : Z;
  file_id : Z;
  file_path : string;
  block_type : string;
  block_name : string;
  language : string;
  start_line : Z;
  end_line : Z;
  code : string
}.

(** A row of the block frame without its [code] column. *)
Record BlockMeta := {
  meta_block_id : Z;
  meta_file_id : Z;
  meta_file_path : string;
  meta_block_type : string;
  meta_block_name : string;
  meta_language : string;
  meta_start_line : Z;
  meta_end_line : Z
}.

(** [metrics.parquet]: the names of its columns, in file order, and its rows
    (the cells of a row follow the columns other than [block_id]). *)
Record MetricsFile := {
  schema : list string;
  frame : list DataService.MetricsRow
}.

(** The directory [data/output]: each of the two files is there or not. *)
Record DataDir := {
  blocks_parquet : option (list BlockRow);
  metrics_parquet : option MetricsFile
}.

(** The [DataService] object: the fields of [DataService.t] and the block
    frame. *)
Record t := {
  metrics : DataService.t;
  _blocks_df : option (list BlockRow)
}.

(** [DataService()] *)
Definition __init__ : t :=
  {| metrics := DataService.__init__; _blocks_df := None |}.

(** [initialize]: the outcome and the object afterwards.  A missing
    [blocks.parquet] raises before any field is written. *)
Definition initialize (self : t) (dir : DataDir) : result unit * t :=
  match blocks_parquet dir with
  | None => (Raise "FileNotFoundError", self)
  | Some blocks =>
      let m := metrics self in
      let '(lazy, columns) :=
        match metrics_parquet dir with
        | Some file =>
            (Some (frame file), filter (fun c => c <> "block_id"%string) (schema file))
        | None => (DataService._metrics_lazy m, DataService._metric_columns m)
        end in
      (Ok tt,
       {| metrics := {| DataService._metrics_lazy := lazy;
                        DataService._metric_columns := columns;
                        DataService._ready := true |};
          _blocks_df := Some blocks |})
  end.

Definition is_ready (self : t) : bool := DataService.is_ready (metrics self).

Definition metric_columns (self : t) : list string :=
  DataService.metric_columns (metrics self).

Definition get_metrics (self : t) (block_ids : list Z)
  : option (list DataService.MetricsRow) :=
  DataService.get_metrics (metrics self) block_ids.

Definition without_code (row : BlockRow) : BlockMeta :=
  {| meta_block_id := block_id row;
     meta_file_id := file_id row;
     meta_file_path := file_path row;
     meta_block_type := block_type row;
     meta_block_name := block_name row;
     meta_language := language row;
     meta_start_line := start_line row;
     meta_end_line := end_line row |}.

(** [get_all_blocks]: every column but [code]. *)
Definition get_all_blocks (self : t) : result (list BlockMeta) :=
  match _blocks_df self with
  | None => Raise "AssertionError"
  | Some df => Ok (map without_code df)
  end.

(** [df.filter(pl.col("block_id") == block_id)] *)
Definition rows_with_id (df : list BlockRow) (id : Z) : list BlockRow :=
  filter (fun row => block_id row = id) df.

(** [get_block_code] *)
Definition get_block_code (self : t) (id : Z) : result (option string) :=
  match _blocks_df self with
  | None => Raise "AssertionError"
  | Some df =>
      match rows_with_id df id with
      | [] => Ok None
      | row :: _ => Ok (Some (code row))
      end
  end.

(** [get_block_language] *)
Definition get_block_language (self : t) (id : Z) : result string :=
  match _blocks_df self with
  | None => Raise "AssertionError"
  | Some df =>
      match rows_with_id df id with
      | [] => Ok "text"%string
      | row :: _ => Ok (language row)
      end
  end.

(** A data directory that holds two blocks and no metrics file. *)
Definition blocks_only : DataDir :=
  {| blocks_parquet :=
       Some [ {| block_id := 1; file_id := 0; file_path := "src/python/module_0.py";
                 block_type := "function"; block_name := "function_1";
                 language := "python"; start_line := 3; end_line := 5;
                 code := "def hello(name): return name" |};
              {| block_id := 2; file_id := 0; file_path := "src/go/module_0.go";
                 block_type := "method"; block_name := "method_2";
                 language := "go"; start_line := 7; end_line := 9;
                 code := "func Map() {}" |} ];
     metrics_parquet := None |}.

(** A data directory that holds two blocks and a metrics file with one
    metric column and three rows. *)
Definition blocks_and_metrics : DataDir :=
  {| blocks_parquet := blocks_parquet blocks_only;
     metrics_parquet :=
       Some {| schema := ["block_id"; "loc"]%string;
               frame :=
                 [ {| DataService.block_id := 1; DataService.cells := [Some 0] |};
                   {| DataService.block_id := 2; DataService.cells := [Some 1] |};
                   {| DataService.block_id := 3; DataService.cells := [Some 3] |} ] |} |}.

End DataFiles.

(** ** models/blocks.py, models/cold_start.py *)
Module ApiModels.

Record BlockInfo := {
  block_id : Z;
  file_id : Z;
  file_path : string;
  block_type : string;
  block_name : string;
  language : string;
  start_line : Z;
  end_line : Z
}.

Record BlockCodeResponse := {
  code_block_id : Z;
  code : string;
  code_language : string
}.

Record BlockListResponse := {
  blocks : list BlockInfo;
  metric_columns : list string;
  total_blocks : nat
}.

Record ColdStartRequest := {
  block_ids : list Z;
  num_suggestions : Z
}.

(** [ColdStartRequest(block_ids=...)]: [num_suggestions] defaults to 10. *)
Definition ColdStartRequest_default (block_ids : list Z) : ColdStartRequest :=
  {| block_ids := block_ids; num_suggestions := 10 |}.

Record ColdStartResponse := {
  suggestion_ids : list Z
}.

End ApiModels.

(** ** api/blocks.py, api/classification.py, api/cold_start.py *)
Module Api.

(** What an endpoint function does: it returns a response model, raises an
    [HTTPException], or lets another exception through. *)
Inductive outcome (A : Type) : Type :=
| Respond (a : A)
| HTTPException (status_code : nat) (detail : string)
| Failure (e : string).
Arguments Respond {A} a.
Arguments HTTPException {A} status_code detail.
Arguments Failure {A} e.

(** The status of the HTTP response: 200 for a response model, the code of
    an [HTTPException], and 500 from [general_exception_handler] of
    [main.py] for any other exception. *)
Definition status_code_of {A : Type} (o : outcome A) : nat :=
  match o with
  | Respond _ => 200
  | HTTPException status_code _ => status_code
  | Failure _ => 500
  end.

(** A call of a service method inside an endpoint. *)
Definition call {A : Type} (r : result A) : outcome A :=
  match r with
  | Ok a => Respond a
  | Raise e => Failure e
  end.

#[export] Instance outcome_ret : MRet outcome := fun A a => Respond a.
#[export] Instance outcome_bind : MBind outcome :=
  fun A B f m =>
    match m with
    | Respond a => f a
    | HTTPException status_code detail => HTTPException status_code detail
    | Failure e => Failure e
    end.

Section estimators.
Context `{Estimators}.

(** The module-level service variables of the three routers.  The services
    hold the data service they were built with; nothing writes to it after
    start-up. *)
Record t := {
  _data_service : option DataFiles.t;
  _classification_service : option Classification.ClassificationService;
  _cold_start_service : option DataService.t
}.

(** The routers as imported: no service is set. *)
Definition unset : t :=
  {| _data_service := None;
     _classification_service := None;
     _cold_start_service := None |}.

Definition set_data_service (api : t) (ds : DataFiles.t) : t :=
  {| _data_service := Some ds;
     _classification_service := _classification_service api;
     _cold_start_service := _cold_start_service api |}.

Definition set_classification_service (api : t)
    (svc : Classification.ClassificationService) : t :=
  {| _data_service := _data_service api;
     _classification_service := Some svc;
     _cold_start_service := _cold_start_service api |}.

Definition set_cold_start_service (api : t) (svc : DataService.t) : t :=
  {| _data_service := _data_service api;
     _classification_service := _classification_service api;
     _cold_start_service := Some svc |}.

(** [BlockInfo] built from the cells of a row. *)
Definition to_block_info (row : DataFiles.BlockMeta) : ApiModels.BlockInfo :=
  {| ApiModels.block_id := DataFiles.meta_block_id row;
     ApiModels.file_id := DataFiles.meta_file_id row;
     ApiModels.file_path := DataFiles.meta_file_path row;
     ApiModels.block_type := DataFiles.meta_block_type row;
     ApiModels.block_name := DataFiles.meta_block_name row;
     ApiModels.language := DataFiles.meta_language row;
     ApiModels.start_line := DataFiles.meta_start_line row;
     ApiModels.end_line := DataFiles.meta_end_line row |}.

(** The guard of the two block endpoints. *)
Definition ready_data_service (api : t) : outcome DataFiles.t :=
  match _data_service api with
  | None => HTTPException 503 "Service not ready"
  | Some ds =>
      if DataFiles.is_ready ds then Respond ds
      else HTTPException 503 "Service not ready"
  end.

(** [GET /blocks] *)
Definition get_blocks (api : t) : outcome ApiModels.BlockListResponse :=
  ds ← ready_data_service api;
  df ← call (DataFiles.get_all_blocks ds);
  let blocks := map to_block_info df in
  mret {| ApiModels.blocks := blocks;
          ApiModels.metric_columns := DataFiles.metric_columns ds;
          ApiModels.total_blocks := length blocks |}.

(** [GET /blocks/{block_id}/code] *)
Definition get_block_code (api : t) (block_id : Z)
  : outcome ApiModels.BlockCodeResponse :=
  ds ← ready_data_service api;
  code ← call (DataFiles.get_block_code ds block_id);
  match code with
  | None => HTTPException 404 "Block not found"
  | Some code =>
      lang ← call (DataFiles.get_block_language ds block_id);
      mret {| ApiModels.code_block_id := block_id;
              ApiModels.code := code;
              ApiModels.code_language := lang |}
  end.

(** [POST /similarity-score-histogram]: the outcome and the routers
    afterwards (the service keeps its cache). *)
Definition similarity_score_histogram (api : t)
    (request : Models.SimilarityHistogramRequest)
  : outcome Models.SimilarityHistogramResponse * t :=
  match _classification_service api with
  | None => (HTTPException 503 "Service not ready", api)
  | Some svc =>
      let '(r, svc') := Classification.get_similarity_score_histogram svc request in
      (call r, set_classification_service api svc')
  end.

(** [POST /cold-start/representative] *)
Definition cold_start_representative (api : t) (request : ApiModels.ColdStartRequest)
  : outcome ApiModels.ColdStartResponse :=
  match _cold_start_service api with
  | None => HTTPException 503 "Service not ready"
  | Some data_service =>
      ids ← call (ColdStart.get_suggestions data_service
                    (ApiModels.block_ids request) (ApiModels.num_suggestions request));
      mret {| ApiModels.suggestion_ids := ids |}
  end.

End estimators.
End Api.

(** ** main.py *)
Module Main.

Section estimators.
Context `{Estimators}.

(** The module-level [data_service] of [main.py] and the routers. *)
Record App := {
  data_service : option DataFiles.t;
  api : Api.t
}.

(** The application before start-up. *)
Definition imported : App := {| data_service := None; api := Api.unset |}.

(** The start-up half of [lifespan], up to [yield]: the outcome (an
    exception is logged and raised again) and the application afterwards. *)
Definition lifespan (app : App) (dir : DataFiles.DataDir) : result unit * App :=
  let '(r, ds) := DataFiles.initialize DataFiles.__init__ dir in
  match r with
  | Raise e => (Raise e, {| data_service := Some ds; api := api app |})
  | Ok _ =>
      let cls_service := Classification.__init__ (DataFiles.metrics ds) in
      let api1 := Api.set_classification_service (api app) cls_service in
      let api2 := Api.set_cold_start_service api1 (DataFiles.metrics ds) in
      let api3 := Api.set_data_service api2 ds in
      (Ok tt, {| data_service := Some ds; api := api3 |})
  end.

(** [GET /health]: the [data_service] field of the answer. *)
Definition health_check (app : App) : string :=
  match data_service app with
  | Some ds => if DataFiles.is_ready ds then "connected" else "disconnected"
  | None => "disconnected"
  end.

(** Score requests served one after the other through the endpoint. *)
Definition serve (app : App) (requests : list Models.SimilarityHistogramRequest) : App :=
  fold_left (fun app request =>
               {| data_service := data_service app;
                  api := snd (Api.similarity_score_histogram (api app) request) |})
            requests app.

End estimators.
End Main.

(** ** pytorch_mlp.py

    The parts of [WeightedMLPClassifier] that do not depend on the numeric
    optimisation: the layers of the network, the encoding of the labels, the
    split into training and validation samples, the length of training under
    early stopping, and [predict].  A trained torch module is a value of a
    type [Net] with its forward pass; the permutation that
    [np.random.shuffle] produces and the validation loss after each epoch are
    inputs. *)
Module PytorchMlp.

(** *** [_MLPNetwork] *)
Inductive Layer :=
| Linear (in_features out_features : nat)
| ReLU.

(** [_MLPNetwork.__init__]: the modules handed to [nn.Sequential]. *)
Definition _MLPNetwork (input_dim : nat) (hidden_layer_sizes : list nat)
    (n_classes : nat) : list Layer :=
  let '(layers, prev_dim) :=
    fold_left (fun '(layers, prev_dim) hidden_dim =>
                 (layers ++ [Linear prev_dim hidden_dim; ReLU], hidden_dim))
              hidden_layer_sizes ([], input_dim) in
  layers ++ [Linear prev_dim n_classes].

(** The width of the output of [nn.Sequential] on rows of a given width:
    [Linear] needs rows of [in_features] values (torch raises [RuntimeError]
    otherwise), [ReLU] keeps the width. *)
Definition forward_width (layers : list Layer) (width : nat) : result nat :=
  fold_left (fun acc layer =>
               w ← acc;
               match layer with
               | Linear in_features out_features =>
                   if decide (w = in_features) then Ok out_features
                   else Raise "RuntimeError"
               | ReLU => Ok w
               end)
            layers (Ok width).

(** *** Python and numpy helpers *)

(** [int(x)] on a float: truncation toward zero. *)
Definition py_int (x : R) : Z :=
  if Rle_dec 0 x then Int_part x else (- Int_part (- x))%Z.

(** [l[:k]] and [l[k:]]; a negative [k] counts from the end. *)
Definition slice_to {A : Type} (l : list A) (k : Z) : list A :=
  if (0 <=? k)%Z then take (Z.to_nat k) l
  else take (Z.to_nat (Z.of_nat (length l) + k)) l.

Definition slice_from {A : Type} (l : list A) (k : Z) : list A :=
  if (0 <=? k)%Z then drop (Z.to_nat k) l
  else drop (Z.to_nat (Z.of_nat (length l) + k)) l.

(** [a[idx]] for an array of indices. *)
Definition take_at {A : Type} (a : list A) (idx : list nat) : result (list A) :=
  mapM (fun i => match a !! i with
                 | Some x => Ok x
                 | None => Raise "IndexError"
                 end) idx.

Fixpoint insert_unique (x : Z) (l : list Z) : list Z :=
  match l with
  | [] => [x]
  | y :: t =>
      if (x <? y)%Z then x :: y :: t
      else if (x =? y)%Z then y :: t
      else y :: insert_unique x t
  end.

(** [np.unique]: the distinct values, in increasing order. *)
Definition unique (y : list Z) : list Z := fold_right insert_unique [] y.

(** *** [WeightedMLPClassifier] *)
Section net.
Context {Net : Type}.

Record WeightedMLPClassifier := {
  hidden_layer_sizes : list nat;
  alpha : R;
  max_iter : nat;
  early_stopping : bool;
  validation_fraction : R;
  n_iter_no_change : nat;
  learning_rate_init : R;
  batch_size : nat;
  random_state : option Z;
  _model : option Net;
  _classes : option (list Z);
  n_iter_ : nat
}.

(** [WeightedMLPClassifier()] with the default parameters. *)
Definition __init__ : WeightedMLPClassifier :=
  {| hidden_layer_sizes := [32%nat; 16%nat];
     alpha := 1 / 100;
     max_iter := 500;
     early_stopping := true;
     validation_fraction := 2 / 10;
     n_iter_no_change := 20;
     learning_rate_init := 1 / 1000;
     batch_size := 32;
     random_state := None;
     _model := None;
     _classes := None;
     n_iter_ := 0 |}.

(** [{label: idx for idx, label in enumerate(self._classes)}] *)
Definition label_map (classes : list Z) : list (Z * nat) :=
  PyDict.of_items (zip classes (seq 0 (length classes))).

(** [np.array([label_map[label] for label in y])] *)
Definition map_labels (classes : list Z) (y : list Z) : result (list nat) :=
  mapM (fun label => match PyDict.get (label_map classes) label with
                     | Some idx => Ok idx
                     | None => Raise "KeyError"
                     end) y.

(** [n_val] of [_train_val_split]. *)
Definition n_val_of (self : WeightedMLPClassifier) (n_samples : nat) : Z :=
  let n_val := Z.max 1 (py_int (INR n_samples * validation_fraction self)) in
  if (Z.of_nat n_samples - n_val <? 1)%Z then (Z.of_nat n_samples - 1)%Z else n_val.

(** [_train_val_split]; [shuffle] is what [np.random.shuffle] does to the
    indices. *)
Definition _train_val_split (self : WeightedMLPClassifier)
    (shuffle : list nat -> list nat)
    (X : matrix) (y : list nat) (sample_weight : vector)
  : result (matrix * matrix * list nat * list nat * vector * vector) :=
  let n_samples := length y in
  let n_val := n_val_of self n_samples in
  let indices := shuffle (seq 0 n_samples) in
  let val_idx := slice_to indices n_val in
  let train_idx := slice_from indices n_val in
  X_train ← take_at X train_idx;
  X_val ← take_at X val_idx;
  y_train ← take_at y train_idx;
  y_val ← take_at y val_idx;
  w_train ← take_at sample_weight train_idx;
  w_val ← take_at sample_weight val_idx;
  mret (X_train, X_val, y_train, y_val, w_train, w_val).

(** [val_loss < best_val_loss], with [None] for the initial [float('inf')]. *)
Definition improves (val_loss : R) (best_val_loss : option R) : bool :=
  match best_val_loss with
  | None => true
  | Some best => if Rlt_dec val_loss best then true else false
  end.

(** The epoch loop of [fit], as far as it decides how long training runs:
    [val_loss e] is the validation loss measured after epoch [e], and the
    result is the value of [epoch] when the loop is left. *)
Fixpoint training_loop (self : WeightedMLPClassifier) (val_loss : nat -> R)
    (epochs : list nat) (best_val_loss : option R) (epochs_no_improve : nat)
    (epoch : nat) : nat :=
  match epochs with
  | [] => epoch
  | e :: rest =>
      if early_stopping self then
        if improves (val_loss e) best_val_loss
        then training_loop self val_loss rest (Some (val_loss e)) 0 e
        else if (n_iter_no_change self <=? S epochs_no_improve)%nat then e
             else training_loop self val_loss rest best_val_loss (S epochs_no_improve) e
      else training_loop self val_loss rest best_val_loss epochs_no_improve e
  end.

(** [self.n_iter_] after [fit]. *)
Definition n_iter_after_fit (self : WeightedMLPClassifier) (val_loss : nat -> R) : nat :=
  S (training_loop self val_loss (seq 0 (max_iter self)) None 0 0).

(** [torch.max(outputs, 1)] on one row: the index of the first maximum. *)
Definition torch_max_index (logits : vector) : result nat :=
  match logits with
  | [] => Raise "IndexError"
  | x :: t => Ok (fst (Np.first_max x t))
  end.

(** [predict] *)
Definition predict (forward : Net -> vector -> vector)
    (self : WeightedMLPClassifier) (X : matrix) : result (list Z) :=
  match _model self, _classes self with
  | Some model, Some classes =>
      predicted ← mapM (fun row => torch_max_index (forward model row)) X;
      take_at classes predicted
  | _, _ => Raise "RuntimeError"
  end.

End net.
Arguments WeightedMLPClassifier Net : clear implicits.

End PytorchMlp.
(** ** Facts about the numpy primitives *)
Module NpFacts.
Import Np.

Lemma first_max_spec (l : vector) : forall x,
  let r := first_max x l in
  (fst r < S (length l))%nat /\
  nth (fst r) (x :: l) 0 = snd r /\
  (forall k, (k < S (length l))%nat -> nth k (x :: l) 0 <= snd r) /\
  (forall k, (k < fst r)%nat -> nth k (x :: l) 0 < snd r).
Proof.
  induction l as [|y t IH]; intros x; cbn [first_max].
  - cbn. repeat split; try lia.
    + intros [|k] Hk; [lra | lia].
  - specialize (IH y). destruct (first_max y t) as [i m]. cbn [fst snd] in IH.
    destruct IH as (Hi & Hnth & Hall & Hbefore).
    destruct (Rlt_dec x m) as [Hlt | Hge]; cbn [fst snd length].
    + split; [lia|]. split; [exact Hnth|]. split.
      * intros [|k] Hk; [cbn; lra | apply Hall; lia].
      * intros [|k] Hk; [cbn; lra | apply Hbefore; lia].
    + split; [lia|]. split; [reflexivity|]. split.
      * intros [|k] Hk; [cbn; lra |].
        specialize (Hall k ltac:(lia)). change (nth (S k) (x :: y :: t) 0) with (nth k (y :: t) 0). lra.
      * intros k Hk; lia.
Qed.

Lemma argmax_is_Some (l : vector) : l <> [] -> exists a, argmax l = Ok a.
Proof. destruct l; [congruence | intros _; eexists; reflexivity]. Qed.

Lemma argmax_spec (l : vector) (a : nat) :
  argmax l = Ok a ->
  (a < length l)%nat /\
  (forall k, (k < length l)%nat -> nth k l 0 <= nth a l 0) /\
  (forall k, (k < a)%nat -> nth k l 0 < nth a l 0).
Proof.
  destruct l as [|x t]; [discriminate|]. cbn [argmax]. intros [= <-].
  pose proof (first_max_spec t x) as H. cbv zeta in H.
  destruct H as (H1 & H2 & H3 & H4). rewrite H2. cbn [length]. auto.
Qed.

Lemma length_fold_zip_min (rows : matrix) : forall (r0 : vector) (n : nat),
  length r0 = n -> Forall (fun r => length r = n) rows ->
  length (fold_left (zip_with Rmin) rows r0) = n.
Proof.
  induction rows as [|r rows IH]; intros r0 n H0 Hall; cbn; [exact H0|].
  inversion Hall; subst. apply IH; [|assumption].
  rewrite length_zip_with. lia.
Qed.

Lemma nth_fold_zip_min (rows : matrix) : forall (r0 : vector) (n c : nat),
  length r0 = n -> Forall (fun r => length r = n) rows -> (c < n)%nat ->
  nth c (fold_left (zip_with Rmin) rows r0) 0 =
  fold_left Rmin (map (fun r => nth c r 0) rows) (nth c r0 0).
Proof.
  induction rows as [|r rows IH]; intros r0 n c H0 Hall Hc; cbn; [reflexivity|].
  inversion Hall as [|? ? Hr Hrest]; subst.
  rewrite (IH _ (length r0) c); [| rewrite length_zip_with; lia | assumption | assumption].
  f_equal. rewrite !nth_lookup, lookup_zip_with.
  destruct (lookup_lt_is_Some_2 r0 c Hc) as [u Hu].
  destruct (lookup_lt_is_Some_2 r c ltac:(lia)) as [v Hv].
  rewrite Hu, Hv. reflexivity.
Qed.

Lemma length_set_at (idx : list nat) (c : R) : forall v, length (set_at idx c v) = length v.
Proof.
  unfold set_at. induction idx as [|i idx IH]; intros v; cbn [fold_left]; [reflexivity|].
  rewrite IH. apply length_insert.
Qed.

Lemma nth_set_at (idx : list nat) (c : R) : forall v k,
  (k < length v)%nat ->
  nth k (set_at idx c v) 0 = if in_dec Nat.eq_dec k idx then c else nth k v 0.
Proof.
  unfold set_at. induction idx as [|i idx IH]; intros v k Hk; cbn [fold_left]; [reflexivity|].
  rewrite IH by (rewrite length_insert; exact Hk).
  destruct (in_dec Nat.eq_dec k idx) as [Hin | Hnot];
    destruct (in_dec Nat.eq_dec k (i :: idx)) as [Hin' | Hnot']; try reflexivity.
  - exfalso. apply Hnot'. right. exact Hin.
  - destruct Hin' as [-> | Hin']; [|contradiction].
    rewrite nth_lookup, list_lookup_insert_eq; [reflexivity | exact Hk].
  - assert (i <> k) by (intros ->; apply Hnot'; left; reflexivity).
    rewrite !nth_lookup, list_lookup_insert_ne by assumption. reflexivity.
Qed.

Lemma fold_Rmin_le_init (l : vector) : forall m, fold_left Rmin l m <= m.
Proof.
  induction l as [|x l IH]; intros m; cbn; [lra|].
  eapply Rle_trans; [apply IH | apply Rmin_l].
Qed.

Lemma fold_Rmin_lower (l : vector) : forall m b,
  b <= m -> Forall (fun x => b <= x) l -> b <= fold_left Rmin l m.
Proof.
  induction l as [|x l IH]; intros m b Hm Hall; cbn; [exact Hm|].
  inversion Hall; subst. apply IH; [|assumption].
  apply Rmin_glb; assumption.
Qed.

Lemma fold_Rmin_le_elem (l : vector) : forall m x, In x l -> fold_left Rmin l m <= x.
Proof.
  induction l as [|y l IH]; intros m x Hin; [destruct Hin|].
  cbn. destruct Hin as [-> | Hin].
  - eapply Rle_trans; [apply fold_Rmin_le_init | apply Rmin_r].
  - apply IH. exact Hin.
Qed.

Lemma fold_Rmin_attained (l : vector) : forall m,
  fold_left Rmin l m = m \/ In (fold_left Rmin l m) l.
Proof.
  induction l as [|y l IH]; intros m; cbn; [left; reflexivity|].
  destruct (IH (Rmin m y)) as [H | H]; [|right; right; exact H].
  rewrite H. unfold Rmin. destruct (Rle_dec m y); [left | right; left]; reflexivity.
Qed.

Lemma fold_Rmax_ge_init (l : vector) : forall m, m <= fold_left Rmax l m.
Proof.
  induction l as [|x l IH]; intros m; cbn; [lra|].
  eapply Rle_trans; [apply (Rmax_l m x) | apply IH].
Qed.

Lemma fold_Rmax_ge_elem (l : vector) : forall m x, In x l -> x <= fold_left Rmax l m.
Proof.
  induction l as [|y l IH]; intros m x Hin; [destruct Hin|].
  cbn. destruct Hin as [-> | Hin].
  - eapply Rle_trans; [apply (Rmax_r m x) | apply fold_Rmax_ge_init].
  - apply IH. exact Hin.
Qed.

Lemma fold_Rmax_attained (l : vector) : forall m,
  fold_left Rmax l m = m \/ In (fold_left Rmax l m) l.
Proof.
  induction l as [|y l IH]; intros m; cbn; [left; reflexivity|].
  destruct (IH (Rmax m y)) as [H | H]; [|right; right; exact H].
  rewrite H. unfold Rmax. destruct (Rle_dec m y); [right; left | left]; reflexivity.
Qed.

(** [amin] is the least and [amax] the greatest element. *)
Lemma amin_spec (x : R) (t : vector) :
  In (amin x t) (x :: t) /\ forall y, In y (x :: t) -> amin x t <= y.
Proof.
  unfold amin. split.
  - destruct (fold_Rmin_attained t x) as [-> | Hin]; [left; reflexivity | right; exact Hin].
  - intros y [<- | Hy]; [apply fold_Rmin_le_init | apply fold_Rmin_le_elem; exact Hy].
Qed.

Lemma amax_spec (x : R) (t : vector) :
  In (amax x t) (x :: t) /\ forall y, In y (x :: t) -> y <= amax x t.
Proof.
  unfold amax. split.
  - destruct (fold_Rmax_attained t x) as [-> | Hin]; [left; reflexivity | right; exact Hin].
  - intros y [<- | Hy]; [apply fold_Rmax_ge_init | apply fold_Rmax_ge_elem; exact Hy].
Qed.

Lemma amin_le_amax (x : R) (t : vector) : amin x t <= amax x t.
Proof.
  destruct (amin_spec x t) as [_ Hmin]. destruct (amax_spec x t) as [_ Hmax].
  eapply Rle_trans; [apply (Hmin x) | apply (Hmax x)]; left; reflexivity.
Qed.

(** The mean lies between any bounds of the elements. *)
Lemma sum_bounds (l : vector) (lo hi : R) :
  (forall y, In y l -> lo <= y <= hi) ->
  INR (length l) * lo <= sum l <= INR (length l) * hi.
Proof.
  induction l as [|x l IH]; intros Hb.
  - cbn. lra.
  - cbn [length sum fold_right]. rewrite S_INR.
    destruct (Hb x (or_introl eq_refl)) as [Hlo Hhi].
    destruct IH as [IHlo IHhi]; [intros y Hy; apply Hb; right; exact Hy|].
    unfold sum in *. lra.
Qed.

Lemma mean_bounds (l : vector) (lo hi : R) :
  l <> [] -> (forall y, In y l -> lo <= y <= hi) -> lo <= mean l <= hi.
Proof.
  intros Hne Hb. unfold mean. pose proof (sum_bounds l lo hi Hb) as [Hlo Hhi].
  assert (Hn : 0 < INR (length l)).
  { apply lt_0_INR. destruct l; [congruence | cbn; lia]. }
  split.
  - apply (Rmult_le_reg_r (INR (length l))); [exact Hn|]. field_simplify; lra.
  - apply (Rmult_le_reg_r (INR (length l))); [exact Hn|]. field_simplify; lra.
Qed.

(** [sort] returns a sorted rearrangement. *)
Lemma insert_sorted_perm (x : R) (l : vector) : Permutation (insert_sorted x l) (x :: l).
Proof.
  induction l as [|y l IH]; cbn; [reflexivity|].
  destruct (Rle_dec x y); [reflexivity|].
  rewrite IH. apply perm_swap.
Qed.

Lemma sort_perm (l : vector) : Permutation (sort l) l.
Proof.
  induction l as [|x l IH]; cbn; [reflexivity|].
  rewrite insert_sorted_perm. constructor. exact IH.
Qed.

Lemma insert_sorted_sorted (x : R) (l : vector) :
  Sorted Rle l -> Sorted Rle (insert_sorted x l).
Proof.
  induction 1 as [|y l Hs IH Hhd]; cbn; [repeat constructor|].
  destruct (Rle_dec x y) as [Hxy | Hxy].
  - constructor; [constructor; assumption | constructor; exact Hxy].
  - constructor; [exact IH|].
    destruct l as [|z l]; cbn.
    + constructor. lra.
    + destruct (Rle_dec x z); constructor; [lra|]. inversion Hhd; assumption.
Qed.

Lemma sort_sorted (l : vector) : Sorted Rle (sort l).
Proof.
  induction l as [|x l IH]; cbn; [constructor | apply insert_sorted_sorted; exact IH].
Qed.

Lemma median_bounds (l : vector) (lo hi : R) :
  l <> [] -> (forall y, In y l -> lo <= y <= hi) -> lo <= median l <= hi.
Proof.
  intros Hne Hb. unfold median.
  assert (Hlen : length (sort l) = length l) by (apply Permutation_length, sort_perm).
  assert (Hn : (0 < length l)%nat) by (destruct l; [congruence | cbn; lia]).
  assert (Hnth : forall i, (i < length l)%nat -> lo <= nth i (sort l) 0 <= hi).
  { intros i Hi. apply Hb. apply (Permutation_in _ (sort_perm l)).
    apply nth_In. lia. }
  assert (Hhalf : (length l / 2 < length l)%nat) by (apply Nat.div_lt; lia).
  destruct (Nat.even (length l)).
  - pose proof (Hnth (length l / 2 - 1)%nat ltac:(lia)).
    pose proof (Hnth (length l / 2)%nat Hhalf). lra.
  - apply Hnth. exact Hhalf.
Qed.

End NpFacts.

(** ** Kennard-Stone: auxiliary notions and lemmas *)
Module ColdStartFacts.
Import Np NpFacts ColdStart.

Lemma norm_nonneg (v : vector) : 0 <= norm v.
Proof. apply sqrt_pos. Qed.

Lemma sub_self_squares (v : vector) :
  fold_right Rplus 0 (map (fun x => x * x) (sub v v)) = 0.
Proof.
  unfold sub. induction v as [|x v IH]; cbn; [reflexivity|].
  cbn in IH. rewrite IH. lra.
Qed.

Lemma dist_at_self (X : matrix) (i : nat) : dist_at X i i = 0.
Proof. unfold dist_at, norm. rewrite sub_self_squares. apply sqrt_0. Qed.

Lemma dist_at_nonneg (X : matrix) (i j : nat) : 0 <= dist_at X i j.
Proof. apply norm_nonneg. Qed.

Lemma length_pairwise_dist (X : matrix) : length (pairwise_dist X) = length X.
Proof. unfold pairwise_dist. apply length_map. Qed.

Lemma pairwise_dist_row (X : matrix) (i : nat) :
  (i < length X)%nat ->
  nth i (pairwise_dist X) [] = map (fun xj => norm (sub (nth i X []) xj)) X.
Proof.
  intros Hi. unfold pairwise_dist.
  rewrite (nth_indep _ [] ((fun xi => map (fun xj => norm (sub xi xj)) X) []))
    by (rewrite length_map; exact Hi).
  rewrite (map_nth (fun xi => map (fun xj => norm (sub xi xj)) X)). reflexivity.
Qed.

Lemma pairwise_dist_rows_length (X : matrix) :
  Forall (fun r => length r = length X) (pairwise_dist X).
Proof.
  unfold pairwise_dist. apply List.Forall_forall. intros r Hr.
  apply in_map_iff in Hr. destruct Hr as (xi & <- & _). apply length_map.
Qed.

Lemma pairwise_dist_cell (X : matrix) (i j : nat) :
  (i < length X)%nat -> (j < length X)%nat ->
  nth j (nth i (pairwise_dist X) []) 0 = dist_at X i j.
Proof.
  intros Hi Hj. rewrite pairwise_dist_row by exact Hi.
  rewrite (nth_indep _ 0 ((fun xj => norm (sub (nth i X []) xj)) []))
    by (rewrite length_map; exact Hj).
  rewrite (map_nth (fun xj => norm (sub (nth i X []) xj))). reflexivity.
Qed.

Lemma min_to_nonneg (X : matrix) (sel : list nat) (c : nat) : 0 <= min_to X sel c.
Proof.
  destruct sel as [|s ss]; cbn; [lra|].
  apply fold_Rmin_lower; [apply dist_at_nonneg|].
  apply List.Forall_forall. intros x Hx. apply in_map_iff in Hx.
  destruct Hx as (s' & <- & _). apply dist_at_nonneg.
Qed.

(** [min_to] is indeed the least distance to a selected point. *)
Lemma min_to_spec (X : matrix) (sel : list nat) (c : nat) :
  sel <> [] ->
  (forall s, In s sel -> min_to X sel c <= dist_at X s c) /\
  (exists s, In s sel /\ min_to X sel c = dist_at X s c).
Proof.
  destruct sel as [|s0 ss]; [congruence|]. intros _. cbn [min_to]. split.
  - intros s [<- | Hs]; [apply fold_Rmin_le_init|].
    apply fold_Rmin_le_elem. apply in_map_iff. exists s. split; [reflexivity | exact Hs].
  - destruct (fold_Rmin_attained (map (fun s' => dist_at X s' c) ss) (dist_at X s0 c)) as [H | H].
    + exists s0. split; [left; reflexivity | exact H].
    + apply in_map_iff in H. destruct H as (s & Hs & Hin).
      exists s. split; [right; exact Hin | symmetry; exact Hs].
Qed.

Lemma length_min_dists (X : matrix) (s : nat) (ss : list nat) :
  Forall (fun i => (i < length X)%nat) (s :: ss) ->
  length (min_dists (pairwise_dist X) (s :: ss)) = length X.
Proof.
  intros Hsel. unfold min_dists, min_axis0. rewrite length_set_at.
  cbn [map hd tl]. inversion Hsel as [|? ? Hs Hss]; subst.
  apply length_fold_zip_min.
  - rewrite pairwise_dist_row by exact Hs. apply length_map.
  - apply List.Forall_forall. intros r Hr. apply in_map_iff in Hr.
    destruct Hr as (i & <- & Hi).
    rewrite pairwise_dist_row by (eapply List.Forall_forall in Hss; eauto).
    apply length_map.
Qed.

Lemma nth_min_dists (X : matrix) (s : nat) (ss : list nat) (c : nat) :
  Forall (fun i => (i < length X)%nat) (s :: ss) -> (c < length X)%nat ->
  nth c (min_dists (pairwise_dist X) (s :: ss)) 0 =
  if in_dec Nat.eq_dec c (s :: ss) then -1 else min_to X (s :: ss) c.
Proof.
  intros Hsel Hc. inversion Hsel as [|? ? Hs Hss]; subst.
  assert (Hrows : Forall (fun r => length r = length X)
                    (map (fun i => nth i (pairwise_dist X) []) ss)).
  { apply List.Forall_forall. intros r Hr. apply in_map_iff in Hr.
    destruct Hr as (i & <- & Hi).
    rewrite pairwise_dist_row by (eapply List.Forall_forall in Hss; eauto).
    apply length_map. }
  assert (Hrow0 : length (nth s (pairwise_dist X) []) = length X).
  { rewrite pairwise_dist_row by exact Hs. apply length_map. }
  unfold min_dists, min_axis0. cbn [map hd tl].
  rewrite nth_set_at
    by (rewrite (length_fold_zip_min _ _ (length X)); assumption).
  destruct (in_dec Nat.eq_dec c (s :: ss)) as [_ | _]; [reflexivity|].
  rewrite (nth_fold_zip_min _ _ (length X)) by assumption.
  cbn [min_to]. rewrite pairwise_dist_cell by assumption.
  f_equal. rewrite map_map. apply map_ext_in. intros i Hi.
  apply pairwise_dist_cell; [|exact Hc].
  eapply List.Forall_forall in Hss; eauto.
Qed.

(** Some index below [n] is missing from a duplicate-free list shorter than [n]. *)
Lemma fresh_index (sel : list nat) (n : nat) :
  NoDup sel -> (length sel < n)%nat -> exists c, (c < n)%nat /\ ~ In c sel.
Proof.
  intros Hnd Hlen.
  destruct (List.Exists_dec (fun c => ~ In c sel) (seq 0 n)) as [Hex | Hnone].
  - intros c. destruct (in_dec Nat.eq_dec c sel); [right | left]; tauto.
  - apply List.Exists_exists in Hex. destruct Hex as (c & Hc & Hnot).
    apply in_seq in Hc. exists c. split; [lia | exact Hnot].
  - exfalso. assert (Hincl : incl (seq 0 n) sel).
    { intros c Hc. destruct (in_dec Nat.eq_dec c sel) as [Hin | Hnot]; [exact Hin|].
      exfalso. apply Hnone. apply List.Exists_exists. exists c. split; assumption. }
    apply (NoDup_incl_length (seq_NoDup n 0)) in Hincl.
    rewrite length_seq in Hincl. lia.
Qed.

(** One iteration of the loop picks the farthest unselected point. *)
Lemma step_farthest (X : matrix) (sel : list nat) :
  sel <> [] -> NoDup sel -> Forall (fun i => (i < length X)%nat) sel ->
  (length sel < length X)%nat ->
  exists a, argmax (min_dists (pairwise_dist X) sel) = Ok a /\ farthest X sel a.
Proof.
  intros Hne Hnd Hsel Hlen. destruct sel as [|s ss]; [congruence|].
  pose proof (length_min_dists X s ss Hsel) as Hmdlen.
  destruct (argmax_is_Some (min_dists (pairwise_dist X) (s :: ss))) as [a Ha].
  { intros E. rewrite E in Hmdlen. cbn in Hmdlen. lia. }
  exists a. split; [exact Ha|].
  apply argmax_spec in Ha. rewrite Hmdlen in Ha. destruct Ha as (Halt & Hmax & Hfirst).
  destruct (fresh_index (s :: ss) (length X) Hnd Hlen) as (c0 & Hc0 & Hc0not).
  assert (Hfree : forall c, (c < length X)%nat -> ~ In c (s :: ss) ->
            nth c (min_dists (pairwise_dist X) (s :: ss)) 0 = min_to X (s :: ss) c).
  { intros c Hc Hnot. rewrite nth_min_dists by assumption.
    destruct (in_dec Nat.eq_dec c (s :: ss)); [contradiction | reflexivity]. }
  assert (Hanot : ~ In a (s :: ss)).
  { intros Hin. pose proof (Hmax c0 Hc0) as Hle.
    rewrite (Hfree c0 Hc0 Hc0not) in Hle.
    rewrite nth_min_dists in Hle by assumption.
    destruct (in_dec Nat.eq_dec a (s :: ss)); [|contradiction].
    pose proof (min_to_nonneg X (s :: ss) c0). lra. }
  split; [exact Halt|]. split; [exact Hanot|].
  intros c Hc Hnot. rewrite <- (Hfree c Hc Hnot), <- (Hfree a Halt Hanot).
  split; [apply Hmax; exact Hc | intros Hlt; apply Hfirst; exact Hlt].
Qed.

(** The loop, unfolded once. *)
Lemma ks_loop_unfold (dist : matrix) (n : Z) (selected : list nat) :
  ks_loop dist n selected =
  if Z_lt_dec (Z.of_nat (length selected)) n then
    match argmax (min_dists dist selected) with
    | Ok a => ks_loop dist n (selected ++ [a])
    | Raise e => Raise e
    end
  else Ok selected.
Proof.
  rewrite ks_loop_equation_1.
  destruct (Z_lt_dec (Z.of_nat (length selected)) n); cbn; [|reflexivity].
  destruct (argmax (min_dists dist selected)); reflexivity.
Qed.

Lemma ks_loop_spec (X : matrix) (k : Z) : forall (fuel : nat) (sel0 : list nat),
  Z.to_nat (k - Z.of_nat (length sel0)) = fuel ->
  sel0 <> [] -> NoDup sel0 -> Forall (fun i => (i < length X)%nat) sel0 ->
  (Z.of_nat (length sel0) <= k)%Z -> (k < Z.of_nat (length X))%Z ->
  exists sel, ks_loop (pairwise_dist X) k sel0 = Ok sel /\
    Z.of_nat (length sel) = k /\ NoDup sel /\
    Forall (fun i => (i < length X)%nat) sel /\
    firstn (length sel0) sel = sel0 /\
    forall t, (length sel0 <= t < length sel)%nat ->
      farthest X (firstn t sel) (nth t sel 0%nat).
Proof.
  induction fuel as [|fuel IH]; intros sel0 Hfuel Hne Hnd Hsel Hle Hlt;
    rewrite ks_loop_unfold;
    destruct (Z_lt_dec (Z.of_nat (length sel0)) k) as [Hlen | Hlen]; try lia.
  - exists sel0. repeat split; try assumption; try lia; try apply firstn_all.
  - destruct (step_farthest X sel0 Hne Hnd Hsel ltac:(lia)) as (a & Ha & Hfar).
    rewrite Ha. destruct Hfar as (Halt & Hanot & Hbest).
    destruct (IH (sel0 ++ [a])) as (sel & Hrun & Hk & Hnd' & Hsel' & Hpre & Hsteps).
    + rewrite length_app. cbn. lia.
    + destruct sel0; discriminate.
    + apply NoDup_app. repeat split; [exact Hnd | | apply NoDup_singleton].
      intros x Hx Hx'. apply list_elem_of_In in Hx, Hx'.
      destruct Hx' as [<- | []]. contradiction.
    + apply Forall_app. split; [exact Hsel | repeat constructor; exact Halt].
    + rewrite length_app. cbn. lia.
    + exact Hlt.
    + rewrite length_app in Hpre, Hsteps. cbn [length] in Hpre, Hsteps.
      assert (Hpre0 : firstn (length sel0) sel = sel0).
      { replace (length sel0) with (Nat.min (length sel0) (length sel0 + 1)) at 1 by lia.
        rewrite <- firstn_firstn, Hpre. apply take_app_length. }
      assert (Hnth : nth (length sel0) sel 0%nat = a).
      { rewrite <- (firstn_skipn (length sel0 + 1) sel), Hpre.
        rewrite <- app_assoc. rewrite app_nth2 by lia.
        rewrite Nat.sub_diag. reflexivity. }
      exists sel.
      refine (conj Hrun (conj Hk (conj Hnd' (conj Hsel' (conj Hpre0 _))))).
      intros t Ht. destruct (Nat.eq_dec t (length sel0)) as [-> | Hne'].
      * rewrite Hpre0, Hnth. exact (conj Halt (conj Hanot Hbest)).
      * apply Hsteps. lia.
Qed.

(** Row-major flattening of a rectangular array. *)
Lemma length_concat_rect (M : matrix) (n : nat) :
  Forall (fun r => length r = n) M -> length (concat M) = (length M * n)%nat.
Proof.
  induction 1 as [|r M Hr _ IH]; cbn; [reflexivity|].
  rewrite length_app, IH, Hr. reflexivity.
Qed.

Lemma nth_concat_rect (M : matrix) (n : nat) :
  Forall (fun r => length r = n) M ->
  forall a b, (a < length M)%nat -> (b < n)%nat ->
    nth (a * n + b) (concat M) 0 = nth b (nth a M []) 0.
Proof.
  induction 1 as [|r M Hr _ IH]; intros a b Ha Hb; cbn in Ha; [lia|].
  cbn [concat]. destruct a as [|a].
  - cbn. apply app_nth1. lia.
  - rewrite app_nth2 by (rewrite Hr; cbn; lia).
    replace (S a * n + b - length r)%nat with (a * n + b)%nat by (rewrite Hr; cbn; lia).
    cbn [nth]. apply IH; lia.
Qed.

(** [np.unravel_index(np.argmax(dist), dist.shape)] is the first cell holding
    the largest distance. *)
Lemma seed_first_max_pair (X : matrix) (flat : nat) :
  argmax (concat (pairwise_dist X)) = Ok flat ->
  first_max_pair X (flat / length X) (flat mod length X).
Proof.
  intros Hflat. apply argmax_spec in Hflat.
  pose proof (pairwise_dist_rows_length X) as Hrect.
  rewrite (length_concat_rect _ _ Hrect), length_pairwise_dist in Hflat.
  destruct Hflat as (Hlt & Hmax & Hfirst).
  set (n := length X) in *.
  assert (Hn : (0 < n)%nat) by (destruct n; [lia | lia]).
  assert (Hi : (flat / n < n)%nat) by (apply Nat.Div0.div_lt_upper_bound; lia).
  assert (Hj : (flat mod n < n)%nat) by (apply Nat.mod_upper_bound; lia).
  assert (Hdec : flat = (flat / n * n + flat mod n)%nat)
    by (rewrite (Nat.div_mod_eq flat n) at 1; lia).
  assert (Hcell : forall a b, (a < n)%nat -> (b < n)%nat ->
            nth (a * n + b) (concat (pairwise_dist X)) 0 = dist_at X a b).
  { intros a b Ha Hb.
    rewrite (nth_concat_rect _ _ Hrect) by (rewrite ?length_pairwise_dist; assumption).
    apply pairwise_dist_cell; assumption. }
  split; [exact Hi|]. split; [exact Hj|]. intros a b Ha Hb.
  rewrite <- (Hcell a b Ha Hb), <- (Hcell _ _ Hi Hj), <- Hdec. split.
  - apply Hmax. nia.
  - intros Hbefore. apply Hfirst. rewrite Hdec.
    destruct Hbefore as [Hai | [-> Hbj]]; [nia | lia].
Qed.

Lemma first_max_pair_distinct (X : matrix) (i j : nat) :
  first_max_pair X i j ->
  (exists a b, (a < length X)%nat /\ (b < length X)%nat /\ 0 < dist_at X a b) ->
  i <> j.
Proof.
  intros (_ & _ & Hmax) (a & b & Ha & Hb & Hpos) ->.
  destruct (Hmax a b Ha Hb) as [Hle _]. rewrite dist_at_self in Hle. lra.
Qed.

Lemma dist_at_unit (X : matrix) (i j : nat) (x y : R) :
  nth i X [] = [x] -> nth j X [] = [y] -> dist_at X i j = Rabs (x - y).
Proof.
  intros Hi Hj. unfold dist_at, norm, sub. rewrite Hi, Hj. cbn.
  rewrite Rplus_0_r. apply sqrt_Rsqr_abs.
Qed.

(** C6 (as amended).  When [k] is at least the number [n] of rows the
    selection is [0, 1, ..., n-1]; when [2 <= k < n] and two rows differ, it is
    the max-min selection: [k] distinct valid indices, the first two being the
    first pair (row-major) at the largest pairwise Euclidean distance, each
    later one the first unselected point farthest from the points selected
    before it. *)
Theorem kennard_stone_selection (X : matrix) (k : Z) :
  (2 <= k)%Z ->
  ((k < Z.of_nat (length X))%Z ->
   exists a b, (a < length X)%nat /\ (b < length X)%nat /\ 0 < dist_at X a b) ->
  exists sel, _kennard_stone X k = Ok sel /\
    NoDup sel /\ Forall (fun i => (i < length X)%nat) sel /\
    ((Z.of_nat (length X) <= k)%Z -> sel = seq 0 (length X)) /\
    ((k < Z.of_nat (length X))%Z -> max_min_selection X k sel).
Proof.
  intros Hk Hpos. unfold _kennard_stone.
  destruct (Z_le_dec (Z.of_nat (length X)) k) as [Hall | Hlt].
  - exists (seq 0 (length X)). split; [reflexivity|].
    split; [apply NoDup_seq|]. split.
    + apply List.Forall_forall. intros i Hi. apply in_seq in Hi. lia.
    + split; [reflexivity | lia].
  - specialize (Hpos ltac:(lia)).
    destruct (argmax_is_Some (concat (pairwise_dist X))) as [flat Hflat].
    { intros E. apply (f_equal (@length R)) in E.
      rewrite (length_concat_rect _ _ (pairwise_dist_rows_length X)) in E.
      rewrite length_pairwise_dist in E. cbn in E.
      destruct Hpos as (a & _ & Ha & _). nia. }
    rewrite Hflat. pose proof (seed_first_max_pair X flat Hflat) as Hseed.
    pose proof (first_max_pair_distinct _ _ _ Hseed Hpos) as Hij.
    destruct Hseed as (Hi & Hj & Hmax).
    destruct (ks_loop_spec X k _ [(flat / length X)%nat; (flat mod length X)%nat] eq_refl)
      as (sel & Hrun & Hlen & Hnd & Hvalid & Hpre & Hsteps).
    + discriminate.
    + apply NoDup_cons_2; [|apply NoDup_singleton].
      intros Hin. apply list_elem_of_singleton in Hin. congruence.
    + repeat constructor; assumption.
    + cbn. lia.
    + lia.
    + exists sel. split; [exact Hrun|]. split; [exact Hnd|]. split; [exact Hvalid|].
      split; [lia|]. intros _. cbn [length] in Hpre, Hsteps.
      destruct sel as [|s0 [|s1 sel]]; try discriminate Hpre.
      cbn [firstn] in Hpre. injection Hpre as -> ->.
      split; [exact Hlen|]. split; [exact Hnd|]. split; [exact Hvalid|].
      split; [exact (conj Hi (conj Hj Hmax)) | exact Hsteps].
Qed.

(** The amended statement applies to three points on a line, [k = 2]. *)
Lemma kennard_stone_selection_witness :
  exists sel, _kennard_stone [[0]; [1]; [3]] 2 = Ok sel /\
    NoDup sel /\ Forall (fun i => (i < 3)%nat) sel /\
    ((3 <= 2)%Z -> sel = seq 0 3) /\
    ((2 < 3)%Z -> max_min_selection [[0]; [1]; [3]] 2 sel).
Proof.
  apply (kennard_stone_selection [[0]; [1]; [3]] 2).
  - lia.
  - intros _. exists 0%nat, 1%nat. split; [simpl; lia|]. split; [simpl; lia|].
    rewrite (dist_at_unit _ 0 1 0 1) by reflexivity.
    unfold Rabs. destruct (Rcase_abs (0 - 1)); lra.
Defined.

(** C6 as stated fails for [k = n]: the selection is then [0, 1, 2, ...]
    whatever the distances, so its first two points need not be a farthest
    pair.  Here rows 0 and 1 coincide while row 2 lies at distance 1. *)
Lemma kennard_stone_all_rows_not_max_min :
  (2 <= 3)%nat /\ (2 <= 3 <= Z.of_nat (length [[0]; [0]; [1]]))%Z /\
  _kennard_stone [[0]; [0]; [1]] 3 = Ok [0; 1; 2]%nat /\
  ~ max_min_selection [[0]; [0]; [1]] 3 [0; 1; 2]%nat.
Proof.
  split; [lia|]. split; [simpl; lia|]. split; [reflexivity|].
  intros (_ & _ & _ & (_ & _ & Hmax) & _).
  destruct (Hmax 0%nat 2%nat) as [Hle _]; [simpl; lia | simpl; lia |].
  cbn [nth] in Hle.
  rewrite (dist_at_unit _ 0 2 0 1), (dist_at_unit _ 0 1 0 0) in Hle by reflexivity.
  unfold Rabs in Hle. destruct (Rcase_abs (0 - 1)), (Rcase_abs (0 - 0)); lra.
Qed.

(** When every row is the same point all distances are 0: the seed is the
    cell (0, 0) and the selection starts with index 0 twice. *)
Example kennard_stone_identical_rows :
  _kennard_stone [[0]; [0]; [0]] 2 = Ok [0; 0]%nat.
Proof.
  unfold _kennard_stone. cbn [length].
  destruct (Z_le_dec (Z.of_nat 3) 2) as [Hle | _]; [lia|].
  destruct (argmax_is_Some (concat (pairwise_dist [[0]; [0]; [0]]))) as [flat Hflat];
    [discriminate|].
  rewrite Hflat. apply argmax_spec in Hflat. destruct Hflat as (_ & _ & Hfirst).
  assert (flat = 0%nat) as ->.
  { destruct flat as [|flat]; [reflexivity|]. exfalso.
    specialize (Hfirst 0%nat ltac:(lia)).
    assert (Hcells : forall c, nth c (concat (pairwise_dist [[0]; [0]; [0]])) 0 = 0).
    { assert (Hz : norm (sub [0] [0]) = 0)
        by (unfold norm, sub; cbn; replace ((0 - 0) * (0 - 0) + 0) with 0 by lra; apply sqrt_0).
      intros c. unfold pairwise_dist. cbn [map concat app]. rewrite Hz.
      do 9 (destruct c as [|c]; [reflexivity|]). destruct c; reflexivity. }
    rewrite !Hcells in Hfirst. lra. }
  rewrite ks_loop_unfold. cbn [length].
  destruct (Z_lt_dec (Z.of_nat 2) 2) as [Hlt | _]; [lia | reflexivity].
Qed.

(** The loop always ends, with [max k (length sel0)] valid indices. *)
Lemma ks_loop_length (X : matrix) (k : Z) : forall (fuel : nat) (sel0 : list nat),
  Z.to_nat (k - Z.of_nat (length sel0)) = fuel ->
  sel0 <> [] -> Forall (fun i => (i < length X)%nat) sel0 ->
  exists sel, ks_loop (pairwise_dist X) k sel0 = Ok sel /\
    Z.of_nat (length sel) = Z.max k (Z.of_nat (length sel0)) /\
    Forall (fun i => (i < length X)%nat) sel.
Proof.
  induction fuel as [|fuel IH]; intros sel0 Hfuel Hne Hsel;
    rewrite ks_loop_unfold;
    destruct (Z_lt_dec (Z.of_nat (length sel0)) k) as [Hlen | Hlen]; try lia.
  - exists sel0. split; [reflexivity|]. split; [lia | exact Hsel].
  - destruct sel0 as [|s ss]; [congruence|].
    pose proof (length_min_dists X s ss Hsel) as Hmdlen.
    assert (Hs : (s < length X)%nat) by (inversion Hsel; assumption).
    destruct (argmax_is_Some (min_dists (pairwise_dist X) (s :: ss))) as [a Ha].
    { intros E. rewrite E in Hmdlen. cbn in Hmdlen. lia. }
    rewrite Ha. apply argmax_spec in Ha. rewrite Hmdlen in Ha. destruct Ha as (Halt & _).
    destruct (IH ((s :: ss) ++ [a])) as (sel & Hrun & Hk & Hvalid).
    + rewrite length_app. cbn. cbn in Hfuel. lia.
    + discriminate.
    + apply Forall_app. split; [exact Hsel | repeat constructor; exact Halt].
    + exists sel. split; [exact Hrun|]. split; [|exact Hvalid].
      rewrite length_app in Hk. cbn [length] in *. lia.
Qed.

(** [_kennard_stone] never raises on a non-empty matrix; it returns
    [min(k, n)] valid indices when [k >= 2] and two when [k < 2 <= n] or
    [k < n < 2]. *)
Lemma kennard_stone_length (X : matrix) (k : Z) :
  X <> [] ->
  exists sel, _kennard_stone X k = Ok sel /\
    Forall (fun i => (i < length X)%nat) sel /\
    Z.of_nat (length sel) =
      (if Z_le_dec (Z.of_nat (length X)) k then Z.of_nat (length X) else Z.max k 2).
Proof.
  intros HX. unfold _kennard_stone.
  destruct (Z_le_dec (Z.of_nat (length X)) k) as [Hall | Hlt].
  - exists (seq 0 (length X)). split; [reflexivity|]. split.
    + apply List.Forall_forall. intros i Hi. apply in_seq in Hi. lia.
    + rewrite length_seq. reflexivity.
  - assert (Hn : (0 < length X)%nat) by (destruct X; [congruence | cbn; lia]).
    destruct (argmax_is_Some (concat (pairwise_dist X))) as [flat Hflat].
    { intros E. apply (f_equal (@length R)) in E.
      rewrite (length_concat_rect _ _ (pairwise_dist_rows_length X)) in E.
      rewrite length_pairwise_dist in E. cbn in E. nia. }
    rewrite Hflat. destruct (seed_first_max_pair X flat Hflat) as (Hi & Hj & _).
    destruct (ks_loop_length X k _ [(flat / length X)%nat; (flat mod length X)%nat] eq_refl)
      as (sel & Hrun & Hlen & Hvalid).
    + discriminate.
    + repeat constructor; assumption.
    + exists sel. split; [exact Hrun|]. split; [exact Hvalid|]. cbn [length] in Hlen. lia.
Qed.

Lemma map_nth_all (l : list Z) (n : nat) :
  n = length l -> map (fun i => nth i l 0%Z) (seq 0 n) = l.
Proof.
  intros ->. induction l as [|x l IH]; [reflexivity|].
  cbn [length seq map nth]. f_equal.
  rewrite <- seq_shift, map_map. exact IH.
Qed.

Lemma take_ids_valid (id_list : list Z) (indices : list nat) :
  Forall (fun i => (i < length id_list)%nat) indices ->
  take_ids id_list indices = Ok (map (fun i => nth i id_list 0%Z) indices).
Proof.
  unfold take_ids. induction 1 as [|i indices Hi _ IH]; [reflexivity|].
  cbn [mapM map]. destruct (lookup_lt_is_Some_2 id_list i Hi) as [b Hb].
  rewrite (nth_lookup_Some _ _ _ _ Hb), Hb. cbn. rewrite IH. reflexivity.
Qed.

Section estimators.
Context `{Estimators}.

Lemma length_scaler_fit_transform (X : matrix) : length (scaler_fit_transform X) = length X.
Proof. unfold scaler_fit_transform, scaler_transform. apply length_map. Qed.

(** What the diversity sampler returns when metric rows are found: with [m]
    rows found, [min(k, m)] identifiers for [k >= 2], all of them (in frame
    order) for [k >= m], and two identifiers for [k < 2], [k < m]. *)
Lemma get_suggestions_found (ds : DataService.t) (block_ids : list Z) (k : Z)
    (rows : list DataService.MetricsRow) :
  DataService.get_metrics ds block_ids = Some rows ->
  rows <> [] -> DataService.metric_columns ds <> [] ->
  exists out, get_suggestions ds block_ids k = Ok out /\
    Forall (fun b => In b (map DataService.block_id rows)) out /\
    ((Z.of_nat (length rows) <= k)%Z -> out = map DataService.block_id rows) /\
    ((2 <= k)%Z -> Z.of_nat (length out) = Z.min k (Z.of_nat (length rows))) /\
    ((k < 2)%Z -> (k < Z.of_nat (length rows))%Z -> length out = 2%nat).
Proof.
  intros Hget Hrows Hcols. unfold get_suggestions. rewrite Hget.
  destruct rows as [|r rows]; [congruence|].
  destruct (DataService.metric_columns ds) as [|c cols]; [congruence|].
  set (df := r :: rows) in *.
  set (scaled := scaler_fit_transform (DataService.to_matrix df)).
  assert (Hlen : length scaled = length df).
  { unfold scaled. rewrite length_scaler_fit_transform. apply length_map. }
  rewrite length_map.
  destruct (kennard_stone_length scaled (Z.min k (Z.of_nat (length df))))
    as (sel & Hrun & Hvalid & Hsize).
  { intros E. rewrite E in Hlen. discriminate Hlen. }
  rewrite Hrun. cbn [mbind result_bind].
  rewrite Hlen in Hvalid, Hsize.
  rewrite take_ids_valid by (rewrite length_map; exact Hvalid).
  eexists. split; [reflexivity|]. split; [|split; [|split]].
  - apply List.Forall_forall. intros b Hb. apply in_map_iff in Hb.
    destruct Hb as (i & <- & Hi). apply nth_In. rewrite length_map.
    eapply List.Forall_forall in Hvalid; eauto.
  - intros Hall. unfold _kennard_stone in Hrun. rewrite Hlen in Hrun.
    destruct (Z_le_dec (Z.of_nat (length df)) (Z.min k (Z.of_nat (length df)))); [|lia].
    assert (Hsel : sel = seq 0 (length df)) by (injection Hrun as <-; reflexivity).
    rewrite Hsel. apply map_nth_all. rewrite length_map. reflexivity.
  - intros Hk. rewrite length_map.
    destruct (Z_le_dec (Z.of_nat (length df)) (Z.min k (Z.of_nat (length df)))); lia.
  - intros Hk Hm. rewrite length_map.
    destruct (Z_le_dec (Z.of_nat (length df)) (Z.min k (Z.of_nat (length df)))); lia.
Qed.

End estimators.

(** C2 (as amended).  Let [rows] be the rows of the metrics frame whose id
    is among the candidates, found in frame order, with at least one row and
    one metric column.  For a count [k] that is at least 2, or at least the
    number of rows, the operation returns exactly [min(k, number of rows)]
    identifiers, each the id of such a row; when [k] is at least the number
    of rows it returns the ids of all of them in frame order. *)
Theorem get_suggestions_count `{Estimators} (ds : DataService.t)
    (block_ids : list Z) (k : Z) (rows : list DataService.MetricsRow) :
  DataService.get_metrics ds block_ids = Some rows ->
  rows <> [] -> DataService.metric_columns ds <> [] ->
  (2 <= k)%Z \/ (Z.of_nat (length rows) <= k)%Z ->
  exists out, get_suggestions ds block_ids k = Ok out /\
    Z.of_nat (length out) = Z.min k (Z.of_nat (length rows)) /\
    Forall (fun b => In b (map DataService.block_id rows)) out /\
    ((Z.of_nat (length rows) <= k)%Z -> out = map DataService.block_id rows).
Proof.
  intros Hget Hrows Hcols Hk.
  destruct (get_suggestions_found ds block_ids k rows Hget Hrows Hcols)
    as (out & Hrun & Hin & Hall & Hmin & _).
  exists out. split; [exact Hrun|]. split; [|split; [exact Hin | exact Hall]].
  destruct Hk as [Hk | Hk]; [exact (Hmin Hk)|].
  rewrite (Hall Hk), length_map. lia.
Qed.

(** Two suggestions out of three candidates that all have metrics. *)
Lemma get_suggestions_count_witness :
  let rows := default [] (DataService._metrics_lazy three_blocks) in
  DataService.get_metrics three_blocks [1; 2; 3]%Z = Some rows /\
  exists out,
    get_suggestions (H := Reference.estimators) three_blocks [1; 2; 3]%Z 2 = Ok out /\
    Z.of_nat (length out) = Z.min 2 (Z.of_nat (length rows)).
Proof.
  intros rows. split; [reflexivity|].
  destruct (get_suggestions_count (H := Reference.estimators) three_blocks [1; 2; 3]%Z 2 rows)
    as (out & Hrun & Hlen & _);
    [reflexivity | discriminate | discriminate | left; lia |].
  exists out. split; [exact Hrun | exact Hlen].
Defined.

(** C2 as stated fails when a candidate has no row in the metrics frame, and
    the order returned is that of the frame: of the three candidates 3, 1, 7
    only 1 and 3 are returned, in that order, for a count of 3. *)
Lemma get_suggestions_drops_and_reorders :
  get_suggestions (H := Reference.estimators) three_blocks [3; 1; 7]%Z 3 = Ok [1; 3]%Z /\
  Z.min 3 (Z.of_nat (length [3; 1; 7]%Z)) = 3%Z.
Proof.
  split; [|reflexivity].
  destruct (get_suggestions_found (H := Reference.estimators) three_blocks [3; 1; 7]%Z 3
              [ {| DataService.block_id := 1; DataService.cells := [Some 0] |};
                {| DataService.block_id := 3; DataService.cells := [Some 3] |} ] eq_refl)
    as (out & Hrun & _ & Hall & _); [discriminate | discriminate |].
  assert (Hle : (Z.of_nat 2 <= 3)%Z) by lia.
  rewrite Hrun, (Hall Hle). reflexivity.
Qed.

(** Asked for one suggestion out of three candidates, the operation returns
    the two seed points of the selection: a count below 2 is not honoured. *)
Example get_suggestions_one_returns_two `{Estimators} :
  exists out,
    get_suggestions three_blocks [1; 2; 3]%Z 1 = Ok out /\
    length out = 2%nat /\
    Z.min 1 (Z.of_nat (length [1; 2; 3]%Z)) = 1%Z.
Proof.
  destruct (get_suggestions_found three_blocks [1; 2; 3]%Z 1
              (default [] (DataService._metrics_lazy three_blocks)) eq_refl)
    as (out & Hrun & _ & _ & _ & Htwo); [discriminate | discriminate |].
  exists out. split; [exact Hrun|]. split; [apply Htwo; cbn; lia | reflexivity].
Qed.

(** With at least two suggestions asked for, or at least as many as there
    are candidates with metrics, the count is the requested minimum. *)
Example get_suggestions_two_of_three `{Estimators} :
  exists out,
    get_suggestions three_blocks [1; 2; 3]%Z 2 = Ok out /\ length out = 2%nat.
Proof.
  destruct (get_suggestions_found three_blocks [1; 2; 3]%Z 2
              (default [] (DataService._metrics_lazy three_blocks)) eq_refl)
    as (out & Hrun & _ & _ & Hmin & _); [discriminate | discriminate |].
  exists out. split; [exact Hrun|]. specialize (Hmin ltac:(lia)).
  change (Z.min 2 _) with 2%Z in Hmin. lia.
Qed.

End ColdStartFacts.

(** ** Committee: votes and entropy *)
Module CommitteeFacts.
Import Committee.

Lemma ln2_pos : 0 < ln 2.
Proof. rewrite <- ln_1. apply ln_increasing; lra. Qed.

Lemma log2_3_gt_1 : 1 < Rlog 2 3.
Proof.
  unfold Rlog. pose proof ln2_pos as H2.
  assert (ln 2 < ln 3) by (apply ln_increasing; lra).
  apply (Rmult_lt_reg_r (ln 2)); [exact H2|]. field_simplify; lra.
Qed.

Lemma log2_1 : Rlog 2 1 = 0.
Proof. unfold Rlog. rewrite ln_1. pose proof ln2_pos. field. lra. Qed.

Lemma log2_third : Rlog 2 (1 / 3) = - Rlog 2 3.
Proof.
  unfold Rlog. replace (1 / 3) with (/ 3) by lra.
  rewrite ln_Rinv by lra. pose proof ln2_pos. field. lra.
Qed.

Lemma log2_two_thirds : Rlog 2 (2 / 3) = 1 - Rlog 2 3.
Proof.
  unfold Rlog. unfold Rdiv at 2. rewrite ln_mult by lra.
  rewrite ln_Rinv by lra. pose proof ln2_pos. field. lra.
Qed.

(** The entropy of the two counts, term by term. *)
Lemma entropy_two (c0 c1 : nat) :
  entropy [c0; c1] = - (entropy_term c0 + entropy_term c1).
Proof.
  unfold entropy, entropy_term. cbn [List.filter].
  destruct (0 <? c0)%nat, (0 <? c1)%nat; cbn [map Np.sum fold_right]; lra.
Qed.

Lemma entropy_term_values :
  entropy_term 0 = 0 /\ entropy_term 1 = - Rlog 2 3 / 3 /\
  entropy_term 2 = 2 / 3 * (1 - Rlog 2 3) /\ entropy_term 3 = 0.
Proof.
  unfold entropy_term. cbn [Nat.ltb Nat.leb INR].
  replace ((1 + 1 + 1) / 3) with 1 by lra.
  replace ((1 + 1) / 3) with (2 / 3) by lra.
  rewrite log2_1, log2_third, log2_two_thirds. repeat split; lra.
Qed.

Lemma svm_vote_binary (s : R) : svm_vote s = 0%Z \/ svm_vote s = 1%Z.
Proof. unfold svm_vote. destruct (Rlt_dec 0 s); auto. Qed.

(** Entropy of three votes of which the first is 0 or 1: it lies between 0
    and [log2 3], and it is 0 exactly when the three votes agree. *)
Lemma entropy_of_three (v0 v1 v2 : Z) :
  v0 = 0%Z \/ v0 = 1%Z ->
  let e := entropy [count_votes 0 [v0; v1; v2]; count_votes 1 [v0; v1; v2]] in
  0 <= e <= Rlog 2 3 /\ (e = 0 <-> v1 = v0 /\ v2 = v0).
Proof.
  intros Hv0. cbv zeta. rewrite entropy_two.
  pose proof log2_3_gt_1 as HL.
  destruct entropy_term_values as (E0 & E1 & E2 & E3).
  unfold count_votes. cbn [List.filter].
  destruct Hv0 as [-> | ->];
    destruct (decide (v1 = 0%Z)) as [-> | N10];
    try destruct (decide (v1 = 1%Z)) as [-> | N11];
    destruct (decide (v2 = 0%Z)) as [-> | N20];
    try destruct (decide (v2 = 1%Z)) as [-> | N21];
    repeat match goal with
           | |- context [bool_decide (?a = ?b)] =>
               first [ rewrite (bool_decide_eq_true_2 (a = b)) by reflexivity
                     | rewrite (bool_decide_eq_false_2 (a = b)) by (assumption || discriminate) ]
           end;
    cbn [length]; rewrite ?E0, ?E1, ?E2, ?E3;
    (split; [lra|]); split;
      try (intros Hz; exfalso; lra);
      try (intros [? ?]; exfalso; congruence);
      try (intros _; split; reflexivity);
      try (intros _; lra).
Qed.

Lemma mapM_Ok {A B : Type} (f : A -> result B) (g : A -> B) (l : list A) :
  Forall (fun a => f a = Ok (g a)) l -> mapM f l = Ok (map g l).
Proof.
  induction 1 as [|a l Ha _ IH]; [reflexivity|].
  cbn [mapM map]. rewrite Ha. cbn. rewrite IH. reflexivity.
Qed.

Lemma vote_at_nth (v : list Z) (i : nat) :
  (i < length v)%nat -> vote_at v i = Ok (nth i v 0%Z).
Proof.
  intros Hi. unfold vote_at. destruct (lookup_lt_is_Some_2 v i Hi) as [x Hx].
  rewrite Hx, (nth_lookup_Some _ _ _ _ Hx). reflexivity.
Qed.

Lemma voting_loop_Ok (svm_preds rf_preds mlp_preds : list Z) (n : nat) :
  (n <= length svm_preds)%nat -> (n <= length rf_preds)%nat ->
  (n <= length mlp_preds)%nat ->
  mapM (fun i =>
          v0 ← vote_at svm_preds i;
          v1 ← vote_at rf_preds i;
          v2 ← vote_at mlp_preds i;
          let votes := [v0; v1; v2] in
          let counts := [count_votes 0 votes; count_votes 1 votes] in
          mret {| svm_prediction := v0; rf_prediction := v1;
                  mlp_prediction := v2; vote_entropy := entropy counts |})
       (seq 0 n)
  = Ok (map (record_at svm_preds rf_preds mlp_preds) (seq 0 n)).
Proof.
  intros H0 H1 H2. apply mapM_Ok. apply List.Forall_forall. intros i Hi.
  apply in_seq in Hi. rewrite !vote_at_nth by lia. reflexivity.
Qed.

Lemma agreeing_loop_Ok (svm_preds : list Z) (n : nat) :
  (n <= length svm_preds)%nat ->
  mapM (fun i =>
          v ← vote_at svm_preds i;
          mret {| svm_prediction := v; rf_prediction := v;
                  mlp_prediction := v; vote_entropy := 0 |})
       (seq 0 n)
  = Ok (map (fun i => {| svm_prediction := nth i svm_preds 0%Z;
                         rf_prediction := nth i svm_preds 0%Z;
                         mlp_prediction := nth i svm_preds 0%Z;
                         vote_entropy := 0 |}) (seq 0 n)).
Proof.
  intros H0. apply mapM_Ok. apply List.Forall_forall. intros i Hi.
  apply in_seq in Hi. rewrite !vote_at_nth by lia. reflexivity.
Qed.

Lemma lookup_map_seq {A : Type} (g : nat -> A) (n i : nat) (a : A) :
  map g (seq 0 n) !! i = Some a -> (i < n)%nat /\ a = g i.
Proof.
  intros Hl. pose proof (lookup_lt_Some _ _ _ Hl) as Hi.
  rewrite length_map, length_seq in Hi. split; [exact Hi|].
  apply nth_lookup_Some with (d := g 0%nat) in Hl. rewrite <- Hl.
  rewrite (map_nth g). rewrite seq_nth by exact Hi. reflexivity.
Qed.

Section estimators.
Context `{Estimators}.

(** C3.  For every scored item the recorded margin vote is 1 when the score
    is positive and 0 otherwise; the entropy is minus the sum of
    [(c/3) * log2(c/3)] over the vote counts [c > 0] of the outcomes 0 and 1;
    it is 0 exactly when the three votes agree, it lies in [[0, log2 3]], and
    without auxiliary models the three votes are the margin vote and the
    entropy is 0. *)
Theorem committee_votes_and_entropy (X : matrix) (svm_scores : vector)
    (rf_model : option RandomForestClassifier)
    (mlp_model : option WeightedMLPClassifier)
    (scaler : option StandardScaler) :
  (rf_model <> None \/ mlp_model <> None -> length X = length svm_scores) ->
  exists preds,
    predict_with_committee X svm_scores rf_model mlp_model scaler = Ok preds /\
    length preds = length svm_scores /\
    forall i p s, preds !! i = Some p -> svm_scores !! i = Some s ->
      (0 < s -> svm_prediction p = 1%Z) /\
      (s <= 0 -> svm_prediction p = 0%Z) /\
      vote_entropy p = - (entropy_term (count_votes 0 (votes_of p)) +
                          entropy_term (count_votes 1 (votes_of p))) /\
      (vote_entropy p = 0 <-> unanimous p) /\
      0 <= vote_entropy p <= Rlog 2 3 /\
      (rf_model = None -> mlp_model = None -> unanimous p /\ vote_entropy p = 0).
Proof.
  intros Hlen.
  set (svm_preds := map svm_vote svm_scores).
  assert (Hsvm : forall i s, svm_scores !! i = Some s -> nth i svm_preds 0%Z = svm_vote s).
  { intros i s Hs. unfold svm_preds.
    rewrite (nth_indep _ 0%Z (svm_vote 0))
      by (rewrite length_map; eapply lookup_lt_Some; eauto).
    rewrite (map_nth svm_vote). f_equal. apply nth_lookup_Some. exact Hs. }
  assert (Hsign : forall s, (0 < s -> svm_vote s = 1%Z) /\ (s <= 0 -> svm_vote s = 0%Z)).
  { intros s. unfold svm_vote. destruct (Rlt_dec 0 s); split; intros; (reflexivity || lra). }
  assert (Hgeneral : forall rf_preds mlp_preds,
    (length svm_scores <= length rf_preds)%nat ->
    (length svm_scores <= length mlp_preds)%nat ->
    forall i p s,
      map (record_at svm_preds rf_preds mlp_preds) (seq 0 (length svm_scores)) !! i = Some p ->
      svm_scores !! i = Some s ->
      (0 < s -> svm_prediction p = 1%Z) /\
      (s <= 0 -> svm_prediction p = 0%Z) /\
      vote_entropy p = - (entropy_term (count_votes 0 (votes_of p)) +
                          entropy_term (count_votes 1 (votes_of p))) /\
      (vote_entropy p = 0 <-> unanimous p) /\
      0 <= vote_entropy p <= Rlog 2 3).
  { intros rf_preds mlp_preds Hrf Hmlp i p s Hp Hs.
    apply lookup_map_seq in Hp. destruct Hp as [Hi ->].
    unfold record_at, votes_of, unanimous. cbn [svm_prediction rf_prediction mlp_prediction vote_entropy].
    rewrite (Hsvm i s Hs).
    destruct (entropy_of_three (svm_vote s) (nth i rf_preds 0%Z) (nth i mlp_preds 0%Z)
                (svm_vote_binary s)) as [Hrange Hzero].
    destruct (Hsign s) as [Hpos Hneg].
    split; [exact Hpos|]. split; [exact Hneg|]. split; [apply entropy_two|].
    split; [exact Hzero | exact Hrange]. }
  assert (Hsvmlen : length svm_preds = length svm_scores) by apply length_map.
  unfold predict_with_committee. fold svm_preds.
  destruct rf_model as [rf|], mlp_model as [mlp|].
  4: {
    rewrite agreeing_loop_Ok by lia. eexists. split; [reflexivity|].
    split; [rewrite length_map, length_seq; reflexivity|].
    intros i p s Hp Hs. apply lookup_map_seq in Hp. destruct Hp as [Hi ->].
    unfold votes_of, unanimous. cbn [svm_prediction rf_prediction mlp_prediction vote_entropy].
    rewrite (Hsvm i s Hs). destruct (Hsign s) as [Hpos Hneg].
    destruct entropy_term_values as (E0 & E1 & E2 & E3).
    assert (Hsum : entropy_term (count_votes 0 [svm_vote s; svm_vote s; svm_vote s]) +
                   entropy_term (count_votes 1 [svm_vote s; svm_vote s; svm_vote s]) = 0).
    { destruct (svm_vote_binary s) as [-> | ->].
      - change (count_votes 0 [0; 0; 0]%Z) with 3%nat.
        change (count_votes 1 [0; 0; 0]%Z) with 0%nat. rewrite E0, E3. lra.
      - change (count_votes 0 [1; 1; 1]%Z) with 0%nat.
        change (count_votes 1 [1; 1; 1]%Z) with 3%nat. rewrite E0, E3. lra. }
    pose proof log2_3_gt_1.
    repeat split; try assumption; try reflexivity; try lra. }
  all: specialize (Hlen ltac:(auto; (left; discriminate) || (right; discriminate))).
  all: rewrite voting_loop_Ok
         by (rewrite ?Hsvmlen; try (destruct scaler); unfold scaler_transform;
             rewrite ?length_map; lia).
  all: eexists; split; [reflexivity|]; split; [rewrite length_map, length_seq; reflexivity|].
  all: intros i p s Hp Hs.
  all: eapply Hgeneral in Hp; [| | |exact Hs];
         [| (try (destruct scaler); unfold scaler_transform; rewrite ?length_map, ?Hsvmlen; lia) ..].
  all: destruct Hp as (P1 & P2 & P3 & P4 & P5).
  all: refine (conj P1 (conj P2 (conj P3 (conj P4 (conj P5 _))))); intros; discriminate.
Qed.

End estimators.

(** The statement applies to one item scored 1 by the margin classifier,
    with a tree ensemble and no neural classifier. *)
Lemma committee_votes_and_entropy_witness :
  length [[1]] = length [1] /\
  exists preds,
    predict_with_committee (H := Reference.estimators) [[1]] [1] (Some tt) None None
      = Ok preds /\
    length preds = 1%nat.
Proof.
  split; [reflexivity|].
  destruct (committee_votes_and_entropy (H := Reference.estimators)
              [[1]] [1] (Some tt) None None (fun _ => eq_refl))
    as (preds & Hrun & Hlen & _).
  exists preds. split; [exact Hrun | exact Hlen].
Defined.

Section totality.
Context `{Estimators}.

(** With one score per row the aggregation does not raise. *)
Lemma predict_with_committee_total (X : matrix) (svm_scores : vector)
    (rf_model : option RandomForestClassifier)
    (mlp_model : option WeightedMLPClassifier)
    (scaler : option StandardScaler) :
  length X = length svm_scores ->
  exists preds,
    predict_with_committee X svm_scores rf_model mlp_model scaler = Ok preds /\
    length preds = length svm_scores.
Proof.
  intros Hlen. unfold predict_with_committee.
  assert (Hsvm : length (map svm_vote svm_scores) = length svm_scores) by apply length_map.
  destruct rf_model as [rf|], mlp_model as [mlp|].
  4: { rewrite agreeing_loop_Ok by lia. eexists. split; [reflexivity|].
       rewrite length_map, length_seq. reflexivity. }
  all: rewrite voting_loop_Ok
         by (rewrite ?Hsvm; try (destruct scaler); unfold scaler_transform;
             rewrite ?length_map; lia).
  all: eexists; split; [reflexivity | rewrite length_map, length_seq; reflexivity].
Qed.

(** Successes and failures of the two auxiliary fits alike give a normal
    return of [train_committee]. *)
Lemma train_rf_caught (X : matrix) (y : list Z) (w : vector) (n : nat) (e : string) :
  rf_fit (Nat.max 10 (Nat.min 100 (n / 2))) (Nat.min 5 (Nat.max 2 (Nat.log2 (n + 1)))) X y w
    = Raise e ->
  _train_rf X y w n = None.
Proof. intros Hfit. unfold _train_rf. rewrite Hfit. reflexivity. Qed.

Lemma train_mlp_caught (X : matrix) (y : list Z) (w : vector) (n : nat) (e : string) :
  mlp_fit (if (n <? 20)%nat then [16%nat] else [32%nat; 16%nat]) X y w = Raise e ->
  _train_mlp X y w n = None.
Proof. intros Hfit. unfold _train_mlp. rewrite Hfit. reflexivity. Qed.

Lemma train_committee_insufficient (self : CommitteeService)
    (X : matrix) (y : list Z) (w : vector) :
  (count_label 1 y < 3)%nat \/ (count_label 0 y < 3)%nat ->
  train_committee self X y w = ((None, None, None), self, []).
Proof.
  intros Hfew. unfold train_committee, MIN_SAMPLES_PER_CLASS.
  destruct (count_label 1 y <? 3)%nat eqn:E1; [reflexivity|].
  destruct (count_label 0 y <? 3)%nat eqn:E0; [reflexivity|].
  apply Nat.ltb_ge in E1, E0. lia.
Qed.

Lemma train_committee_sufficient (self : CommitteeService)
    (X : matrix) (y : list Z) (w : vector) :
  (3 <= count_label 1 y)%nat -> (3 <= count_label 0 y)%nat ->
  let Xs := scaler_transform (scaler_fit X) X in
  train_committee self X y w =
  ((_train_rf Xs y w (length y), _train_mlp Xs y w (length y), Some (scaler_fit X)),
   {| _rf_model := _train_rf Xs y w (length y);
      _mlp_model := _train_mlp Xs y w (length y);
      _scaler := Some (scaler_fit X) |},
   [FitRF Xs y w; FitMLP Xs y w]).
Proof.
  intros H1 H0. cbv zeta. unfold train_committee, MIN_SAMPLES_PER_CLASS.
  apply Nat.ltb_ge in H1, H0. rewrite H1, H0. reflexivity.
Qed.

(** [train_committee] never starts a fit of the margin classifier. *)
Lemma train_committee_calls (self : CommitteeService)
    (X : matrix) (y : list Z) (w : vector) :
  forall X' y' w', ~ In (FitSVC X' y' w') (snd (train_committee self X y w)).
Proof.
  intros X' y' w'. unfold train_committee.
  destruct ((count_label 1 y <? MIN_SAMPLES_PER_CLASS) ||
            (count_label 0 y <? MIN_SAMPLES_PER_CLASS))%nat; cbn [snd].
  - intros [].
  - intros [E | [E | []]]; discriminate E.
Qed.

End totality.

End CommitteeFacts.

(** ** Histogram builder *)
Module SvmUtilsFacts.
Import Np NpFacts SvmUtils.

Lemma length_linspace (a b : R) (num : nat) : length (linspace a b num) = num.
Proof. unfold linspace. rewrite length_map. apply length_seq. Qed.

Lemma nth_linspace (a b : R) (num i : nat) :
  (i < num)%nat ->
  nth i (linspace a b num) 0 = a + INR i * ((b - a) / INR (num - 1)).
Proof.
  intros Hi. unfold linspace.
  rewrite (nth_indep _ 0 ((fun i => a + INR i * ((b - a) / INR (num - 1))) 0%nat))
    by (rewrite length_map, length_seq; exact Hi).
  rewrite (map_nth (fun i => a + INR i * ((b - a) / INR (num - 1)))).
  rewrite seq_nth by exact Hi. reflexivity.
Qed.

Lemma hits_half_open (e : nat -> R) (m : nat) (x : R) :
  (forall i, e i <= e (S i)) -> e 0%nat <= x ->
  forall k, (k < m)%nat ->
    list_sum (map (hit e m x) (seq 0 k)) = if Rlt_dec x (e k) then 1%nat else 0%nat.
Proof.
  intros Hmono H0. induction k as [|k IH]; intros Hk.
  - cbn. destruct (Rlt_dec x (e 0%nat)); [lra | reflexivity].
  - rewrite seq_S, map_app, list_sum_app, IH by lia. cbn [map list_sum Nat.add].
    unfold hit. pose proof (Hmono k).
    destruct (Nat.eq_dec (S k) m) as [E | _]; [lia|].
    destruct (Rlt_dec x (e k)), (Rle_dec (e k) x), (Rlt_dec x (e (S k))); try lra; reflexivity.
Qed.

(** Every value within the outer edges falls in exactly one bin. *)
Lemma hits_once (e : nat -> R) (m : nat) (x : R) :
  (forall i, e i <= e (S i)) -> e 0%nat <= x -> x <= e (S m) ->
  list_sum (map (hit e (S m) x) (seq 0 (S m))) = 1%nat.
Proof.
  intros Hmono H0 Hm.
  rewrite seq_S, map_app, list_sum_app, (hits_half_open e (S m) x Hmono H0 m) by lia.
  cbn [map list_sum Nat.add]. unfold hit.
  destruct (Nat.eq_dec (S m) (S m)) as [_ | N]; [|congruence].
  destruct (Rlt_dec x (e m)), (Rle_dec (e m) x), (Rle_dec x (e (S m))); try lra; reflexivity.
Qed.

Lemma list_sum_map_add {A : Type} (f g : A -> nat) (l : list A) :
  list_sum (map (fun a => (f a + g a)%nat) l) = (list_sum (map f l) + list_sum (map g l))%nat.
Proof.
  unfold list_sum. induction l as [|a l IH]; [reflexivity|].
  cbn [map fold_right]. rewrite IH. lia.
Qed.

Lemma in_bin_hit (first last : R) (bins i : nat) (x : R) :
  (i < bins)%nat ->
  (if in_bin (linspace first last (S bins)) bins i x then 1%nat else 0%nat) =
  hit (fun j => first + INR j * ((last - first) / INR bins)) bins x i.
Proof.
  intros Hi. unfold in_bin, hit.
  rewrite !nth_linspace by lia. cbn [Nat.sub]. rewrite Nat.sub_0_r.
  destruct (Rle_dec _ x); [|reflexivity].
  destruct (Nat.eq_dec (S i) bins); [destruct (Rle_dec x _) | destruct (Rlt_dec x _)];
    reflexivity.
Qed.

(** The counts of [np.histogram] add up to the number of values. *)
Lemma histogram_counts_sum (a : vector) (first last : R) (m : nat) :
  first < last -> (forall y, In y a -> first <= y <= last) ->
  list_sum (map (fun i => length (List.filter (in_bin (linspace first last (S (S m))) (S m) i) a))
                (seq 0 (S m))) = length a.
Proof.
  intros Hlt Hb. set (edges := linspace first last (S (S m))).
  set (e := fun j => first + INR j * ((last - first) / INR (S m))).
  assert (Hw : 0 < (last - first) / INR (S m)).
  { apply Rdiv_lt_0_compat; [lra | apply lt_0_INR; lia]. }
  assert (Hmono : forall i, e i <= e (S i)).
  { intros i. unfold e. rewrite (S_INR i). nra. }
  assert (He0 : e 0%nat = first) by (unfold e; cbn [INR]; lra).
  assert (Hem : e (S m) = last).
  { unfold e. field. apply not_0_INR. lia. }
  induction a as [|y a IH].
  - cbn [List.filter length]. induction (seq 0 (S m)); cbn; [reflexivity | assumption].
  - transitivity (list_sum (map (fun i => ((if in_bin edges (S m) i y then 1 else 0) +
                     length (List.filter (in_bin edges (S m) i) a))%nat) (seq 0 (S m)))).
    { f_equal. apply map_ext. intros i. cbn [List.filter].
      destruct (in_bin edges (S m) i y); reflexivity. }
    rewrite list_sum_map_add, IH by (intros z Hz; apply Hb; right; exact Hz).
    assert (Hone : list_sum (map (fun i => if in_bin edges (S m) i y then 1%nat else 0%nat)
                               (seq 0 (S m))) = 1%nat).
    { transitivity (list_sum (map (hit e (S m) y) (seq 0 (S m)))).
      { f_equal. apply map_ext_in. intros i Hi. apply in_seq in Hi.
        apply in_bin_hit. lia. }
      destruct (Hb y (or_introl eq_refl)) as [Hlo Hhi].
      apply hits_once; [exact Hmono | rewrite He0; exact Hlo | rewrite Hem; exact Hhi]. }
    rewrite Hone. reflexivity.
Qed.

(** The range that is binned: [[min, max]], or [[min - 1/2, max + 1/2]] when
    all values are equal. *)
Lemma outer_edges_spec (x : R) (t : vector) :
  let lo := amin x t in
  let hi := amax x t in
  (lo < hi -> outer_edges (x :: t) = (lo, hi)) /\
  (lo = hi -> outer_edges (x :: t) = (lo - 1 / 2, hi + 1 / 2)) /\
  fst (outer_edges (x :: t)) < snd (outer_edges (x :: t)) /\
  (forall y, In y (x :: t) ->
     fst (outer_edges (x :: t)) <= y <= snd (outer_edges (x :: t))).
Proof.
  cbv zeta. cbn [outer_edges].
  pose proof (amin_le_amax x t) as Hle.
  destruct (amin_spec x t) as [_ Hmin]. destruct (amax_spec x t) as [_ Hmax].
  destruct (Req_EM_T (amin x t) (amax x t)) as [E | N]; cbn [fst snd].
  - split; [intros; lra|]. split; [reflexivity|]. split; [lra|].
    intros y Hy. specialize (Hmin y Hy). specialize (Hmax y Hy). lra.
  - split; [reflexivity|]. split; [intros; contradiction|]. split; [lra|].
    intros y Hy. split; [apply Hmin | apply Hmax]; exact Hy.
Qed.

Lemma nth_bin_centers (edges : vector) (i : nat) :
  (S i < length edges)%nat ->
  nth i (bin_centers edges) 0 = (nth i edges 0 + nth (S i) edges 0) / 2.
Proof.
  intros Hi. unfold bin_centers. rewrite nth_lookup, lookup_zip_with.
  rewrite removelast_firstn_len, lookup_take_lt by lia.
  destruct (lookup_lt_is_Some_2 edges i ltac:(lia)) as [a Ha].
  destruct (lookup_lt_is_Some_2 edges (S i) Hi) as [b Hb].
  assert (Htl : tl edges !! i = Some b) by (destruct edges; [discriminate | exact Hb]).
  rewrite Ha, Htl. cbn.
  rewrite (nth_lookup_Some _ _ _ _ Ha), (nth_lookup_Some _ _ _ _ Hb). reflexivity.
Qed.

Lemma length_bin_centers (edges : vector) :
  length (bin_centers edges) = (length edges - 1)%nat.
Proof.
  unfold bin_centers. rewrite length_zip_with, removelast_firstn_len, length_take.
  destruct edges; cbn; lia.
Qed.

(** Shape of the histogram of a non-empty score vector. *)
Lemma histogram_shape (x : R) (t : vector) :
  let first_edge := fst (outer_edges (x :: t)) in
  let last_edge := snd (outer_edges (x :: t)) in
  let counts := fst (histogram (x :: t) 60) in
  let edges := snd (histogram (x :: t) 60) in
  length edges = 61%nat /\ length counts = 60%nat /\
  nth 0 edges 0 = first_edge /\ nth 60 edges 0 = last_edge /\
  (forall i, (i < 60)%nat ->
     nth (S i) edges 0 - nth i edges 0 = (last_edge - first_edge) / 60) /\
  list_sum counts = length (x :: t).
Proof.
  cbv zeta. unfold histogram.
  destruct (outer_edges_spec x t) as (_ & _ & Hlt & Hb). cbv zeta in Hlt, Hb.
  destruct (outer_edges (x :: t)) as [first_edge last_edge]. cbn [fst snd] in *.
  assert (H60 : INR 60 = 60) by (rewrite INR_IZR_INZ; reflexivity).
  split; [apply length_linspace|]. split; [rewrite length_map; apply length_seq|].
  split; [rewrite nth_linspace by lia; cbn [INR]; lra|].
  split.
  { rewrite nth_linspace by lia. cbn [Nat.sub]. rewrite H60. field. }
  split.
  { intros i Hi. rewrite !nth_linspace by lia. cbn [Nat.sub]. rewrite H60, S_INR. field. }
  apply (histogram_counts_sum (x :: t) first_edge last_edge 59 Hlt Hb).
Qed.

(** The response built from a non-empty score vector, field by field. *)
Lemma build_response_fields (scores_dict : list (string * R)) (x : R) (t : vector)
    (total_items : nat) (votes : option (list (string * Models.CommitteeVoteInfo))) :
  build_similarity_histogram_response scores_dict (x :: t) total_items votes =
  {| Models.scores := scores_dict;
     Models.histogram :=
       {| Models.bins := bin_centers (snd (histogram (x :: t) 60));
          Models.counts := fst (histogram (x :: t) 60);
          Models.bin_edges := snd (histogram (x :: t) 60) |};
     Models.statistics :=
       {| Models.min := amin x t; Models.max := amax x t;
          Models.mean := mean (x :: t); Models.median := median (x :: t) |};
     Models.total_items := total_items;
     Models.committee_votes := votes |}.
Proof.
  unfold build_similarity_histogram_response.
  destruct (histogram (x :: t) 60) as [counts edges]. reflexivity.
Qed.

(** C8 (as amended).  The empty score vector gives empty sequences and
    statistics 0.  A non-empty one gives 61 edges and 60 equal-width bins
    that span [[min, max]] when the scores are not all equal and
    [[min - 1/2, max + 1/2]] when they are; the bin centers are the midpoints
    of adjacent edges, the counts add up to the number of scores, and the
    statistics are the least and the greatest score, the arithmetic mean and
    the median of the sorted scores, so that mean and median lie between min
    and max. *)
Theorem histogram_summary (scores_dict : list (string * R)) (total_items : nat)
    (votes : option (list (string * Models.CommitteeVoteInfo))) :
  (let r := build_similarity_histogram_response scores_dict [] total_items votes in
   Models.bins (Models.histogram r) = [] /\
   Models.counts (Models.histogram r) = [] /\
   Models.bin_edges (Models.histogram r) = [] /\
   Models.min (Models.statistics r) = 0 /\ Models.max (Models.statistics r) = 0 /\
   Models.mean (Models.statistics r) = 0 /\ Models.median (Models.statistics r) = 0) /\
  (forall (x : R) (t : vector),
   let scores := x :: t in
   let r := build_similarity_histogram_response scores_dict scores total_items votes in
   let bins := Models.bins (Models.histogram r) in
   let counts := Models.counts (Models.histogram r) in
   let edges := Models.bin_edges (Models.histogram r) in
   let st := Models.statistics r in
   length edges = 61%nat /\ length bins = 60%nat /\ length counts = 60%nat /\
   (Models.min st < Models.max st ->
      nth 0 edges 0 = Models.min st /\ nth 60 edges 0 = Models.max st) /\
   (Models.min st = Models.max st ->
      nth 0 edges 0 = Models.min st - 1 / 2 /\ nth 60 edges 0 = Models.max st + 1 / 2) /\
   (forall i, (i < 60)%nat ->
      nth (S i) edges 0 - nth i edges 0 = (nth 60 edges 0 - nth 0 edges 0) / 60) /\
   (forall i, (i < 60)%nat ->
      nth i bins 0 = (nth i edges 0 + nth (S i) edges 0) / 2) /\
   list_sum counts = length scores /\
   (In (Models.min st) scores /\ forall y, In y scores -> Models.min st <= y) /\
   (In (Models.max st) scores /\ forall y, In y scores -> y <= Models.max st) /\
   Models.mean st = sum scores / INR (length scores) /\
   (exists sorted, Permutation sorted scores /\ Sorted Rle sorted /\
      Models.median st =
        if Nat.even (length scores)
        then (nth (length scores / 2 - 1) sorted 0 + nth (length scores / 2) sorted 0) / 2
        else nth (length scores / 2) sorted 0) /\
   Models.min st <= Models.mean st <= Models.max st /\
   Models.min st <= Models.median st <= Models.max st).
Proof.
  split; [cbn; repeat split; reflexivity|].
  intros x t. cbv zeta. rewrite build_response_fields.
  cbn [Models.histogram Models.statistics Models.bins Models.counts Models.bin_edges
       Models.min Models.max Models.mean Models.median].
  destruct (histogram_shape x t) as (Hedges & Hcounts & Hfirst & Hlast & Hwidth & Hsum).
  cbv zeta in Hedges, Hcounts, Hfirst, Hlast, Hwidth, Hsum.
  destruct (outer_edges_spec x t) as (Hlt & Heq & _ & _). cbv zeta in Hlt, Heq.
  destruct (amin_spec x t) as [Hmin_in Hmin]. destruct (amax_spec x t) as [Hmax_in Hmax].
  assert (Hbounds : forall y, In y (x :: t) -> amin x t <= y <= amax x t)
    by (intros y Hy; split; [apply Hmin | apply Hmax]; exact Hy).
  split; [exact Hedges|].
  split; [rewrite length_bin_centers, Hedges; reflexivity|].
  split; [exact Hcounts|].
  split; [intros H; rewrite Hfirst, Hlast, (Hlt H); split; reflexivity|].
  split; [intros H; rewrite Hfirst, Hlast, (Heq H); split; reflexivity|].
  split; [intros i Hi; rewrite Hfirst, Hlast; apply Hwidth; exact Hi|].
  split; [intros i Hi; apply nth_bin_centers; lia|].
  split; [exact Hsum|].
  split; [exact (conj Hmin_in Hmin)|].
  split; [exact (conj Hmax_in Hmax)|].
  split; [reflexivity|].
  split; [exists (sort (x :: t)); split; [apply sort_perm | split; [apply sort_sorted | reflexivity]]|].
  split; [apply mean_bounds; [discriminate | exact Hbounds]|].
  apply median_bounds; [discriminate | exact Hbounds].
Qed.

(** C8 as stated fails for a single score (or any constant vector): the
    bins run from [min - 1/2] to [max + 1/2], not from [min] to [max]. *)
Lemma histogram_single_score_widened :
  let r := build_similarity_histogram_response [("7"%string, 1)] [1] 1 None in
  Models.min (Models.statistics r) = 1 /\ Models.max (Models.statistics r) = 1 /\
  nth 0 (Models.bin_edges (Models.histogram r)) 0 = 1 / 2 /\
  nth 60 (Models.bin_edges (Models.histogram r)) 0 = 3 / 2 /\
  nth 0 (Models.bin_edges (Models.histogram r)) 0 <> Models.min (Models.statistics r).
Proof.
  cbv zeta. rewrite build_response_fields.
  cbn [Models.histogram Models.statistics Models.bin_edges Models.min Models.max].
  destruct (histogram_shape 1 []) as (_ & _ & Hfirst & Hlast & _).
  cbv zeta in Hfirst, Hlast.
  destruct (outer_edges_spec 1 []) as (_ & Heq & _). cbv zeta in Heq.
  rewrite Hfirst, Hlast, (Heq eq_refl). cbn [fst snd amin amax fold_left].
  repeat split; lra.
Qed.

End SvmUtilsFacts.

(** ** Dictionaries *)
Module PyDictFacts.
Section dict.
Context {K V : Type} `{EqDecision K}.
Implicit Types (d : list (K * V)) (k : K) (v : V).

Lemma get_None_keys d k : PyDict.get d k = None <-> ~ In k (PyDict.keys d).
Proof.
  induction d as [|[k' v'] d IH]; cbn; [tauto|].
  destruct (decide (k' = k)) as [-> | Hne].
  - split; [discriminate | intros Hn; exfalso; apply Hn; left; reflexivity].
  - rewrite IH. tauto.
Qed.

Lemma get_Some_keys d k v : PyDict.get d k = Some v -> In k (PyDict.keys d).
Proof.
  intros Hget. destruct (in_dec (fun a b => decide (a = b)) k (PyDict.keys d)) as [Hin | Hnot];
    [exact Hin|].
  apply get_None_keys in Hnot. congruence.
Qed.

(** Writing a new key appends it. *)
Lemma set_new d k v : PyDict.get d k = None -> PyDict.set d k v = d ++ [(k, v)].
Proof.
  induction d as [|[k' v'] d IH]; cbn; [reflexivity|].
  destruct (decide (k' = k)); [discriminate|]. intros Hget. rewrite IH by exact Hget.
  reflexivity.
Qed.

(** Removing the oldest key of a dictionary drops its first entry. *)
Lemma pop_first d k v :
  ~ In k (PyDict.keys d) -> PyDict.pop ((k, v) :: d) k = d.
Proof.
  intros Hnot. unfold PyDict.pop. rewrite filter_cons_False by (cbn; tauto).
  induction d as [|[k' v'] d IH]; [reflexivity|].
  rewrite filter_cons_True by (cbn; intros ->; apply Hnot; left; reflexivity).
  rewrite IH by (intros Hin; apply Hnot; right; exact Hin). reflexivity.
Qed.

Lemma keys_app d d' : PyDict.keys (d ++ d') = PyDict.keys d ++ PyDict.keys d'.
Proof. apply map_app. Qed.

Lemma length_keys d : length (PyDict.keys d) = length d.
Proof. apply length_map. Qed.

End dict.

Section nonempty.
Context {K V : Type} `{EqDecision K}.

Lemma set_nonempty (d : list (K * V)) (k : K) (v : V) : PyDict.set d k v <> [].
Proof.
  destruct d as [|[k' v'] d]; cbn; [discriminate|].
  destruct (decide (k' = k)); discriminate.
Qed.

Lemma of_items_nonempty (items : list (K * V)) :
  items <> [] -> PyDict.values (PyDict.of_items items) <> [].
Proof.
  intros Hne. unfold PyDict.of_items.
  assert (Hfold : forall (l : list (K * V)) d, d <> [] ->
            fold_left (fun d e => PyDict.set d (fst e) (snd e)) l d <> []).
  { induction l as [|e l IH]; intros d Hd; [exact Hd|]. cbn [fold_left].
    apply IH. apply set_nonempty. }
  destruct items as [|e items]; [congruence|]. cbn [fold_left].
  specialize (Hfold items (PyDict.set [] (fst e) (snd e)) (set_nonempty _ _ _)).
  unfold PyDict.values. intros Hnil. apply Hfold.
  destruct (fold_left _ items _); [reflexivity | discriminate Hnil].
Qed.

End nonempty.

End PyDictFacts.

(** ** Score operation *)
Module ClassificationFacts.
Import Models Classification PyDictFacts.

Section estimators.
Context `{Estimators}.

Lemma lookup_or_train_hit (cache : list (string * (SVC * StandardScaler)))
    (max_size : nat) (key : string) (sv rv : matrix) (sw rw : vector)
    (entry : SVC * StandardScaler) :
  PyDict.get cache key = Some entry ->
  lookup_or_train cache max_size key sv rv sw rw = Ok (entry, cache, []).
Proof. intros Hget. unfold lookup_or_train. rewrite Hget. reflexivity. Qed.

Lemma lookup_or_train_miss (cache : list (string * (SVC * StandardScaler)))
    (max_size : nat) (key : string) (sv rv : matrix) (sw rw : vector) :
  PyDict.get cache key = None -> (0 < max_size)%nat ->
  List.NoDup (PyDict.keys cache) ->
  let trained := SvmUtils.train_svm_model sv rv (Some sw) (Some rw) in
  lookup_or_train cache max_size key sv rv sw rw =
  Ok (fst trained,
      (if (max_size <=? length cache)%nat then tl cache else cache) ++ [(key, fst trained)],
      [snd trained]).
Proof.
  intros Hget Hmax Hnd. cbv zeta. unfold lookup_or_train. rewrite Hget.
  destruct (SvmUtils.train_svm_model sv rv (Some sw) (Some rw)) as [entry call].
  cbn [fst snd]. destruct (max_size <=? length cache)%nat eqn:Hfull.
  - apply Nat.leb_le in Hfull.
    destruct cache as [|[k0 v0] rest]; [cbn in Hfull; lia|].
    cbn [PyDict.first_key mbind result_bind mret result_ret tl].
    cbn in Hnd. apply List.NoDup_cons_iff in Hnd. destruct Hnd as [Hk0 _].
    rewrite pop_first by exact Hk0.
    cbn in Hget. destruct (decide (k0 = key)); [discriminate|].
    rewrite set_new by exact Hget. reflexivity.
  - cbn [mbind result_bind mret result_ret]. rewrite set_new by exact Hget. reflexivity.
Qed.

Lemma extract_metrics_shape (self : ClassificationService) (ids : list Z)
    (arr : list Z) (M : matrix) :
  _extract_metrics self ids = Some (arr, M) -> length arr = length M /\ arr <> [].
Proof.
  unfold _extract_metrics.
  destruct (DataService.get_metrics (data_service self) ids) as [df|]; [|discriminate].
  destruct df as [|r df]; [discriminate|].
  destruct (DataService.metric_columns (data_service self)); [discriminate|].
  intros [= <- <-]. unfold DataService.to_matrix. cbn [map length].
  rewrite !length_map. split; [reflexivity | discriminate].
Qed.

Lemma length_score_with_svm (model : SVC) (scaler : StandardScaler) (M : matrix) :
  length (SvmUtils.score_with_svm model scaler M) = length M.
Proof. unfold SvmUtils.score_with_svm, scaler_transform. rewrite !length_map. reflexivity. Qed.

Lemma committee_votes_response_total (scaler : StandardScaler) (arr : list Z)
    (M : matrix) (scores : vector)
    (rf : option RandomForestClassifier) (mlp : option WeightedMLPClassifier)
    (cs : option StandardScaler) :
  length scores = length M ->
  exists votes, committee_votes_response scaler arr M scores rf mlp cs = Ok votes.
Proof.
  intros Hlen. unfold committee_votes_response.
  destruct (CommitteeFacts.predict_with_committee_total
              (scaler_transform scaler M) scores rf mlp cs) as (preds & Hrun & _).
  { unfold scaler_transform. rewrite length_map. symmetry. exact Hlen. }
  rewrite Hrun. destruct rf, mlp; eexists; reflexivity.
Qed.

(** What a request that gets past the degenerate cases returns and leaves
    behind, given the outcome of the cache block. *)
Lemma score_request_unfold (self : ClassificationService)
    (request : SimilarityHistogramRequest) (arr : list Z) (M : matrix)
    (sel rej : list nat) (w : gmap Z R)
    (entry : SVC * StandardScaler)
    (cache' : list (string * (SVC * StandardScaler)))
    (svm_calls : list Committee.FitCall) :
  DataService.is_ready (data_service self) = true ->
  _extract_metrics self (block_ids request) = Some (arr, M) ->
  label_partition request arr = (sel, rej, w) -> sel <> [] -> rej <> [] ->
  lookup_or_train (_svm_cache self) (_max_cache_size self) (request_key request)
    (rows_at M sel) (rows_at M rej) (weights_at w arr sel) (weights_at w arr rej)
    = Ok (entry, cache', svm_calls) ->
  let scores := SvmUtils.score_with_svm (fst entry) (snd entry) M in
  let scores_dict := PyDict.of_items (zip (map str_int arr) scores) in
  let tc := Committee.train_committee (committee_service self)
              (rows_at M sel ++ rows_at M rej)
              (SvmUtils.labels (length (rows_at M sel)) (length (rows_at M rej)))
              (weights_at w arr sel ++ weights_at w arr rej) in
  exists votes,
    committee_votes_response (snd entry) arr M scores
      (fst (fst (fst (fst tc)))) (snd (fst (fst (fst tc)))) (snd (fst (fst tc))) = Ok votes /\
    get_similarity_score_histogram self request =
    (Ok (SvmUtils.build_similarity_histogram_response
           scores_dict (PyDict.values scores_dict) (length scores_dict) votes),
     {| data_service := data_service self;
        committee_service := snd (fst tc);
        _svm_cache := cache';
        _max_cache_size := _max_cache_size self;
        fit_log := fit_log self ++ svm_calls ++ snd tc |}).
Proof.
  intros Hready Hextract Hpart Hsel Hrej Hcache. cbv zeta.
  unfold get_similarity_score_histogram. rewrite Hready, Hextract, Hpart. cbn [negb].
  destruct sel as [|s0 sel]; [congruence|]. destruct rej as [|r0 rej]; [congruence|].
  unfold request_key in Hcache. rewrite Hcache. destruct entry as [model scaler].
  cbn [fst snd].
  destruct (Committee.train_committee _ _ _ _) as [[[[rf mlp] cs] committee] calls].
  cbn [fst snd].
  destruct (committee_votes_response_total scaler arr M
              (SvmUtils.score_with_svm model scaler M) rf mlp cs) as [votes Hvotes].
  { apply length_score_with_svm. }
  exists votes. split; [exact Hvotes|]. rewrite Hvotes. reflexivity.
Qed.

End estimators.

Section partition.
Context `{Estimators}.

Lemma add_items_cons (item : WeightedBlockId) (items : list WeightedBlockId)
    (ids : gset Z) (w : gmap Z R) :
  add_items (item :: items) ids w =
  add_items items ({[ id item ]} ∪ ids) (<[ id item := tier_weight (source item) ]> w).
Proof. reflexivity. Qed.

Lemma add_items_ids (items : list WeightedBlockId) : forall (ids : gset Z) (w : gmap Z R) (x : Z),
  x ∈ fst (add_items items ids w) <-> x ∈ ids \/ exists item, In item items /\ id item = x.
Proof.
  induction items as [|item items IH]; intros ids w x.
  - cbn. split; [auto | intros [Hx | (item & [] & _)]; exact Hx].
  - rewrite add_items_cons, IH. rewrite elem_of_union, elem_of_singleton. split.
    + intros [[-> | Hx] | (it & Hin & Hid)].
      * right. exists item. split; [left; reflexivity | reflexivity].
      * left. exact Hx.
      * right. exists it. split; [right; exact Hin | exact Hid].
    + intros [Hx | (it & [<- | Hin] & Hid)].
      * left. right. exact Hx.
      * left. left. symmetry. exact Hid.
      * right. exists it. split; assumption.
Qed.

Lemma add_items_weight (items : list WeightedBlockId) : forall (ids : gset Z) (w : gmap Z R) (x : Z),
  snd (add_items items ids w) !! x =
  match last_with_id items x with
  | Some item => Some (tier_weight (source item))
  | None => w !! x
  end.
Proof.
  induction items as [|item items IH]; intros ids w x; [reflexivity|].
  rewrite add_items_cons, IH. cbn [last_with_id].
  destruct (last_with_id items x) as [later|]; [reflexivity|].
  destruct (decide (id item = x)) as [-> | Hne].
  - apply lookup_insert_eq.
  - apply lookup_insert_ne. exact Hne.
Qed.

Lemma last_with_id_in (items : list WeightedBlockId) (x : Z) (item : WeightedBlockId) :
  last_with_id items x = Some item -> In item items /\ id item = x.
Proof.
  induction items as [|it items IH]; cbn [last_with_id]; [discriminate|].
  destruct (last_with_id items x) as [later|].
  - intros [= <-]. destruct (IH eq_refl) as [Hin Hid]. split; [right; exact Hin | exact Hid].
  - destruct (decide (id it = x)) as [Hit | _]; [|discriminate].
    intros [= <-]. split; [left; reflexivity | exact Hit].
Qed.

Lemma last_with_id_None (items : list WeightedBlockId) (x : Z) :
  last_with_id items x = None -> forall item, In item items -> id item <> x.
Proof.
  induction items as [|it items IH]; cbn [last_with_id]; [intros _ item []|].
  destruct (last_with_id items x) as [later|]; [discriminate|].
  destruct (decide (id it = x)) as [_ | Hne]; [discriminate|].
  intros _ item [<- | Hin]; [exact Hne | apply IH; [reflexivity | exact Hin]].
Qed.

Lemma last_with_id_Some (items : list WeightedBlockId) (x : Z) :
  (exists item, In item items /\ id item = x) ->
  exists item, last_with_id items x = Some item /\ In item items /\ id item = x.
Proof.
  intros (item & Hin & Hid). destruct (last_with_id items x) as [found|] eqn:E.
  - exists found. split; [reflexivity | apply last_with_id_in; exact E].
  - exfalso. exact (last_with_id_None items x E item Hin Hid).
Qed.

Lemma partition_indices_from (selected_ids rejected_ids : gset Z) (l : list Z) :
  forall (k : nat) (sel rej : list nat),
  fold_left (fun '(sel_indices, rej_indices) '(i, bid) =>
               if decide (bid ∈ selected_ids) then (sel_indices ++ [i], rej_indices)
               else if decide (bid ∈ rejected_ids) then (sel_indices, rej_indices ++ [i])
               else (sel_indices, rej_indices))
            (zip (seq k (length l)) l) (sel, rej)
  = (sel ++ sel_from selected_ids k l, rej ++ rej_from selected_ids rejected_ids k l).
Proof.
  induction l as [|bid l IH]; intros k sel rej.
  - cbn. rewrite !app_nil_r. reflexivity.
  - cbn [length seq zip zip_with fold_left sel_from rej_from].
    destruct (decide (bid ∈ selected_ids)); [|destruct (decide (bid ∈ rejected_ids))];
      rewrite IH, <- ?app_assoc; reflexivity.
Qed.

Lemma partition_indices_spec (arr : list Z) (selected_ids rejected_ids : gset Z) :
  partition_indices arr selected_ids rejected_ids =
  (sel_from selected_ids 0 arr, rej_from selected_ids rejected_ids 0 arr).
Proof. unfold partition_indices. apply partition_indices_from. Qed.

Lemma in_sel_from (selected_ids : gset Z) (l : list Z) : forall (k i : nat),
  In i (sel_from selected_ids k l) <->
  (k <= i)%nat /\ exists bid, l !! (i - k)%nat = Some bid /\ bid ∈ selected_ids.
Proof.
  induction l as [|b l IH]; intros k i; cbn [sel_from].
  - split; [intros [] | intros (_ & bid & Hl & _); discriminate].
  - assert (Hshift : forall bid, (S k <= i)%nat ->
              (b :: l) !! (i - k)%nat = Some bid <-> l !! (i - S k)%nat = Some bid).
    { intros bid Hk. replace (i - k)%nat with (S (i - S k)) by lia. reflexivity. }
    destruct (decide (b ∈ selected_ids)) as [Hb | Hb]; cbn [In]; rewrite IH; split.
    + intros [<- | (Hk & bid & Hl & Hin)].
      * split; [lia|]. exists b. rewrite Nat.sub_diag. split; [reflexivity | exact Hb].
      * split; [lia|]. exists bid. split; [apply Hshift; assumption | exact Hin].
    + intros (Hk & bid & Hl & Hin). destruct (Nat.eq_dec k i) as [E | N]; [left; exact E|].
      right. split; [lia|]. exists bid. split; [apply Hshift; [lia | exact Hl] | exact Hin].
    + intros (Hk & bid & Hl & Hin). split; [lia|]. exists bid.
      split; [apply Hshift; assumption | exact Hin].
    + intros (Hk & bid & Hl & Hin). destruct (Nat.eq_dec k i) as [<- | N].
      * rewrite Nat.sub_diag in Hl. injection Hl as <-. contradiction.
      * split; [lia|]. exists bid. split; [apply Hshift; [lia | exact Hl] | exact Hin].
Qed.

Lemma in_rej_from (selected_ids rejected_ids : gset Z) (l : list Z) : forall (k i : nat),
  In i (rej_from selected_ids rejected_ids k l) ->
  exists bid, l !! (i - k)%nat = Some bid /\ (bid ∉ selected_ids) /\ bid ∈ rejected_ids.
Proof.
  induction l as [|b l IH]; intros k i; cbn [rej_from]; [intros []|].
  assert (Hmono : forall i', In i' (rej_from selected_ids rejected_ids (S k) l) -> (S k <= i')%nat).
  { clear. generalize (S k). induction l as [|c l IHl]; intros j i'; cbn [rej_from]; [intros []|].
    destruct (decide (c ∈ selected_ids)); [|destruct (decide (c ∈ rejected_ids))];
      cbn [In]; intros Hin; try (apply IHl in Hin; lia).
    destruct Hin as [<- | Hin]; [lia | apply IHl in Hin; lia]. }
  assert (Hrest : In i (rej_from selected_ids rejected_ids (S k) l) ->
            exists bid, (b :: l) !! (i - k)%nat = Some bid /\
                        (bid ∉ selected_ids) /\ bid ∈ rejected_ids).
  { intros Hin. pose proof (Hmono i Hin) as Hk. apply IH in Hin.
    destruct Hin as (bid & Hl & Hns & Hr). exists bid.
    replace (i - k)%nat with (S (i - S k)) by lia. auto. }
  destruct (decide (b ∈ selected_ids)) as [Hb | Hb]; [exact Hrest|].
  destruct (decide (b ∈ rejected_ids)) as [Hr | Hr]; [|exact Hrest].
  intros [<- | Hin]; [|exact (Hrest Hin)].
  exists b. rewrite Nat.sub_diag. auto.
Qed.

Lemma sel_from_empty (l : list Z) : forall k, sel_from ∅ k l = [].
Proof.
  induction l as [|b l IH]; intros k; cbn [sel_from]; [reflexivity|].
  destruct (decide (b ∈ (∅ : gset Z))) as [Hb | _]; [set_solver | apply IH].
Qed.

Lemma rej_from_empty (selected_ids : gset Z) (l : list Z) :
  forall k, rej_from selected_ids ∅ k l = [].
Proof.
  induction l as [|b l IH]; intros k; cbn [rej_from]; [reflexivity|].
  destruct (decide (b ∈ selected_ids)); [apply IH|].
  destruct (decide (b ∈ (∅ : gset Z))) as [Hb | _]; [set_solver | apply IH].
Qed.

(** [label_partition] in terms of the two labelled sets and the weight map. *)
Lemma label_partition_spec (request : SimilarityHistogramRequest) (arr : list Z) :
  let selected_ids := fst (add_items (selected_items request) ∅ ∅) in
  let w1 := snd (add_items (selected_items request) ∅ ∅) in
  let rejected_ids := fst (add_items (rejected_items request) ∅ w1) in
  let id_to_weight := snd (add_items (rejected_items request) ∅ w1) in
  label_partition request arr =
  (sel_from selected_ids 0 arr, rej_from selected_ids rejected_ids 0 arr, id_to_weight).
Proof.
  cbv zeta. unfold label_partition.
  destruct (add_items (selected_items request) ∅ ∅) as [selected_ids w1]. cbn [fst snd].
  destruct (add_items (rejected_items request) ∅ w1) as [rejected_ids w2]. cbn [fst snd].
  rewrite partition_indices_spec. reflexivity.
Qed.

End partition.

Section labels.
Context `{Estimators}.

Lemma lookup_map {A B : Type} (f : A -> B) (l : list A) (p : nat) (x : A) :
  l !! p = Some x -> map f l !! p = Some (f x).
Proof.
  revert p. induction l as [|a l IH]; intros [|p]; cbn; try discriminate.
  - intros [= ->]. reflexivity.
  - apply IH.
Qed.

Lemma weights_at_lookup (w : gmap Z R) (arr : list Z) (indices : list nat)
    (p i : nat) (bid : Z) :
  indices !! p = Some i -> arr !! i = Some bid ->
  weights_at w arr indices !! p = Some (default CLICK_WEIGHT (w !! bid)).
Proof.
  intros Hp Hi. unfold weights_at.
  rewrite (lookup_map _ _ _ _ Hp), (nth_lookup_Some _ _ _ _ Hi). reflexivity.
Qed.

(** C10.  An identifier that is both selected and rejected is a row of the
    positive class only, and the weight of that row is the tier weight of
    its entry in the rejected list (the last such entry if there are
    several), because the rejected loop writes the shared map last. *)
Theorem overlap_positive_with_rejected_weight
    (request : SimilarityHistogramRequest) (arr : list Z) (i : nat) (bid : Z) :
  arr !! i = Some bid ->
  (exists item, In item (selected_items request) /\ id item = bid) ->
  (exists item, In item (rejected_items request) /\ id item = bid) ->
  let '(sel_indices, rej_indices, id_to_weight) := label_partition request arr in
  In i sel_indices /\ ~ In i rej_indices /\
  exists item,
    last_with_id (rejected_items request) bid = Some item /\
    In item (rejected_items request) /\ id item = bid /\
    forall p, sel_indices !! p = Some i ->
      weights_at id_to_weight arr sel_indices !! p = Some (tier_weight (source item)).
Proof.
  intros Hi Hsel Hrej. rewrite label_partition_spec.
  set (selected_ids := fst (add_items (selected_items request) ∅ ∅)).
  set (w1 := snd (add_items (selected_items request) ∅ ∅)).
  set (rejected_ids := fst (add_items (rejected_items request) ∅ w1)).
  set (id_to_weight := snd (add_items (rejected_items request) ∅ w1)).
  assert (Hbid : bid ∈ selected_ids).
  { unfold selected_ids. apply add_items_ids. right. exact Hsel. }
  split; [|split].
  - apply in_sel_from. split; [lia|]. exists bid. rewrite Nat.sub_0_r. auto.
  - intros Hin. apply in_rej_from in Hin. destruct Hin as (b & Hb & Hnot & _).
    rewrite Nat.sub_0_r, Hi in Hb. injection Hb as <-. contradiction.
  - destruct (last_with_id_Some _ _ Hrej) as (item & Hlast & Hin & Hid).
    exists item. split; [exact Hlast|]. split; [exact Hin|]. split; [exact Hid|].
    intros p Hp. rewrite (weights_at_lookup _ _ _ _ _ _ Hp Hi).
    unfold id_to_weight. rewrite add_items_weight, Hlast. reflexivity.
Qed.

End labels.

(** Block 5 is clicked as selected and listed as rejected by threshold. *)
Lemma overlap_positive_with_rejected_weight_witness :
  let request :=
    {| selected_items := [ {| id := 5; source := click |} ];
       rejected_items := [ {| id := 5; source := threshold |} ];
       block_ids := [5%Z] |} in
  [5%Z] !! 0%nat = Some 5%Z /\
  let '(sel_indices, rej_indices, id_to_weight) :=
    label_partition (H := Reference.estimators) request [5%Z] in
  In 0%nat sel_indices /\ ~ In 0%nat rej_indices /\
  exists item,
    last_with_id (rejected_items request) 5 = Some item /\
    In item (rejected_items request) /\ id item = 5%Z /\
    forall p, sel_indices !! p = Some 0%nat ->
      weights_at (H := Reference.estimators) id_to_weight [5%Z] sel_indices !! p
        = Some (tier_weight (H := Reference.estimators) (source item)).
Proof.
  intros request. split; [reflexivity|].
  apply (overlap_positive_with_rejected_weight (H := Reference.estimators)
           request [5%Z] 0%nat 5%Z).
  - reflexivity.
  - exists {| id := 5; source := click |}. split; [left; reflexivity | reflexivity].
  - exists {| id := 5; source := threshold |}. split; [left; reflexivity | reflexivity].
Defined.

Section degenerate.
Context `{Estimators}.

Lemma no_metric_data_extract (self : ClassificationService) (ids : list Z) :
  no_metric_data (data_service self) ids -> _extract_metrics self ids = None.
Proof.
  unfold no_metric_data, _extract_metrics, DataService.get_metrics, DataService.metric_columns.
  destruct (DataService._metrics_lazy (data_service self)) as [frame|]; [|reflexivity].
  intros [Hrows | Hcols].
  - assert (Hnil : filter (fun row => DataService.block_id row ∈ ids) frame = []).
    { induction frame as [|row frame IH]; [reflexivity|].
      rewrite filter_cons_False.
      - apply IH. intros r Hr. apply Hrows. right. exact Hr.
      - intros Hin. apply list_elem_of_In in Hin. exact (Hrows row (or_introl eq_refl) Hin). }
    rewrite Hnil. reflexivity.
  - rewrite Hcols. destruct (filter _ frame); reflexivity.
Qed.

Lemma label_partition_no_selected (request : SimilarityHistogramRequest) (arr : list Z) :
  selected_items request = [] -> fst (fst (label_partition request arr)) = [].
Proof.
  intros Hsel. rewrite label_partition_spec, Hsel. cbn [fst snd add_items fold_left].
  apply sel_from_empty.
Qed.

Lemma label_partition_no_rejected (request : SimilarityHistogramRequest) (arr : list Z) :
  rejected_items request = [] -> snd (fst (label_partition request arr)) = [].
Proof.
  intros Hrej. rewrite label_partition_spec, Hrej. cbn [fst snd add_items fold_left].
  apply rej_from_empty.
Qed.

(** A ready service answers a degenerate request with the empty response
    and stays as it was. *)
Lemma degenerate_request (self : ClassificationService)
    (request : SimilarityHistogramRequest) :
  DataService.is_ready (data_service self) = true ->
  no_metric_data (data_service self) (block_ids request) \/
  selected_items request = [] \/ rejected_items request = [] ->
  get_similarity_score_histogram self request = (Ok SvmUtils.empty_response, self).
Proof.
  intros Hready Hdeg. unfold get_similarity_score_histogram. rewrite Hready. cbn [negb].
  destruct (_extract_metrics self (block_ids request)) as [[arr M]|] eqn:Hex; [|reflexivity].
  destruct Hdeg as [Hno | [Hsel | Hrej]].
  - apply no_metric_data_extract in Hno. congruence.
  - pose proof (label_partition_no_selected request arr Hsel) as Hnil.
    destruct (label_partition request arr) as [[sel rej] w]. cbn [fst] in Hnil. subst sel.
    reflexivity.
  - pose proof (label_partition_no_rejected request arr Hrej) as Hnil.
    destruct (label_partition request arr) as [[sel rej] w]. cbn [fst snd] in Hnil. subst rej.
    destruct sel; reflexivity.
Qed.

(** While the data service is not ready the guard raises [RuntimeError]
    before the request is looked at, and the service stays as it was. *)
Lemma not_ready_raises (self : ClassificationService)
    (request : SimilarityHistogramRequest) :
  DataService.is_ready (data_service self) = false ->
  get_similarity_score_histogram self request = (Raise "RuntimeError", self).
Proof.
  intros Hready. unfold get_similarity_score_histogram. rewrite Hready. reflexivity.
Qed.

End degenerate.

Section steps.
Context `{Estimators}.

Lemma scorable_true (self : ClassificationService) (request : SimilarityHistogramRequest) :
  scorable self request = true ->
  DataService.is_ready (data_service self) = true /\
  exists arr M sel rej w,
    _extract_metrics self (block_ids request) = Some (arr, M) /\
    label_partition request arr = (sel, rej, w) /\ sel <> [] /\ rej <> [].
Proof.
  unfold scorable. intros Hs. apply andb_prop in Hs. destruct Hs as [Hready Hs].
  split; [exact Hready|].
  destruct (_extract_metrics self (block_ids request)) as [[arr M]|]; [|discriminate].
  destruct (label_partition request arr) as [[sel rej] w] eqn:Hpart.
  exists arr, M, sel, rej, w. split; [reflexivity|]. split; [exact Hpart|].
  destruct sel; [discriminate|]. destruct rej; [discriminate|]. split; discriminate.
Qed.

(** A request that is not scorable leaves the service as it was. *)
Lemma unscorable_request (self : ClassificationService)
    (request : SimilarityHistogramRequest) :
  scorable self request = false ->
  snd (get_similarity_score_histogram self request) = self /\
  (DataService.is_ready (data_service self) = true ->
   fst (get_similarity_score_histogram self request) = Ok SvmUtils.empty_response).
Proof.
  unfold scorable, get_similarity_score_histogram.
  destruct (DataService.is_ready (data_service self)); cbn [negb andb]; [|split; [reflexivity | discriminate]].
  destruct (_extract_metrics self (block_ids request)) as [[arr M]|]; [|split; reflexivity].
  destruct (label_partition request arr) as [[sel rej] w].
  destruct sel; [split; reflexivity|]. destruct rej; [split; reflexivity | discriminate].
Qed.

(** A scorable request whose key is cached: the cached pair scores the
    candidates, the cache stays as it is, and the only fits are those of
    [train_committee]. *)
Lemma cached_request (self : ClassificationService)
    (request : SimilarityHistogramRequest) (arr : list Z) (M : matrix)
    (sel rej : list nat) (w : gmap Z R) (entry : SVC * StandardScaler) :
  DataService.is_ready (data_service self) = true ->
  _extract_metrics self (block_ids request) = Some (arr, M) ->
  label_partition request arr = (sel, rej, w) -> sel <> [] -> rej <> [] ->
  PyDict.get (_svm_cache self) (request_key request) = Some entry ->
  let scores := SvmUtils.score_with_svm (fst entry) (snd entry) M in
  let tc := Committee.train_committee (committee_service self)
              (rows_at M sel ++ rows_at M rej)
              (SvmUtils.labels (length (rows_at M sel)) (length (rows_at M rej)))
              (weights_at w arr sel ++ weights_at w arr rej) in
  exists response,
    fst (get_similarity_score_histogram self request) = Ok response /\
    Models.scores response = PyDict.of_items (zip (map str_int arr) scores) /\
    _svm_cache (snd (get_similarity_score_histogram self request)) = _svm_cache self /\
    fit_log (snd (get_similarity_score_histogram self request)) = fit_log self ++ snd tc.
Proof.
  intros Hready Hex Hpart Hsel Hrej Hget. cbv zeta.
  destruct (score_request_unfold self request arr M sel rej w entry (_svm_cache self) []
              Hready Hex Hpart Hsel Hrej) as (votes & _ & Hrun).
  { apply lookup_or_train_hit. exact Hget. }
  rewrite Hrun. cbn [fst snd _svm_cache fit_log app].
  eexists. split; [reflexivity|]. split; [|split; reflexivity].
  unfold SvmUtils.build_similarity_histogram_response.
  destruct (PyDict.values _) eqn:Hvals.
  - destruct (PyDict.of_items _); [reflexivity | discriminate Hvals].
  - destruct (Np.histogram _ _). reflexivity.
Qed.

(** A scorable request whose key is not cached: the pair is trained, the
    oldest entry leaves a full cache, and the new entry goes last. *)
Lemma uncached_request (self : ClassificationService)
    (request : SimilarityHistogramRequest) :
  cache_ok self -> scorable self request = true ->
  PyDict.get (_svm_cache self) (request_key request) = None ->
  exists response entry,
    fst (get_similarity_score_histogram self request) = Ok response /\
    _svm_cache (snd (get_similarity_score_histogram self request)) =
      (if (100 <=? length (_svm_cache self))%nat then tl (_svm_cache self)
       else _svm_cache self) ++ [(request_key request, entry)].
Proof.
  intros (Hmax & Hnd & Hlen) Hs Hget.
  destruct (scorable_true _ _ Hs) as (Hready & arr & M & sel & rej & w & Hex & Hpart & Hsel & Hrej).
  pose proof (lookup_or_train_miss (_svm_cache self) (_max_cache_size self)
                (request_key request) (rows_at M sel) (rows_at M rej)
                (weights_at w arr sel) (weights_at w arr rej) Hget ltac:(lia) Hnd) as Hmiss.
  cbv zeta in Hmiss.
  destruct (score_request_unfold self request arr M sel rej w _ _ _
              Hready Hex Hpart Hsel Hrej Hmiss) as (votes & _ & Hrun).
  rewrite Hrun. cbn [fst snd _svm_cache]. rewrite Hmax.
  eexists. eexists. split; reflexivity.
Qed.

End steps.

Section invariants.
Context `{Estimators}.

Lemma request_keeps_config (self : ClassificationService)
    (request : SimilarityHistogramRequest) :
  data_service (snd (get_similarity_score_histogram self request)) = data_service self /\
  _max_cache_size (snd (get_similarity_score_histogram self request)) = _max_cache_size self.
Proof.
  unfold get_similarity_score_histogram.
  destruct (negb _); [split; reflexivity|].
  destruct (_extract_metrics _ _) as [[arr M]|]; [|split; reflexivity].
  destruct (label_partition _ _) as [[[|s sel] [|r rej]] w]; try (split; reflexivity).
  destruct (lookup_or_train _ _ _ _ _ _ _) as [[[[model scaler] cache] calls]|e];
    [|split; reflexivity].
  destruct (Committee.train_committee _ _ _ _) as [[[[rf mlp] cs] committee] ccalls].
  destruct (committee_votes_response _ _ _ _ _ _ _); split; reflexivity.
Qed.

Lemma scorable_same_data (self self' : ClassificationService)
    (request : SimilarityHistogramRequest) :
  data_service self' = data_service self -> scorable self' request = scorable self request.
Proof.
  intros Hds. unfold scorable, _extract_metrics. rewrite Hds. reflexivity.
Qed.

(** The keys of the cache after a scorable request. *)
Lemma request_cache_keys (self : ClassificationService)
    (request : SimilarityHistogramRequest) :
  cache_ok self -> scorable self request = true ->
  let keys := PyDict.keys (_svm_cache self) in
  let keys' := PyDict.keys (_svm_cache (snd (get_similarity_score_histogram self request))) in
  (In (request_key request) keys -> keys' = keys) /\
  (~ In (request_key request) keys ->
   keys' = (if (100 <=? length keys)%nat then tl keys else keys) ++ [request_key request]).
Proof.
  intros Hok Hs. cbv zeta.
  destruct (PyDict.get (_svm_cache self) (request_key request)) as [entry|] eqn:Hget.
  - destruct (scorable_true _ _ Hs)
      as (Hready & arr & M & sel & rej & w & Hex & Hpart & Hsel & Hrej).
    destruct (cached_request self request arr M sel rej w entry
                Hready Hex Hpart Hsel Hrej Hget) as (response & _ & _ & Hcache & _).
    rewrite Hcache. split; [reflexivity|].
    intros Hnot. exfalso. apply Hnot. eapply get_Some_keys. exact Hget.
  - destruct (uncached_request self request Hok Hs Hget) as (response & entry & _ & Hcache).
    rewrite Hcache. split.
    + intros Hin. apply get_None_keys in Hget. contradiction.
    + intros _. rewrite keys_app, length_keys. cbn [PyDict.keys map fst].
      destruct (100 <=? length (_svm_cache self))%nat; [|reflexivity].
      destruct (_svm_cache self); reflexivity.
Qed.

Lemma request_keeps_cache_ok (self : ClassificationService)
    (request : SimilarityHistogramRequest) :
  cache_ok self -> cache_ok (snd (get_similarity_score_histogram self request)).
Proof.
  intros Hok. destruct (scorable self request) eqn:Hs.
  - pose proof (request_cache_keys self request Hok Hs) as [Hhit Hmiss]. cbv zeta in Hhit, Hmiss.
    destruct (request_keeps_config self request) as [_ Hmax].
    destruct Hok as (Hmax0 & Hnd & Hlen).
    split; [congruence|].
    rewrite <- (length_keys (_svm_cache (snd _))).
    rewrite <- length_keys in Hlen.
    destruct (in_dec string_dec (request_key request) (PyDict.keys (_svm_cache self)))
      as [Hin | Hnot].
    + rewrite (Hhit Hin). split; assumption.
    + rewrite (Hmiss Hnot).
      destruct (100 <=? length (PyDict.keys (_svm_cache self)))%nat eqn:Hfull.
      * apply Nat.leb_le in Hfull.
        destruct (PyDict.keys (_svm_cache self)) as [|k0 keys]; [cbn in Hfull; lia|].
        cbn [tl]. cbn [length] in Hlen. apply List.NoDup_cons_iff in Hnd.
        split.
        -- apply NoDup_ListNoDup, NoDup_app. split; [apply NoDup_ListNoDup, Hnd|].
           split; [|apply NoDup_singleton].
           intros x Hx Hx'. apply list_elem_of_singleton in Hx'. subst x.
           apply Hnot. right. apply list_elem_of_In. exact Hx.
        -- rewrite length_app. cbn. lia.
      * apply Nat.leb_gt in Hfull. split.
        -- apply NoDup_ListNoDup, NoDup_app. split; [apply NoDup_ListNoDup, Hnd|].
           split; [|apply NoDup_singleton].
           intros x Hx Hx'. apply list_elem_of_singleton in Hx'. subst x.
           apply Hnot. apply list_elem_of_In. exact Hx.
        -- rewrite length_app. cbn. lia.
  - destruct (unscorable_request self request Hs) as [-> _]. exact Hok.
Qed.

Lemma init_cache_ok (ds : DataService.t) : cache_ok (__init__ ds).
Proof. split; [reflexivity|]. split; [constructor | cbn; lia]. Qed.

Lemma serve_cons (self : ClassificationService) (request : SimilarityHistogramRequest)
    (requests : list SimilarityHistogramRequest) :
  serve self (request :: requests) =
  serve (snd (get_similarity_score_histogram self request)) requests.
Proof. reflexivity. Qed.

Lemma serve_keeps (requests : list SimilarityHistogramRequest) :
  forall self, cache_ok self ->
    cache_ok (serve self requests) /\
    data_service (serve self requests) = data_service self.
Proof.
  induction requests as [|request requests IH]; intros self Hok; [split; [exact Hok | reflexivity]|].
  rewrite serve_cons.
  destruct (IH _ (request_keeps_cache_ok self request Hok)) as [Hok' Hds].
  split; [exact Hok'|]. rewrite Hds. apply request_keeps_config.
Qed.

(** A ready service with a sound cache answers every request. *)
Lemma request_answered (self : ClassificationService)
    (request : SimilarityHistogramRequest) :
  cache_ok self -> DataService.is_ready (data_service self) = true ->
  exists response, fst (get_similarity_score_histogram self request) = Ok response.
Proof.
  intros Hok Hready. destruct (scorable self request) eqn:Hs.
  - destruct (PyDict.get (_svm_cache self) (request_key request)) as [entry|] eqn:Hget.
    + destruct (scorable_true _ _ Hs)
        as (_ & arr & M & sel & rej & w & Hex & Hpart & Hsel & Hrej).
      destruct (cached_request self request arr M sel rej w entry
                  Hready Hex Hpart Hsel Hrej Hget) as (response & Hrun & _).
      exists response. exact Hrun.
    + destruct (uncached_request self request Hok Hs Hget) as (response & entry & Hrun & _).
      exists response. exact Hrun.
  - destruct (unscorable_request self request Hs) as [_ Hrun].
    eexists. apply Hrun. exact Hready.
Qed.

(** Requests with pairwise distinct new keys fill the cache in order and
    push out the oldest keys once it holds 100. *)
Lemma serve_distinct_keys (requests : list SimilarityHistogramRequest) :
  forall self, cache_ok self ->
    Forall (fun r => scorable self r = true) requests ->
    List.NoDup (PyDict.keys (_svm_cache self) ++ map request_key requests) ->
    PyDict.keys (_svm_cache (serve self requests)) =
    skipn (length (PyDict.keys (_svm_cache self) ++ map request_key requests) - 100)
          (PyDict.keys (_svm_cache self) ++ map request_key requests).
Proof.
  induction requests as [|request requests IH]; intros self Hok Hall Hnd.
  - cbn [serve fold_left map]. rewrite app_nil_r.
    destruct Hok as (_ & _ & Hlen). rewrite <- length_keys in Hlen.
    replace (length (PyDict.keys (_svm_cache self)) - 100)%nat with 0%nat by lia.
    reflexivity.
  - rewrite serve_cons. inversion Hall as [|? ? Hs Hrest]; subst.
    pose proof (request_keeps_cache_ok self request Hok) as Hok'.
    destruct (request_keeps_config self request) as [Hds _].
    destruct (request_cache_keys self request Hok Hs) as [_ Hmiss]. cbv zeta in Hmiss.
    assert (Hnew : ~ In (request_key request) (PyDict.keys (_svm_cache self))).
    { intros Hin. apply NoDup_ListNoDup, NoDup_app in Hnd. destruct Hnd as (_ & Hdisj & _).
      apply (Hdisj (request_key request)); [apply list_elem_of_In; exact Hin|].
      apply list_elem_of_In. left. reflexivity. }
    specialize (Hmiss Hnew).
    set (st' := snd (get_similarity_score_histogram self request)) in *.
    assert (Happ : forall keys : list string,
              (keys ++ [request_key request]) ++ map request_key requests =
              keys ++ map request_key (request :: requests))
      by (intros keys; rewrite <- app_assoc; reflexivity).
    destruct Hok as (_ & _ & Hlen). rewrite <- length_keys in Hlen.
    rewrite IH.
    + rewrite Hmiss.
      destruct (100 <=? length (PyDict.keys (_svm_cache self)))%nat eqn:Hfull.
      * apply Nat.leb_le in Hfull.
        destruct (PyDict.keys (_svm_cache self)) as [|k0 keys]; [cbn in Hfull; lia|].
        cbn [tl]. rewrite Happ. cbn [length] in Hlen, Hfull.
        set (L := keys ++ map request_key (request :: requests)).
        change ((k0 :: keys) ++ map request_key (request :: requests)) with (k0 :: L).
        assert (HL : (100 <= length L)%nat)
          by (unfold L; rewrite length_app; cbn [map length]; lia).
        cbn [length].
        replace (S (length L) - 100)%nat with (S (length L - 100))%nat by lia.
        reflexivity.
      * rewrite Happ. reflexivity.
    + exact Hok'.
    + apply List.Forall_forall. intros r Hr.
      rewrite (scorable_same_data self st' r Hds).
      eapply List.Forall_forall in Hrest; eauto.
    + rewrite Hmiss.
      destruct (100 <=? length (PyDict.keys (_svm_cache self)))%nat.
      * destruct (PyDict.keys (_svm_cache self)) as [|k0 keys]; cbn [tl];
          rewrite Happ; [exact Hnd|].
        cbn [app] in Hnd. apply List.NoDup_cons_iff in Hnd. apply Hnd.
      * rewrite Happ. exact Hnd.
Qed.

End invariants.

Section cache_claims.
Context `{Estimators}.

(** C5.  However many requests a service has answered, its cache holds at
    most 100 entries.  A hit leaves the cache as it is; a miss appends the new
    key after dropping the oldest key of a full cache.  Hence after 101
    requests with pairwise distinct keys the cache holds the keys of all but
    the first of them: exactly the first-inserted key has been removed and
    every other key still hits. *)
Theorem cache_bounded_and_fifo :
  (forall ds requests,
     (length (_svm_cache (serve (__init__ ds) requests)) <= 100)%nat) /\
  (forall ds requests request,
     let self := serve (__init__ ds) requests in
     let keys := PyDict.keys (_svm_cache self) in
     let keys' := PyDict.keys (_svm_cache (snd (get_similarity_score_histogram self request))) in
     scorable self request = true ->
     (In (request_key request) keys -> keys' = keys) /\
     (~ In (request_key request) keys ->
      keys' = (if (100 <=? length keys)%nat then tl keys else keys) ++ [request_key request])) /\
  (forall ds requests,
     Forall (fun r => scorable (__init__ ds) r = true) requests ->
     List.NoDup (map request_key requests) ->
     length requests = 101%nat ->
     let cache := _svm_cache (serve (__init__ ds) requests) in
     PyDict.keys cache = tl (map request_key requests) /\
     (forall r, In r (tl requests) -> PyDict.contains cache (request_key r) = true) /\
     (forall r, hd_error requests = Some r -> PyDict.contains cache (request_key r) = false)).
Proof.
  split; [|split].
  - intros ds requests.
    destruct (serve_keeps requests (__init__ ds) (init_cache_ok ds)) as [(_ & _ & Hlen) _].
    exact Hlen.
  - intros ds requests request self keys keys' Hs.
    destruct (serve_keeps requests (__init__ ds) (init_cache_ok ds)) as [Hok _].
    exact (request_cache_keys _ request Hok Hs).
  - intros ds requests Hall Hnd Hlen cache.
    pose proof (serve_distinct_keys requests (__init__ ds) (init_cache_ok ds) Hall Hnd) as Hkeys.
    cbn [__init__ _svm_cache PyDict.keys map app] in Hkeys.
    rewrite length_map, Hlen in Hkeys. change (101 - 100)%nat with 1%nat in Hkeys.
    fold cache in Hkeys.
    assert (Htl : PyDict.keys cache = tl (map request_key requests)).
    { rewrite Hkeys. destruct (map request_key requests); reflexivity. }
    split; [exact Htl|]. split.
    + intros r Hr. unfold PyDict.contains.
      destruct (PyDict.get cache (request_key r)) eqn:Hget; [reflexivity|].
      apply get_None_keys in Hget. exfalso. apply Hget. rewrite Htl.
      destruct requests as [|r0 requests]; [destruct Hr|]. cbn [tl map] in *.
      apply in_map. exact Hr.
    + intros r Hr. unfold PyDict.contains.
      destruct (PyDict.get cache (request_key r)) eqn:Hget; [|reflexivity].
      apply get_Some_keys in Hget. rewrite Htl in Hget.
      destruct requests as [|r0 requests]; [discriminate|]. injection Hr as ->.
      cbn [tl map] in *. apply List.NoDup_cons_iff in Hnd. tauto.
Qed.

End cache_claims.

(** 101 requests with distinct keys against an empty cache: the key of the
    first request is gone, the other 100 are cached. *)
Lemma cache_bounded_and_fifo_witness :
  let requests := map select_one (seq 1 101) in
  let cache := _svm_cache (serve (H := Reference.estimators)
                             (__init__ (H := Reference.estimators) many_blocks) requests) in
  PyDict.keys cache = tl (map (request_key (H := Reference.estimators)) requests) /\
  length cache = 100%nat.
Proof.
  intros requests cache.
  destruct (proj2 (proj2 (cache_bounded_and_fifo (H := Reference.estimators)))
              many_blocks requests) as (Hkeys & _ & _).
  - apply List.Forall_forall. intros r Hr. apply in_map_iff in Hr.
    destruct Hr as (i & <- & Hi).
    assert (Hall : forallb (fun i => scorable (H := Reference.estimators)
                                       (__init__ (H := Reference.estimators) many_blocks)
                                       (select_one i)) (seq 1 101) = true)
      by (vm_compute; reflexivity).
    rewrite forallb_forall in Hall. apply Hall. exact Hi.
  - apply NoDup_ListNoDup.
    apply (bool_decide_unpack (NoDup (map (request_key (H := Reference.estimators)) requests))).
    vm_compute. exact I.
  - reflexivity.
  - split; [exact Hkeys|]. fold cache in Hkeys.
    rewrite <- (PyDictFacts.length_keys cache), Hkeys. reflexivity.
Defined.

Section committee_claims.
Context `{Estimators}.

(** C9.  With fewer than 3 samples in either class [train_committee] returns
    no model at all, normally; a fit of the tree ensemble or of the neural
    classifier that raises gives an absent model for that member; and a
    ready service answers every score request, whatever the auxiliary fits
    do. *)
Theorem auxiliary_training_degrades :
  (forall (self : Committee.CommitteeService) (X : matrix) (y : list Z) (w : vector),
     (Committee.count_label 1 y < 3)%nat \/ (Committee.count_label 0 y < 3)%nat ->
     Committee.train_committee self X y w = ((None, None, None), self, [])) /\
  (forall (X : matrix) (y : list Z) (w : vector) (n : nat) (e : string),
     rf_fit (Nat.max 10 (Nat.min 100 (n / 2))) (Nat.min 5 (Nat.max 2 (Nat.log2 (n + 1))))
       X y w = Raise e ->
     Committee._train_rf X y w n = None) /\
  (forall (X : matrix) (y : list Z) (w : vector) (n : nat) (e : string),
     mlp_fit (if (n <? 20)%nat then [16%nat] else [32%nat; 16%nat]) X y w = Raise e ->
     Committee._train_mlp X y w n = None) /\
  (forall (self : Committee.CommitteeService) (X : matrix) (y : list Z) (w : vector),
     (3 <= Committee.count_label 1 y)%nat -> (3 <= Committee.count_label 0 y)%nat ->
     fst (fst (Committee.train_committee self X y w)) =
       (Committee._train_rf (scaler_transform (scaler_fit X) X) y w (length y),
        Committee._train_mlp (scaler_transform (scaler_fit X) X) y w (length y),
        Some (scaler_fit X))) /\
  (forall ds requests request,
     DataService.is_ready ds = true ->
     exists response,
       fst (get_similarity_score_histogram (serve (__init__ ds) requests) request)
         = Ok response).
Proof.
  split; [exact CommitteeFacts.train_committee_insufficient|].
  split; [exact CommitteeFacts.train_rf_caught|].
  split; [exact CommitteeFacts.train_mlp_caught|].
  split.
  - intros self X y w H1 H0.
    rewrite (CommitteeFacts.train_committee_sufficient self X y w H1 H0). reflexivity.
  - intros ds requests request Hready.
    destruct (serve_keeps requests (__init__ ds) (init_cache_ok ds)) as [Hok Hds].
    apply request_answered; [exact Hok|]. rewrite Hds. exact Hready.
Qed.

End committee_claims.

Section hit.
Context `{Estimators}.

Lemma count_label_labels (a b : nat) :
  Committee.count_label 1 (SvmUtils.labels a b) = a /\
  Committee.count_label 0 (SvmUtils.labels a b) = b.
Proof.
  unfold Committee.count_label, SvmUtils.labels. rewrite !List.filter_app, !length_app.
  assert (H1 : forall n, length (List.filter (fun v => bool_decide (v = 1%Z)) (repeat 1%Z n)) = n
                      /\ length (List.filter (fun v => bool_decide (v = 0%Z)) (repeat 1%Z n)) = 0%nat).
  { induction n as [|n [IH1 IH0]]; [split; reflexivity|]. cbn [repeat List.filter].
    change (bool_decide (1%Z = 1%Z)) with true. change (bool_decide (1%Z = 0%Z)) with false.
    cbn [length]. split; [rewrite IH1 | rewrite IH0]; reflexivity. }
  assert (H0 : forall n, length (List.filter (fun v => bool_decide (v = 1%Z)) (repeat 0%Z n)) = 0%nat
                      /\ length (List.filter (fun v => bool_decide (v = 0%Z)) (repeat 0%Z n)) = n).
  { induction n as [|n [IH1 IH0]]; [split; reflexivity|]. cbn [repeat List.filter].
    change (bool_decide (0%Z = 1%Z)) with false. change (bool_decide (0%Z = 0%Z)) with true.
    cbn [length]. split; [rewrite IH1 | rewrite IH0]; reflexivity. }
  destruct (H1 a) as [-> ->]. destruct (H0 b) as [-> ->]. lia.
Qed.

Lemma length_rows_at (M : matrix) (indices : list nat) :
  length (rows_at M indices) = length indices.
Proof. apply length_map. Qed.

(** C1 (as amended).  When the key of a scorable request is cached, the cached
    margin classifier and scaler score the candidates, the cache is left as
    it is and no margin classifier is fitted.  The tree ensemble and the
    neural classifier are not part of the cache entry: both are fitted
    during the request when each class has at least 3 rows, and neither is
    when a class has fewer. *)
Theorem cache_hit_reuses_margin_classifier (self : ClassificationService)
    (request : SimilarityHistogramRequest) (arr : list Z) (M : matrix)
    (sel rej : list nat) (w : gmap Z R) (model : SVC) (scaler : StandardScaler) :
  DataService.is_ready (data_service self) = true ->
  _extract_metrics self (block_ids request) = Some (arr, M) ->
  label_partition request arr = (sel, rej, w) -> sel <> [] -> rej <> [] ->
  PyDict.get (_svm_cache self) (request_key request) = Some (model, scaler) ->
  exists response calls,
    fst (get_similarity_score_histogram self request) = Ok response /\
    Models.scores response =
      PyDict.of_items (zip (map str_int arr)
                           (map (svc_decision_row model) (scaler_transform scaler M))) /\
    _svm_cache (snd (get_similarity_score_histogram self request)) = _svm_cache self /\
    fit_log (snd (get_similarity_score_histogram self request)) = fit_log self ++ calls /\
    (forall X y sw, ~ In (Committee.FitSVC X y sw) calls) /\
    ((length sel < 3)%nat \/ (length rej < 3)%nat -> calls = []) /\
    ((3 <= length sel)%nat -> (3 <= length rej)%nat ->
     exists X y sw, calls = [Committee.FitRF X y sw; Committee.FitMLP X y sw]).
Proof.
  intros Hready Hex Hpart Hsel Hrej Hget.
  destruct (cached_request self request arr M sel rej w (model, scaler)
              Hready Hex Hpart Hsel Hrej Hget) as (response & Hrun & Hscores & Hcache & Hlog).
  cbv zeta in Hscores, Hlog. cbn [fst snd] in Hscores.
  eexists. eexists. split; [exact Hrun|]. split; [exact Hscores|].
  split; [exact Hcache|]. split; [exact Hlog|].
  destruct (count_label_labels (length (rows_at M sel)) (length (rows_at M rej))) as [Hc1 Hc0].
  rewrite !length_rows_at in Hc1, Hc0.
  split; [apply CommitteeFacts.train_committee_calls|]. split.
  - intros Hfew. rewrite CommitteeFacts.train_committee_insufficient; [reflexivity|].
    rewrite !length_rows_at, Hc1, Hc0. exact Hfew.
  - intros H1 H0. rewrite CommitteeFacts.train_committee_sufficient
      by (rewrite !length_rows_at, ?Hc1, ?Hc0; assumption).
    cbn [snd]. eexists. eexists. eexists. reflexivity.
Qed.

End hit.

Section warm.
Let E := Reference.estimators.
Let cold := __init__ (H := E) many_blocks.
Let warm := snd (get_similarity_score_histogram (H := E) cold three_against_three).

Lemma three_against_three_partition (self : ClassificationService (H := E)) :
  data_service self = many_blocks ->
  exists M w,
    _extract_metrics self (block_ids three_against_three) = Some ([1; 2; 3; 4; 5; 6]%Z, M) /\
    label_partition (H := E) three_against_three [1; 2; 3; 4; 5; 6]%Z
      = ([0; 1; 2]%nat, [3; 4; 5]%nat, w).
Proof.
  intros Hds.
  assert (Hs : scorable (H := E) self three_against_three = true).
  { rewrite (scorable_same_data (H := E) cold self) by exact Hds. vm_compute. reflexivity. }
  destruct (scorable_true (H := E) _ _ Hs) as (_ & arr & M & sel & rej & w & Hex & Hpart & _).
  assert (Harr : arr = [1; 2; 3; 4; 5; 6]%Z).
  { assert (Hfst : option_map fst (_extract_metrics self (block_ids three_against_three))
                   = Some [1; 2; 3; 4; 5; 6]%Z).
    { unfold _extract_metrics. rewrite Hds. vm_compute. reflexivity. }
    rewrite Hex in Hfst. injection Hfst as ->. reflexivity. }
  subst arr.
  assert (Hidx : fst (label_partition (H := E) three_against_three [1; 2; 3; 4; 5; 6]%Z)
                 = ([0; 1; 2]%nat, [3; 4; 5]%nat)) by (vm_compute; reflexivity).
  rewrite Hpart in Hidx. injection Hidx as -> ->.
  exists M, w. split; [exact Hex | exact Hpart].
Qed.

Lemma warm_is_cached :
  data_service warm = many_blocks /\
  exists entry, _svm_cache warm = [(request_key (H := E) three_against_three, entry)].
Proof.
  split; [apply (request_keeps_config (H := E) cold three_against_three)|].
  destruct (uncached_request (H := E) cold three_against_three (init_cache_ok many_blocks))
    as (response & entry & _ & Hcache); [vm_compute; reflexivity | reflexivity |].
  exists entry. exact Hcache.
Qed.

(** C1 as stated fails: the same request served a second time finds its key
    in the cache, and the tree ensemble and the neural classifier are fitted
    again all the same. *)
Lemma warm_cache_refits_auxiliaries :
  PyDict.contains (_svm_cache warm) (request_key (H := E) three_against_three) = true /\
  exists X y sw,
    fit_log (snd (get_similarity_score_histogram (H := E) warm three_against_three))
    = fit_log warm ++ [Committee.FitRF X y sw; Committee.FitMLP X y sw].
Proof.
  destruct warm_is_cached as [Hds [[model scaler] Hcache]].
  assert (Hget : PyDict.get (_svm_cache warm) (request_key (H := E) three_against_three)
                 = Some (model, scaler)).
  { rewrite Hcache. cbn [PyDict.get]. rewrite decide_True by reflexivity. reflexivity. }
  split; [unfold PyDict.contains; rewrite Hget; reflexivity|].
  destruct (three_against_three_partition warm Hds) as (M & w & Hex & Hpart).
  destruct (cached_request (H := E) warm three_against_three
              [1; 2; 3; 4; 5; 6]%Z M [0; 1; 2]%nat [3; 4; 5]%nat w (model, scaler))
    as (response & _ & _ & _ & Hlog);
    [rewrite Hds; reflexivity | exact Hex | exact Hpart | discriminate | discriminate | exact Hget |].
  destruct (count_label_labels (length (rows_at M [0; 1; 2]%nat))
              (length (rows_at M [3; 4; 5]%nat))) as [Hc1 Hc0].
  rewrite CommitteeFacts.train_committee_sufficient in Hlog
    by (rewrite ?Hc1, ?Hc0, length_rows_at; cbn; lia).
  eexists. eexists. eexists. exact Hlog.
Qed.

(** The amended statement applies to that second request. *)
Lemma cache_hit_reuses_margin_classifier_witness :
  exists response,
    fst (get_similarity_score_histogram (H := E) warm three_against_three) = Ok response /\
    _svm_cache (snd (get_similarity_score_histogram (H := E) warm three_against_three))
      = _svm_cache warm.
Proof.
  destruct warm_is_cached as [Hds [[model scaler] Hcache]].
  assert (Hget : PyDict.get (_svm_cache warm) (request_key (H := E) three_against_three)
                 = Some (model, scaler)).
  { rewrite Hcache. cbn [PyDict.get]. rewrite decide_True by reflexivity. reflexivity. }
  destruct (three_against_three_partition warm Hds) as (M & w & Hex & Hpart).
  destruct (cache_hit_reuses_margin_classifier (H := E) warm three_against_three
              [1; 2; 3; 4; 5; 6]%Z M [0; 1; 2]%nat [3; 4; 5]%nat w model scaler)
    as (response & calls & Hrun & _ & Hsame & _);
    [rewrite Hds; reflexivity | exact Hex | exact Hpart | discriminate | discriminate | exact Hget |].
  exists response. split; [exact Hrun | exact Hsame].
Defined.

End warm.

Section committee_rows.
Context `{Estimators}.

(** The committee records of a request for which both auxiliary models are
    present.  The rows handed to the two models are the candidate rows
    transformed by the margin classifier's scaler and then by the
    committee's scaler. *)
Lemma committee_votes_response_rows (scaler : StandardScaler) (arr : list Z)
    (M : matrix) (scores : vector)
    (rf : RandomForestClassifier) (mlp : WeightedMLPClassifier) (cs : StandardScaler) :
  length scores = length M ->
  let rows := scaler_transform cs (scaler_transform scaler M) in
  committee_votes_response scaler arr M scores (Some rf) (Some mlp) (Some cs) =
  Ok (Some (PyDict.of_items
              (map (fun e => (fst e, to_vote_info (snd e)))
                   (Committee.get_vote_info_dict (map str_int arr)
                      (map (Committee.record_at
                              (map Committee.svm_vote scores)
                              (map (rf_predict_row rf) rows)
                              (map (mlp_predict_row mlp) rows))
                           (seq 0 (length scores))))))).
Proof.
  intros Hlen. cbv zeta. unfold committee_votes_response, Committee.predict_with_committee.
  rewrite CommitteeFacts.voting_loop_Ok
    by (unfold scaler_transform; rewrite ?length_map; lia).
  reflexivity.
Qed.

Lemma build_response_votes (scores_dict : list (string * R)) (x : R) (t : vector)
    (total_items : nat) (votes : option (list (string * CommitteeVoteInfo))) :
  committee_votes
    (SvmUtils.build_similarity_histogram_response scores_dict (x :: t) total_items votes)
  = votes.
Proof. rewrite SvmUtilsFacts.build_response_fields. reflexivity. Qed.

End committee_rows.

Section fresh.
Context `{Estimators}.

(** A first request with at least 3 rows per class for which both auxiliary
    fits succeed.  The margin classifier's scaler and the committee's scaler
    are both fitted on the training rows [X]; the rows on which the tree
    ensemble and the neural classifier vote are the candidate rows
    transformed by that standardization twice. *)
Lemma fresh_request_votes (self : ClassificationService)
    (request : SimilarityHistogramRequest) (arr : list Z) (M : matrix)
    (sel rej : list nat) (w : gmap Z R)
    (rf : RandomForestClassifier) (mlp : WeightedMLPClassifier) :
  cache_ok self -> DataService.is_ready (data_service self) = true ->
  _extract_metrics self (block_ids request) = Some (arr, M) ->
  label_partition request arr = (sel, rej, w) ->
  PyDict.get (_svm_cache self) (request_key request) = None ->
  (3 <= length sel)%nat -> (3 <= length rej)%nat ->
  let X := rows_at M sel ++ rows_at M rej in
  let y := SvmUtils.labels (length sel) (length rej) in
  let sw := weights_at w arr sel ++ weights_at w arr rej in
  let Xs := scaler_transform (scaler_fit X) X in
  Committee._train_rf Xs y sw (length y) = Some rf ->
  Committee._train_mlp Xs y sw (length y) = Some mlp ->
  let scores := SvmUtils.score_with_svm (svc_fit Xs y sw) (scaler_fit X) M in
  let rows := scaler_transform (scaler_fit X) (scaler_transform (scaler_fit X) M) in
  exists response,
    fst (get_similarity_score_histogram self request) = Ok response /\
    fit_log (snd (get_similarity_score_histogram self request)) =
      fit_log self ++ [Committee.FitSVC Xs y sw; Committee.FitRF Xs y sw;
                       Committee.FitMLP Xs y sw] /\
    committee_votes response =
      Some (PyDict.of_items
              (map (fun e => (fst e, to_vote_info (snd e)))
                   (Committee.get_vote_info_dict (map str_int arr)
                      (map (Committee.record_at
                              (map Committee.svm_vote scores)
                              (map (rf_predict_row rf) rows)
                              (map (mlp_predict_row mlp) rows))
                           (seq 0 (length scores)))))).
Proof.
  intros (Hmax & Hnd & _) Hready Hex Hpart Hget Hsel Hrej. cbv zeta. intros Hrf Hmlp.
  destruct (extract_metrics_shape _ _ _ _ Hex) as [Hshape Harr].
  pose proof (lookup_or_train_miss (_svm_cache self) (_max_cache_size self)
                (request_key request) (rows_at M sel) (rows_at M rej)
                (weights_at w arr sel) (weights_at w arr rej) Hget ltac:(lia) Hnd) as Hmiss.
  cbv zeta in Hmiss.
  destruct (score_request_unfold self request arr M sel rej w _ _ _
              Hready Hex Hpart ltac:(destruct sel; [cbn in Hsel; lia | discriminate])
              ltac:(destruct rej; [cbn in Hrej; lia | discriminate]) Hmiss)
    as (votes & Hvotes & Hrun).
  rewrite Hrun. cbn [fst snd fit_log]. eexists. split; [reflexivity|].
  destruct (count_label_labels (length (rows_at M sel)) (length (rows_at M rej))) as [Hc1 Hc0].
  rewrite CommitteeFacts.train_committee_sufficient in Hvotes
    by (rewrite ?Hc1, ?Hc0, length_rows_at; assumption).
  split.
  { rewrite CommitteeFacts.train_committee_sufficient
      by (rewrite ?Hc1, ?Hc0, length_rows_at; assumption).
    cbn [fst snd SvmUtils.train_svm_model default app]. rewrite !length_rows_at. reflexivity. }
  cbn [fst snd SvmUtils.train_svm_model default] in Hvotes.
  rewrite !length_rows_at in Hvotes. rewrite Hrf, Hmlp in Hvotes.
  rewrite committee_votes_response_rows in Hvotes by apply length_score_with_svm.
  injection Hvotes as <-.
  cbn [fst snd SvmUtils.train_svm_model default]. rewrite !length_rows_at.
  set (scores := SvmUtils.score_with_svm _ _ M).
  destruct (PyDict.values (PyDict.of_items (zip (map str_int arr) scores))) as [|x t] eqn:Hvals.
  - exfalso. revert Hvals. apply of_items_nonempty.
    assert (Hlen : length scores = length M) by apply length_score_with_svm.
    destruct arr as [|a arr]; [congruence|]. destruct scores as [|s scores]; [|discriminate].
    cbn in Hshape, Hlen. lia.
  - apply build_response_votes.
Qed.

End fresh.

Section twice.
Let E := Reference.estimators.
Let cold := __init__ (H := E) six_blocks.
Let M6 : matrix := [[4]; [4]; [4]; [0]; [0]; [0]].

Lemma reference_fit_six : Reference.fit M6 = ([2], [2]).
Proof.
  unfold Reference.fit, M6. cbn [hd length seq map Reference.column nth].
  unfold Reference.column_scale, Np.mean, Np.sum. cbn [map fold_right length INR].
  assert (Hm : (4 + (4 + (4 + (0 + (0 + (0 + 0)))))) / (1 + 1 + 1 + 1 + 1 + 1) = 2) by lra.
  rewrite Hm.
  assert (Hv : ((4 - 2) * (4 - 2) + ((4 - 2) * (4 - 2) + ((4 - 2) * (4 - 2) +
                ((0 - 2) * (0 - 2) + ((0 - 2) * (0 - 2) + ((0 - 2) * (0 - 2) + 0)))))) /
               (1 + 1 + 1 + 1 + 1 + 1) = 2 * 2) by lra.
  rewrite Hv. destruct (Req_EM_T (2 * 2) 0) as [E0 | _]; [lra|].
  rewrite sqrt_square by lra. reflexivity.
Qed.

Lemma three_against_three_indices :
  exists w, label_partition (H := E) three_against_three [1; 2; 3; 4; 5; 6]%Z
            = ([0; 1; 2]%nat, [3; 4; 5]%nat, w).
Proof.
  destruct (label_partition (H := E) three_against_three [1; 2; 3; 4; 5; 6]%Z)
    as [[sel rej] w] eqn:Hpart.
  assert (Hidx : fst (label_partition (H := E) three_against_three [1; 2; 3; 4; 5; 6]%Z)
                 = ([0; 1; 2]%nat, [3; 4; 5]%nat)) by (vm_compute; reflexivity).
  rewrite Hpart in Hidx. injection Hidx as -> ->. exists w. reflexivity.
Qed.

Lemma first_of_six_records (q0 q1 q2 q3 q4 q5 : Committee.CommitteePrediction) :
  PyDict.get
    (PyDict.of_items
       (map (fun e => (fst e, to_vote_info (snd e)))
            (Committee.get_vote_info_dict (map str_int [1; 2; 3; 4; 5; 6]%Z)
               [q0; q1; q2; q3; q4; q5])))
    "1"%string
  = Some (to_vote_info q0).
Proof. vm_compute. reflexivity. Qed.

(** C7 (failing input).  Six blocks on one metric, 4 for the three selected
    and 0 for the three rejected ones.  All three models are fitted on the
    rows standardized once (4 becomes 1), and the margin classifier scores
    such rows; the tree ensemble and the neural classifier are asked about
    rows standardized twice (4 becomes -1/2).  For block 1 both therefore
    vote 0, although on the once-standardized row both vote 1 like the
    margin classifier. *)
Theorem double_standardization_flips_votes :
  let Xs := scaler_transform (H := E) (@scaler_fit E M6) M6 in
  let once := @scaler_transform_row E (@scaler_fit E M6) [4] in
  exists response votes info y sw,
    fst (get_similarity_score_histogram (H := E) cold three_against_three) = Ok response /\
    fit_log (snd (get_similarity_score_histogram (H := E) cold three_against_three)) =
      [Committee.FitSVC Xs y sw; Committee.FitRF Xs y sw; Committee.FitMLP Xs y sw] /\
    committee_votes response = Some votes /\
    PyDict.get votes "1"%string = Some info /\
    svm_prediction info = 1%Z /\ rf_prediction info = 0%Z /\ mlp_prediction info = 0%Z /\
    @rf_predict_row E tt once = 1%Z /\ @mlp_predict_row E tt once = 1%Z.
Proof.
  cbv zeta. destruct three_against_three_indices as [w Hpart].
  destruct (fresh_request_votes (H := E) cold three_against_three
              [1; 2; 3; 4; 5; 6]%Z M6 [0; 1; 2]%nat [3; 4; 5]%nat w tt tt
              (init_cache_ok six_blocks) eq_refl eq_refl Hpart eq_refl
              ltac:(cbn; lia) ltac:(cbn; lia) eq_refl eq_refl)
    as (response & Hrun & Hlog & Hvotes).
  exists response. eexists. eexists. eexists. eexists.
  split; [exact Hrun|]. split; [exact Hlog|]. split; [exact Hvotes|].
  rewrite length_score_with_svm.
  change (rows_at M6 [0; 1; 2]%nat ++ rows_at M6 [3; 4; 5]%nat) with M6.
  change (@scaler_fit E M6) with (Reference.fit M6). rewrite reference_fit_six.
  cbn [length M6 seq map].
  split; [apply first_of_six_records|].
  unfold Committee.record_at, to_vote_info, SvmUtils.score_with_svm, scaler_transform, M6.
  cbn [map nth Committee.svm_prediction Committee.rf_prediction Committee.mlp_prediction
       svm_prediction rf_prediction mlp_prediction].
  cbn [svc_decision_row rf_predict_row mlp_predict_row scaler_transform_row
       E Reference.estimators].
  unfold Reference.transform_row, Reference.threshold_vote, Committee.svm_vote.
  cbn [zip zip_with fst snd nth].
  destruct (Rlt_dec 0 ((4 - 2) / 2)); [|lra].
  destruct (Rlt_dec 0 (((4 - 2) / 2 - 2) / 2)); [lra|].
  repeat split; reflexivity.
Qed.

End twice.

(** With estimators whose auxiliary fits always raise, both members are
    absent and the request is answered all the same. *)
Lemma auxiliary_training_degrades_witness :
  let E := Reference.failing_estimators in
  let y := SvmUtils.labels 3 3 in
  Committee._train_rf (H := E) [[4]; [4]; [4]; [0]; [0]; [0]] y (repeat 1 6) 6 = None /\
  Committee._train_mlp (H := E) [[4]; [4]; [4]; [0]; [0]; [0]] y (repeat 1 6) 6 = None /\
  exists response,
    fst (get_similarity_score_histogram (H := E)
           (serve (H := E) (__init__ (H := E) six_blocks) [three_against_three])
           three_against_three) = Ok response.
Proof.
  intros E y.
  destruct (auxiliary_training_degrades (H := E)) as (_ & Hrf & Hmlp & _ & Hserve).
  split; [exact (Hrf _ y (repeat 1 6) 6%nat "ValueError"%string eq_refl)|].
  split; [exact (Hmlp _ y (repeat 1 6) 6%nat "RuntimeError"%string eq_refl)|].
  exact (Hserve six_blocks [three_against_three] three_against_three eq_refl).
Defined.

End ClassificationFacts.

(** ** Diversity sampler: candidate lists, small counts and the fallback *)
Module SamplerFacts.
Import Np NpFacts ColdStart ColdStartFacts.

Section estimators.
Context `{Estimators}.

(** The rows found depend on the members of the candidate list only. *)
Lemma get_metrics_same_members (ds : DataService.t) (ids1 ids2 : list Z) :
  (forall x, x ∈ ids1 <-> x ∈ ids2) ->
  DataService.get_metrics ds ids2 = DataService.get_metrics ds ids1.
Proof.
  intros Hsame. unfold DataService.get_metrics.
  destruct (DataService._metrics_lazy ds) as [frame|]; [|reflexivity].
  f_equal. apply list_filter_iff. intros row. symmetry. apply Hsame.
Qed.

(** X1. When some candidate has metrics, the diversity sample depends on the
    members of the candidate list only: two lists that hold the same ids, in
    any order and with any repetitions, get the same suggestions. *)
Theorem get_suggestions_candidate_order (ds : DataService.t)
    (ids1 ids2 : list Z) (k : Z) (rows : list DataService.MetricsRow) :
  (forall x, x ∈ ids1 <-> x ∈ ids2) ->
  DataService.get_metrics ds ids1 = Some rows -> rows <> [] ->
  DataService.metric_columns ds <> [] ->
  get_suggestions ds ids2 k = get_suggestions ds ids1 k.
Proof.
  intros Hsame Hget Hrows Hcols. unfold get_suggestions.
  rewrite (get_metrics_same_members ds ids1 ids2 Hsame), Hget.
  destruct rows as [|r rows]; [congruence|].
  destruct (DataService.metric_columns ds) as [|c cols]; [congruence|].
  reflexivity.
Qed.

(** With fewer than two points asked for, the loop of [_kennard_stone] is
    not entered and the two seed points are the selection. *)
Lemma kennard_stone_seed_only (X : matrix) (k : Z) :
  X <> [] -> (k < 2)%Z -> (k < Z.of_nat (length X))%Z ->
  exists i j, first_max_pair X i j /\ _kennard_stone X k = Ok [i; j].
Proof.
  intros HX Hk Hlt. unfold _kennard_stone.
  destruct (Z_le_dec (Z.of_nat (length X)) k) as [Hall | _]; [lia|].
  destruct (argmax_is_Some (concat (pairwise_dist X))) as [flat Hflat].
  { intros E. apply (f_equal (@length R)) in E.
    rewrite (length_concat_rect _ _ (pairwise_dist_rows_length X)) in E.
    rewrite length_pairwise_dist in E. destruct X; [congruence | cbn in E; lia]. }
  rewrite Hflat. exists (flat / length X)%nat, (flat mod length X)%nat.
  split; [exact (seed_first_max_pair X flat Hflat)|].
  rewrite ks_loop_unfold. cbn [length].
  destruct (Z_lt_dec (Z.of_nat 2) k) as [Hmore | _]; [lia | reflexivity].
Qed.

(** X2. When [m >= 1] candidates have metrics and the count asked for is
    below 2 and below [m] (1, 0 or a negative count), the diversity sample
    still returns two ids: those of the first pair of rows that lie farthest
    apart after standardization. *)
Theorem get_suggestions_below_two (ds : DataService.t) (block_ids : list Z)
    (k : Z) (rows : list DataService.MetricsRow) :
  DataService.get_metrics ds block_ids = Some rows ->
  rows <> [] -> DataService.metric_columns ds <> [] ->
  (k < 2)%Z -> (k < Z.of_nat (length rows))%Z ->
  exists i j,
    first_max_pair (scaler_fit_transform (DataService.to_matrix rows)) i j /\
    (i < length rows)%nat /\ (j < length rows)%nat /\
    get_suggestions ds block_ids k =
      Ok [nth i (map DataService.block_id rows) 0%Z;
          nth j (map DataService.block_id rows) 0%Z].
Proof.
  intros Hget Hrows Hcols Hk Hm. unfold get_suggestions. rewrite Hget.
  destruct rows as [|r rows]; [congruence|].
  destruct (DataService.metric_columns ds) as [|c cols]; [congruence|].
  set (df := r :: rows) in *.
  set (scaled := scaler_fit_transform (DataService.to_matrix df)).
  assert (Hlen : length scaled = length df).
  { unfold scaled. rewrite length_scaler_fit_transform. apply length_map. }
  rewrite length_map.
  destruct (kennard_stone_seed_only scaled (Z.min k (Z.of_nat (length df))))
    as (i & j & Hpair & Hrun).
  { intros E. rewrite E in Hlen. discriminate Hlen. }
  { lia. }
  { rewrite Hlen. lia. }
  rewrite Hrun. cbn [mbind result_bind].
  pose proof Hpair as (Hi & Hj & _). rewrite Hlen in Hi, Hj.
  rewrite take_ids_valid
    by (constructor; [|constructor; [|constructor]]; rewrite length_map; assumption).
  exists i, j. split; [exact Hpair|]. split; [exact Hi|]. split; [exact Hj|]. reflexivity.
Qed.

(** The selection loop run up to [k1] and then up to [k2] is the loop run
    up to [k2]. *)
Lemma ks_loop_extend (dist : matrix) (k1 k2 : Z) : forall (fuel : nat) (sel s1 : list nat),
  Z.to_nat (k1 - Z.of_nat (length sel)) = fuel -> (k1 <= k2)%Z ->
  ks_loop dist k1 sel = Ok s1 ->
  ks_loop dist k2 sel = ks_loop dist k2 s1 /\ sel `prefix_of` s1.
Proof.
  induction fuel as [|fuel IH]; intros sel s1 Hfuel Hle Hrun;
    rewrite ks_loop_unfold in Hrun;
    destruct (Z_lt_dec (Z.of_nat (length sel)) k1) as [Hlt | Hge]; try lia.
  - injection Hrun as <-. split; reflexivity.
  - destruct (argmax (min_dists dist sel)) as [a|e] eqn:Ha; [|discriminate Hrun].
    destruct (IH (sel ++ [a]) s1) as [Hsame Hpre]; [rewrite length_app; cbn; lia | exact Hle | exact Hrun |].
    split.
    + rewrite (ks_loop_unfold dist k2 sel).
      destruct (Z_lt_dec (Z.of_nat (length sel)) k2) as [_ | Hge]; [|lia].
      rewrite Ha. exact Hsame.
    + destruct Hpre as [more ->]. exists ([a] ++ more). rewrite app_assoc. reflexivity.
Qed.

(** X23. Asking for more suggestions extends the list: when some
    candidate has metrics and [k1 <= k2] are both below the number [m] of
    candidates that have metrics, the suggestions for [k1] are the first
    suggestions for [k2].  (For [k2 >= m] all rows are returned in frame
    order instead.) *)
Theorem get_suggestions_extends (ds : DataService.t) (block_ids : list Z)
    (k1 k2 : Z) (rows : list DataService.MetricsRow) :
  DataService.get_metrics ds block_ids = Some rows ->
  rows <> [] -> DataService.metric_columns ds <> [] ->
  (k1 <= k2)%Z -> (k2 < Z.of_nat (length rows))%Z ->
  exists out1 out2,
    get_suggestions ds block_ids k1 = Ok out1 /\
    get_suggestions ds block_ids k2 = Ok out2 /\
    out1 `prefix_of` out2.
Proof.
  intros Hget Hrows Hcols Hle Hlt. unfold get_suggestions. rewrite Hget.
  destruct rows as [|r rows]; [congruence|].
  destruct (DataService.metric_columns ds) as [|c cols]; [congruence|].
  set (df := r :: rows) in *.
  set (scaled := scaler_fit_transform (DataService.to_matrix df)).
  assert (Hlen : length scaled = length df).
  { unfold scaled. rewrite length_scaler_fit_transform. apply length_map. }
  assert (Hne : scaled <> []) by (intros E; rewrite E in Hlen; discriminate Hlen).
  rewrite length_map.
  replace (Z.min k1 (Z.of_nat (length df))) with k1 by lia.
  replace (Z.min k2 (Z.of_nat (length df))) with k2 by lia.
  destruct (kennard_stone_length scaled k1 Hne) as (s1 & Hrun1 & Hvalid1 & _).
  destruct (kennard_stone_length scaled k2 Hne) as (s2 & Hrun2 & Hvalid2 & _).
  rewrite Hrun1, Hrun2. cbn [mbind result_bind].
  rewrite Hlen in Hvalid1, Hvalid2.
  rewrite !take_ids_valid by (rewrite length_map; assumption).
  eexists. eexists. split; [reflexivity|]. split; [reflexivity|].
  assert (Hpre : s1 `prefix_of` s2).
  { unfold _kennard_stone in Hrun1, Hrun2. rewrite Hlen in Hrun1, Hrun2.
    destruct (Z_le_dec (Z.of_nat (length df)) k1) as [Hall | _]; [lia|].
    destruct (Z_le_dec (Z.of_nat (length df)) k2) as [Hall | _]; [lia|].
    destruct (argmax (concat (pairwise_dist scaled))) as [flat|e]; [|discriminate Hrun1].
    destruct (ks_loop_extend (pairwise_dist scaled) k1 k2 _ _ s1 eq_refl Hle Hrun1)
      as [Hsame _].
    rewrite Hsame in Hrun2.
    destruct (ks_loop_extend (pairwise_dist scaled) k2 k2 _ _ s2 eq_refl ltac:(lia) Hrun2)
      as [_ Hpre]. exact Hpre. }
  destruct Hpre as [more ->]. exists (map (fun i => nth i (map DataService.block_id df) 0%Z) more).
  apply map_app.
Qed.

(** X26. No block is suggested twice: when the ids of the rows found are
    pairwise distinct and, for a count below the number of rows found, two of
    the standardized rows differ, the suggestions are pairwise distinct ids
    of rows found. *)
Theorem get_suggestions_distinct (ds : DataService.t) (block_ids : list Z)
    (k : Z) (rows : list DataService.MetricsRow) :
  DataService.get_metrics ds block_ids = Some rows ->
  rows <> [] -> DataService.metric_columns ds <> [] ->
  NoDup (map DataService.block_id rows) ->
  ((k < Z.of_nat (length rows))%Z ->
   exists a b, (a < length rows)%nat /\ (b < length rows)%nat /\
     0 < dist_at (scaler_fit_transform (DataService.to_matrix rows)) a b) ->
  exists out, get_suggestions ds block_ids k = Ok out /\
    NoDup out /\ out ⊆ map DataService.block_id rows.
Proof.
  intros Hget Hrows Hcols Hids Hpos. unfold get_suggestions. rewrite Hget.
  destruct rows as [|r rows]; [congruence|].
  destruct (DataService.metric_columns ds) as [|c cols]; [congruence|].
  set (df := r :: rows) in *.
  set (scaled := scaler_fit_transform (DataService.to_matrix df)) in *.
  assert (Hlen : length scaled = length df).
  { unfold scaled. rewrite length_scaler_fit_transform. apply length_map. }
  assert (Hne : scaled <> []) by (intros E; rewrite E in Hlen; discriminate Hlen).
  rewrite length_map.
  assert (Hsel : exists sel,
            _kennard_stone scaled (Z.min k (Z.of_nat (length df))) = Ok sel /\
            NoDup sel /\ Forall (fun i => (i < length scaled)%nat) sel).
  { destruct (Z_le_dec (Z.of_nat (length df)) k) as [Hall | Hlt].
    - unfold _kennard_stone.
      destruct (Z_le_dec (Z.of_nat (length scaled)) (Z.min k (Z.of_nat (length df))))
        as [_ | Hno]; [|lia].
      eexists. split; [reflexivity|]. split; [apply NoDup_seq|].
      apply List.Forall_forall. intros i Hi. apply in_seq in Hi. lia.
    - replace (Z.min k (Z.of_nat (length df))) with k by lia.
      destruct (Hpos ltac:(lia)) as (a & b & Ha & Hb & Hab).
      assert (Hdiff : exists a b, (a < length scaled)%nat /\ (b < length scaled)%nat /\
                        0 < dist_at scaled a b).
      { exists a, b. rewrite Hlen. auto. }
      destruct (Z_lt_dec k 2) as [Hsmall | Hbig].
      + destruct (kennard_stone_seed_only scaled k Hne Hsmall ltac:(lia))
          as (i & j & Hpair & Hrun).
        pose proof (first_max_pair_distinct _ _ _ Hpair Hdiff) as Hij.
        destruct Hpair as (Hi & Hj & _).
        exists [i; j]. split; [exact Hrun|]. split.
        * apply NoDup_cons_2; [|apply NoDup_singleton].
          intros Hin. apply list_elem_of_singleton in Hin. congruence.
        * constructor; [exact Hi|]. constructor; [exact Hj|]. constructor.
      + unfold _kennard_stone.
        destruct (Z_le_dec (Z.of_nat (length scaled)) k) as [Hall | _]; [lia|].
        destruct (argmax_is_Some (concat (pairwise_dist scaled))) as [flat Hflat].
        { intros E. apply (f_equal (@length R)) in E.
          rewrite (length_concat_rect _ _ (pairwise_dist_rows_length scaled)) in E.
          rewrite length_pairwise_dist in E. cbn in E. nia. }
        rewrite Hflat. pose proof (seed_first_max_pair scaled flat Hflat) as Hseed.
        pose proof (first_max_pair_distinct _ _ _ Hseed Hdiff) as Hij.
        destruct Hseed as (Hi & Hj & _).
        destruct (ks_loop_spec scaled k _
                    [(flat / length scaled)%nat; (flat mod length scaled)%nat] eq_refl)
          as (sel & Hrun & _ & Hnd & Hvalid & _).
        * discriminate.
        * apply NoDup_cons_2; [|apply NoDup_singleton].
          intros Hin. apply list_elem_of_singleton in Hin. congruence.
        * constructor; [exact Hi|]. constructor; [exact Hj|]. constructor.
        * cbn. lia.
        * lia.
        * exists sel. auto. }
  destruct Hsel as (sel & Hrun & Hnd & Hvalid). rewrite Hrun. cbn [mbind result_bind].
  rewrite Hlen in Hvalid.
  rewrite take_ids_valid by (rewrite length_map; exact Hvalid).
  eexists. split; [reflexivity|]. split.
  - apply NoDup_fmap_2_strong; [|exact Hnd].
    intros i j Hi Hj Heq.
    rewrite List.Forall_forall in Hvalid.
    apply list_elem_of_In, Hvalid in Hi. apply list_elem_of_In, Hvalid in Hj.
    rewrite <- (length_map DataService.block_id) in Hi, Hj.
    destruct (lookup_lt_is_Some_2 _ _ Hi) as [x Hx].
    destruct (lookup_lt_is_Some_2 _ _ Hj) as [y Hy].
    rewrite (nth_lookup_Some _ _ _ _ Hx), (nth_lookup_Some _ _ _ _ Hy) in Heq.
    subst y. exact (NoDup_lookup _ _ _ _ Hids Hx Hy).
  - intros x Hx. apply list_elem_of_fmap in Hx as (i & -> & Hi).
    rewrite List.Forall_forall in Hvalid.
    apply list_elem_of_In, Hvalid in Hi.
    rewrite <- (length_map DataService.block_id) in Hi.
    destruct (lookup_lt_is_Some_2 _ _ Hi) as [x Hx].
    rewrite (nth_lookup_Some _ _ _ _ Hx). exact (list_elem_of_lookup_2 _ _ _ Hx).
Qed.

End estimators.

Section fallback.
Context `{Estimators}.

(** What [random.sample] gives for a count within the population: that many
    items, taken at distinct positions. *)
Hypothesis random_sample_within : forall (population : list Z) (k : Z),
  (0 <= k <= Z.of_nat (length population))%Z ->
  exists out, random_sample population k = Ok out /\
    Z.of_nat (length out) = k /\ out ⊆+ population.

(** X3. When no candidate has metrics (no metrics frame, no row of a
    candidate, or no metric column) and the count asked for is not negative,
    the diversity sample is a random sample of the candidate list itself: the
    count handed to [random.sample] never exceeds the population, so the call
    succeeds and returns [min(k, n)] candidates. *)
Theorem random_fallback_within_population (ds : DataService.t)
    (block_ids : list Z) (k : Z) :
  Classification.no_metric_data ds block_ids -> (0 <= k)%Z ->
  exists out, get_suggestions ds block_ids k = Ok out /\
    get_suggestions ds block_ids k = _random_fallback block_ids k /\
    Z.of_nat (length out) = Z.min k (Z.of_nat (length block_ids)) /\
    out ⊆+ block_ids.
Proof.
  intros Hnone Hk.
  assert (Hfall : get_suggestions ds block_ids k = _random_fallback block_ids k).
  { unfold get_suggestions, DataService.get_metrics, Classification.no_metric_data in *.
    destruct (DataService._metrics_lazy ds) as [frame|]; [|reflexivity].
    destruct Hnone as [Hrows | Hcols].
    - assert (Hnil : filter (fun row => DataService.block_id row ∈ block_ids) frame = []).
      { induction frame as [|row frame IH]; [reflexivity|].
        rewrite filter_cons_False.
        - apply IH. intros r Hr. apply Hrows. right. exact Hr.
        - intros Hin. apply list_elem_of_In in Hin.
          exact (Hrows row (or_introl eq_refl) Hin). }
      rewrite Hnil. reflexivity.
    - unfold DataService.metric_columns. rewrite Hcols.
      destruct (filter _ frame); reflexivity. }
  destruct (random_sample_within block_ids (Z.min k (Z.of_nat (length block_ids))))
    as (out & Hrun & Hlen & Hsub); [lia|].
  exists out. rewrite Hfall. unfold _random_fallback. rewrite Hrun. auto.
Qed.

End fallback.

(** The sampler of the reference implementation (the first items) meets the
    guarantee of [random.sample]. *)
Lemma reference_sample_within (population : list Z) (k : Z) :
  (0 <= k <= Z.of_nat (length population))%Z ->
  exists out, random_sample (Estimators := Reference.estimators) population k = Ok out /\
    Z.of_nat (length out) = k /\ out ⊆+ population.
Proof.
  intros Hk. exists (firstn (Z.to_nat k) population). split; [reflexivity|]. split.
  - rewrite length_take. lia.
  - apply sublist_submseteq, sublist_take.
Qed.

Lemma get_suggestions_candidate_order_witness :
  get_suggestions (H := Reference.estimators) three_blocks [3; 3; 2; 1]%Z 2 =
  get_suggestions (H := Reference.estimators) three_blocks [1; 2; 3]%Z 2.
Proof.
  apply (get_suggestions_candidate_order (H := Reference.estimators) three_blocks
           [1; 2; 3]%Z [3; 3; 2; 1]%Z 2
           (default [] (DataService._metrics_lazy three_blocks))).
  - intros x. rewrite !elem_of_cons, !elem_of_nil. tauto.
  - reflexivity.
  - discriminate.
  - discriminate.
Defined.

Lemma get_suggestions_below_two_witness :
  exists i j,
    (i < 3)%nat /\ (j < 3)%nat /\
    get_suggestions (H := Reference.estimators) three_blocks [1; 2; 3]%Z 0 =
      Ok [nth i [1; 2; 3]%Z 0%Z; nth j [1; 2; 3]%Z 0%Z].
Proof.
  destruct (get_suggestions_below_two (H := Reference.estimators) three_blocks
              [1; 2; 3]%Z 0 (default [] (DataService._metrics_lazy three_blocks)))
    as (i & j & _ & Hi & Hj & Hrun);
    [reflexivity | discriminate | discriminate | lia | cbn; lia |].
  exists i, j. split; [exact Hi|]. split; [exact Hj|]. exact Hrun.
Defined.

Lemma get_suggestions_extends_witness :
  exists out1 out2,
    get_suggestions (H := Reference.estimators) three_blocks [1; 2; 3]%Z 1 = Ok out1 /\
    get_suggestions (H := Reference.estimators) three_blocks [1; 2; 3]%Z 2 = Ok out2 /\
    out1 `prefix_of` out2.
Proof.
  apply (get_suggestions_extends (H := Reference.estimators) three_blocks [1; 2; 3]%Z 1 2
           (default [] (DataService._metrics_lazy three_blocks)));
    [reflexivity | discriminate | discriminate | lia | cbn; lia].
Defined.

Lemma random_fallback_within_population_witness :
  exists out,
    get_suggestions (H := Reference.estimators) DataService.__init__ [4; 5; 6]%Z 2 = Ok out /\
    Z.of_nat (length out) = 2%Z.
Proof.
  destruct (random_fallback_within_population (H := Reference.estimators)
              reference_sample_within DataService.__init__ [4; 5; 6]%Z 2)
    as (out & Hrun & _ & Hlen & _); [exact I | lia |].
  exists out. split; [exact Hrun | exact Hlen].
Defined.

(** The scale the reference scaler divides a column by is never zero. *)
Lemma column_scale_nonzero (col : vector) : Reference.column_scale col <> 0.
Proof.
  unfold Reference.column_scale. cbv zeta.
  set (m := Np.mean col).
  set (var := Np.mean (map (fun x => (x - m) * (x - m)) col)).
  destruct (Req_EM_T var 0) as [_ | Hvar]; [lra|].
  assert (Hsum : forall l : vector, 0 <= Np.sum (map (fun x => (x - m) * (x - m)) l)).
  { unfold Np.sum. induction l as [|x l IH]; cbn [map fold_right]; [lra|].
    pose proof (Rle_0_sqr (x - m)) as Hsq. unfold Rsqr in Hsq. lra. }
  assert (Hnonneg : 0 <= var).
  { unfold var, Np.mean. rewrite length_map.
    destruct col as [|x col].
    - cbn. unfold Rdiv. rewrite Rmult_0_l. lra.
    - apply Rmult_le_pos; [apply (Hsum (x :: col))|].
      apply Rlt_le, Rinv_0_lt_compat, lt_0_INR. cbn. lia. }
  intros E. apply sqrt_eq_0 in E; [contradiction | exact Hnonneg].
Qed.

(** In the example with three blocks, the first and the last standardized
    row differ. *)
Lemma three_blocks_spread :
  0 < dist_at (scaler_fit_transform (H := Reference.estimators)
                 (DataService.to_matrix
                    (default [] (DataService._metrics_lazy three_blocks)))) 0 2.
Proof.
  set (m := Np.mean [0; 1; 3]). set (sc := Reference.column_scale [0; 1; 3]).
  assert (Hsc : sc <> 0) by apply column_scale_nonzero.
  change (0 < dist_at [[(0 - m) / sc]; [(1 - m) / sc]; [(3 - m) / sc]] 0 2).
  rewrite (dist_at_unit _ 0 2 ((0 - m) / sc) ((3 - m) / sc)) by reflexivity.
  apply Rabs_pos_lt. intros E.
  assert (E' : (0 - m) / sc - (3 - m) / sc = - 3 / sc) by (field; exact Hsc).
  rewrite E' in E. unfold Rdiv in E.
  apply Rmult_integral in E as [E | E]; [lra|].
  exact (Rinv_neq_0_compat sc Hsc E).
Qed.

Lemma get_suggestions_distinct_witness :
  exists out,
    get_suggestions (H := Reference.estimators) three_blocks [1; 2; 3]%Z 2 = Ok out /\
    NoDup out.
Proof.
  destruct (get_suggestions_distinct (H := Reference.estimators) three_blocks
              [1; 2; 3]%Z 2 (default [] (DataService._metrics_lazy three_blocks)))
    as (out & Hrun & Hnd & _).
  - reflexivity.
  - discriminate.
  - discriminate.
  - cbn. repeat (apply NoDup_cons_2; [rewrite ?elem_of_cons, elem_of_nil; lia|]).
    apply NoDup_nil_2.
  - intros _. exists 0%nat, 2%nat. split; [cbn; lia|]. split; [cbn; lia|].
    exact three_blocks_spread.
  - exists out. split; [exact Hrun | exact Hnd].
Defined.

End SamplerFacts.

(** ** Committee: the vote dictionary and the sizes of the auxiliary models *)
Module VoteFacts.
Import Committee PyDictFacts.

Section dict.
Context {K V : Type} `{EqDecision K}.
Implicit Types (d : list (K * V)) (k : K) (v : V).

Lemma get_set_eq d k v : PyDict.get (PyDict.set d k v) k = Some v.
Proof.
  induction d as [|[k' v'] d IH]; cbn.
  - destruct (decide (k = k)); [reflexivity | congruence].
  - destruct (decide (k' = k)) as [-> | Hne]; cbn.
    + destruct (decide (k = k)); [reflexivity | congruence].
    + destruct (decide (k' = k)); [congruence | exact IH].
Qed.

Lemma get_set_ne d k k' v : k <> k' -> PyDict.get (PyDict.set d k v) k' = PyDict.get d k'.
Proof.
  intros Hne. induction d as [|[k0 v0] d IH]; cbn.
  - destruct (decide (k = k')); [congruence | reflexivity].
  - destruct (decide (k0 = k)) as [-> | Hk0]; cbn.
    + destruct (decide (k = k')); [congruence | reflexivity].
    + destruct (decide (k0 = k')); [reflexivity | exact IH].
Qed.

(** Writing a key keeps the keys that were there, in their order. *)
Lemma keys_set d k v :
  PyDict.keys (PyDict.set d k v) =
  if decide (k ∈ PyDict.keys d) then PyDict.keys d else PyDict.keys d ++ [k].
Proof.
  induction d as [|[k' v'] d IH]; cbn.
  - destruct (decide (k ∈ [])) as [Hin | _]; [|reflexivity].
    apply elem_of_nil in Hin. destruct Hin.
  - destruct (decide (k' = k)) as [-> | Hne]; cbn.
    + clear IH. destruct (decide (k ∈ k :: map fst d)) as [_ | Hout]; [reflexivity|].
      exfalso. apply Hout. left.
    + unfold PyDict.keys in IH. rewrite IH.
      destruct (decide (k ∈ map fst d)) as [Hin | Hout],
               (decide (k ∈ k' :: map fst d)) as [Hin' | Hout']; try reflexivity.
      * exfalso. apply Hout'. right. exact Hin.
      * exfalso. apply elem_of_cons in Hin' as [-> | Hin']; [congruence | exact (Hout Hin')].
Qed.

End dict.

(** The loop of [get_vote_info_dict], started at position [k] with the
    dictionary [d0]: an id none of whose positions has a prediction keeps the
    entry it had. *)
Lemma vote_loop_untouched (preds : list CommitteePrediction) (ids : list string) :
  forall (k : nat) (d0 : list (string * CommitteePrediction)) (id : string),
  (forall i, ids !! i = Some id -> preds !! (k + i)%nat = None) ->
  PyDict.get
    (fold_left (fun d '(idx, item_id) =>
                  match preds !! idx with
                  | Some pred => PyDict.set d item_id pred
                  | None => d
                  end)
               (zip (seq k (length ids)) ids) d0) id
  = PyDict.get d0 id.
Proof.
  induction ids as [|a ids IH]; intros k d0 id Hnone; [reflexivity|].
  cbn [length seq zip zip_with fold_left].
  rewrite IH.
  - destruct (preds !! k) as [p|] eqn:Hp; [|reflexivity].
    apply get_set_ne. intros ->.
    specialize (Hnone 0%nat eq_refl). rewrite Nat.add_0_r in Hnone. congruence.
  - intros i Hi. specialize (Hnone (S i) Hi).
    rewrite <- Hnone. f_equal. lia.
Qed.

(** The last position of an id that has a prediction decides its entry. *)
Lemma vote_loop_last (preds : list CommitteePrediction) (ids : list string) :
  forall (k : nat) (d0 : list (string * CommitteePrediction)) (i : nat)
         (id : string) (p : CommitteePrediction),
  ids !! i = Some id -> preds !! (k + i)%nat = Some p ->
  (forall j, (i < j)%nat -> ids !! j = Some id -> preds !! (k + j)%nat = None) ->
  PyDict.get
    (fold_left (fun d '(idx, item_id) =>
                  match preds !! idx with
                  | Some pred => PyDict.set d item_id pred
                  | None => d
                  end)
               (zip (seq k (length ids)) ids) d0) id
  = Some p.
Proof.
  induction ids as [|a ids IH]; intros k d0 i id p Hi Hp Hlast; [discriminate|].
  cbn [length seq zip zip_with fold_left].
  destruct i as [|i].
  - injection Hi as ->. rewrite Nat.add_0_r in Hp. rewrite Hp.
    rewrite vote_loop_untouched.
    + apply get_set_eq.
    + intros j Hj. specialize (Hlast (S j) ltac:(lia) Hj).
      rewrite <- Hlast. f_equal. lia.
  - apply (IH (S k) _ i id p).
    + exact Hi.
    + rewrite <- Hp. f_equal. lia.
    + intros j Hij Hj. specialize (Hlast (S j) ltac:(lia) Hj).
      rewrite <- Hlast. f_equal. lia.
Qed.

(** The keys written by the loop over ids that are new and distinct. *)
Lemma vote_loop_keys (preds : list CommitteePrediction) (ids : list string) :
  forall (k : nat) (d0 : list (string * CommitteePrediction)),
  NoDup ids -> (forall id, id ∈ ids -> ~ In id (PyDict.keys d0)) ->
  PyDict.keys
    (fold_left (fun d '(idx, item_id) =>
                  match preds !! idx with
                  | Some pred => PyDict.set d item_id pred
                  | None => d
                  end)
               (zip (seq k (length ids)) ids) d0)
  = PyDict.keys d0 ++ take (length preds - k) ids.
Proof.
  induction ids as [|a ids IH]; intros k d0 Hnd Hnew.
  - cbn. rewrite take_nil, app_nil_r. reflexivity.
  - cbn [length seq zip zip_with fold_left].
    apply NoDup_cons in Hnd as [Ha Hnd].
    destruct (preds !! k) as [p|] eqn:Hp.
    + rewrite IH.
      * rewrite keys_set.
        destruct (decide (a ∈ PyDict.keys d0)) as [Hin | _].
        { exfalso. apply (Hnew a); [left | apply list_elem_of_In; exact Hin]. }
        apply lookup_lt_Some in Hp.
        replace (length preds - k)%nat with (S (length preds - S k)) by lia.
        cbn [take]. rewrite <- app_assoc. reflexivity.
      * exact Hnd.
      * intros id Hid. rewrite keys_set.
        destruct (decide (a ∈ PyDict.keys d0)) as [Hin | _].
        { exfalso. apply (Hnew a); [left | apply list_elem_of_In; exact Hin]. }
        rewrite in_app_iff. intros [Hin | [-> | []]].
        -- apply (Hnew id); [right; exact Hid | exact Hin].
        -- exact (Ha Hid).
    + apply lookup_ge_None in Hp.
      rewrite IH.
      * replace (length preds - S k)%nat with 0%nat by lia.
        replace (length preds - k)%nat with 0%nat by lia. reflexivity.
      * exact Hnd.
      * intros id Hid. apply Hnew. right. exact Hid.
Qed.

(** X4. [get_vote_info_dict] pairs ids and predictions by position: an id
    gets the prediction at its last position that has one (later positions
    overwrite earlier ones), an id whose positions all lie beyond the
    predictions gets no entry, and for distinct ids the entries follow the
    order of the ids, cut at the number of predictions. *)
Theorem vote_info_by_position (item_ids : list string)
    (committee_predictions : list CommitteePrediction) :
  let d := get_vote_info_dict item_ids committee_predictions in
  (forall i id p,
     item_ids !! i = Some id -> committee_predictions !! i = Some p ->
     (forall j, (i < j)%nat -> item_ids !! j = Some id ->
                committee_predictions !! j = None) ->
     PyDict.get d id = Some p) /\
  (forall id,
     (forall i, item_ids !! i = Some id -> committee_predictions !! i = None) ->
     PyDict.get d id = None) /\
  (NoDup item_ids ->
     PyDict.keys d = take (length committee_predictions) item_ids /\
     forall i id, item_ids !! i = Some id ->
       PyDict.get d id = committee_predictions !! i).
Proof.
  cbv zeta. unfold get_vote_info_dict. split; [|split].
  - intros i id p Hi Hp Hlast.
    apply (vote_loop_last committee_predictions item_ids 0 [] i id p Hi Hp).
    intros j Hij Hj. exact (Hlast j Hij Hj).
  - intros id Hnone.
    rewrite (vote_loop_untouched committee_predictions item_ids 0 [] id);
      [reflexivity | exact Hnone].
  - intros Hnd. split.
    + rewrite (vote_loop_keys committee_predictions item_ids 0 [] Hnd).
      * rewrite Nat.sub_0_r. reflexivity.
      * intros id _ [].
    + intros i id Hi.
      destruct (committee_predictions !! i) as [p|] eqn:Hp.
      * apply (vote_loop_last committee_predictions item_ids 0 [] i id p Hi Hp).
        intros j Hij Hj. exfalso.
        apply (NoDup_lookup _ _ _ _ Hnd Hi) in Hj. lia.
      * rewrite (vote_loop_untouched committee_predictions item_ids 0 [] id);
          [reflexivity|].
        intros j Hj. apply (NoDup_lookup _ _ _ _ Hnd Hi) in Hj. subst j. exact Hp.
Qed.

Lemma log2_3_lt_5_3 : Rlog 2 3 < 5 / 3.
Proof.
  unfold Rlog. pose proof CommitteeFacts.ln2_pos as H2.
  assert (H27 : ln 27 = 3 * ln 3).
  { replace 27 with (3 * (3 * 3)) by lra. rewrite !ln_mult by lra. lra. }
  assert (H32 : ln 32 = 5 * ln 2).
  { replace 32 with (2 * (2 * (2 * (2 * 2)))) by lra. rewrite !ln_mult by lra. lra. }
  assert (Hlt : ln 27 < ln 32) by (apply ln_increasing; lra).
  apply (Rmult_lt_reg_r (ln 2)); [exact H2|]. field_simplify; lra.
Qed.

(** The entropy of three votes that are 0 or 1. *)
Lemma entropy_of_binary_votes (v0 v1 v2 : Z) :
  v0 = 0%Z \/ v0 = 1%Z -> v1 = 0%Z \/ v1 = 1%Z -> v2 = 0%Z \/ v2 = 1%Z ->
  let e := entropy [count_votes 0 [v0; v1; v2]; count_votes 1 [v0; v1; v2]] in
  (v1 = v0 /\ v2 = v0 /\ e = 0) \/
  (~ (v1 = v0 /\ v2 = v0) /\ e = Rlog 2 3 - 2 / 3).
Proof.
  intros H0 H1 H2. cbv zeta. rewrite CommitteeFacts.entropy_two.
  destruct CommitteeFacts.entropy_term_values as (E0 & E1 & E2 & E3).
  destruct H0 as [-> | ->], H1 as [-> | ->], H2 as [-> | ->];
    unfold count_votes; cbn [List.filter bool_decide decide_rel length];
    repeat match goal with
           | |- context [bool_decide (?a = ?b)] =>
               first [ rewrite (bool_decide_eq_true_2 (a = b)) by reflexivity
                     | rewrite (bool_decide_eq_false_2 (a = b)) by discriminate ]
           end;
    cbn [length]; rewrite ?E0, ?E1, ?E2, ?E3;
    first [ left; split; [reflexivity|]; split; [reflexivity|]; lra
          | right; split; [intros [? ?]; discriminate | lra] ].
Qed.

Lemma nth_binary (l : list Z) (i : nat) :
  Forall (fun v => v = 0%Z \/ v = 1%Z) l -> nth i l 0%Z = 0%Z \/ nth i l 0%Z = 1%Z.
Proof.
  intros Hall. destruct (nth_in_or_default i l 0%Z) as [Hin | ->]; [|left; reflexivity].
  rewrite Forall_forall in Hall. apply Hall, list_elem_of_In. exact Hin.
Qed.

Section estimators.
Context `{Estimators}.

(** X24. When the auxiliary classifiers answer 0 or 1, as classifiers
    fitted to labels 0 and 1 do, the vote entropy of an item takes one of
    two values: 0 when the three votes agree, and [log2(3) - 2/3] (about
    0.918) when they split two against one.  It never reaches 1. *)
Theorem vote_entropy_two_values (X : matrix) (svm_scores : vector)
    (rf_model : option RandomForestClassifier)
    (mlp_model : option WeightedMLPClassifier)
    (scaler : option StandardScaler) :
  length X = length svm_scores ->
  (forall rf row, rf_model = Some rf ->
     rf_predict_row rf row = 0%Z \/ rf_predict_row rf row = 1%Z) ->
  (forall mlp row, mlp_model = Some mlp ->
     mlp_predict_row mlp row = 0%Z \/ mlp_predict_row mlp row = 1%Z) ->
  exists preds,
    predict_with_committee X svm_scores rf_model mlp_model scaler = Ok preds /\
    forall p, p ∈ preds ->
      ((unanimous p /\ vote_entropy p = 0) \/
       (~ unanimous p /\ vote_entropy p = Rlog 2 3 - 2 / 3)) /\
      vote_entropy p < 1.
Proof.
  intros Hlen Hrf Hmlp.
  set (svm_preds := map svm_vote svm_scores).
  assert (Hsvm : Forall (fun v => v = 0%Z \/ v = 1%Z) svm_preds).
  { apply Forall_forall. intros v Hv. apply list_elem_of_fmap in Hv as (s & -> & _).
    apply CommitteeFacts.svm_vote_binary. }
  assert (Hsvmlen : length svm_preds = length svm_scores) by apply length_map.
  pose proof log2_3_lt_5_3 as Hlog.
  assert (Hgeneral : forall rf_preds mlp_preds,
    Forall (fun v => v = 0%Z \/ v = 1%Z) rf_preds ->
    Forall (fun v => v = 0%Z \/ v = 1%Z) mlp_preds ->
    forall p, p ∈ map (record_at svm_preds rf_preds mlp_preds) (seq 0 (length svm_scores)) ->
      ((unanimous p /\ vote_entropy p = 0) \/
       (~ unanimous p /\ vote_entropy p = Rlog 2 3 - 2 / 3)) /\
      vote_entropy p < 1).
  { intros rf_preds mlp_preds Hr Hm p Hp. apply list_elem_of_fmap in Hp as (i & -> & _).
    unfold record_at, unanimous.
    cbn [svm_prediction rf_prediction mlp_prediction vote_entropy].
    destruct (entropy_of_binary_votes (nth i svm_preds 0%Z) (nth i rf_preds 0%Z)
                (nth i mlp_preds 0%Z) (nth_binary _ i Hsvm) (nth_binary _ i Hr)
                (nth_binary _ i Hm)) as [(E1 & E2 & Hz) | (Hsplit & Hv)];
      cbv zeta in *.
    - split; [left; auto | lra].
    - split; [right; auto | lra]. }
  assert (Hmap : forall {A : Type} (f : A -> Z) (l : list A),
            (forall a, f a = 0%Z \/ f a = 1%Z) -> Forall (fun v => v = 0%Z \/ v = 1%Z) (map f l)).
  { intros A f l Hf. apply Forall_forall. intros v Hv.
    apply list_elem_of_fmap in Hv as (a & -> & _). apply Hf. }
  unfold predict_with_committee. fold svm_preds.
  destruct rf_model as [rf|], mlp_model as [mlp|].
  4: {
    rewrite CommitteeFacts.agreeing_loop_Ok by lia. eexists. split; [reflexivity|].
    intros p Hp. apply list_elem_of_fmap in Hp as (i & -> & _).
    unfold unanimous. cbn [svm_prediction rf_prediction mlp_prediction vote_entropy].
    split; [left; auto | lra]. }
  all: rewrite CommitteeFacts.voting_loop_Ok
         by (rewrite ?Hsvmlen; try (destruct scaler); unfold scaler_transform;
             rewrite ?length_map; lia).
  all: eexists; split; [reflexivity|].
  all: apply Hgeneral; try exact Hsvm; apply Hmap; intros row;
         first [apply (Hrf _ _ eq_refl) | apply (Hmlp _ _ eq_refl)].
Qed.

(** X5. The sizes of the auxiliary models follow the number [n] of training
    rows: the forest is fitted with [n // 2] trees, kept within 10 and 100,
    and a depth of [floor(log2(n + 1))], kept within 2 and 5; the network has
    one hidden layer of 16 units below 20 rows and layers of 32 and 16 units
    from 20 rows on. *)
Theorem auxiliary_model_sizes (X : matrix) (y : list Z) (w : vector) (n : nat) :
  exists n_estimators max_depth hidden,
    _train_rf X y w n =
      match rf_fit n_estimators max_depth X y w with
      | Ok rf => Some rf
      | Raise _ => None
      end /\
    _train_mlp X y w n =
      match mlp_fit hidden X y w with
      | Ok mlp => Some mlp
      | Raise _ => None
      end /\
    (10 <= n_estimators <= 100)%nat /\
    ((n < 20)%nat -> n_estimators = 10%nat) /\
    ((20 <= n < 200)%nat -> n_estimators = (n / 2)%nat) /\
    ((200 <= n)%nat -> n_estimators = 100%nat) /\
    (2 <= max_depth <= 5)%nat /\
    ((n < 7)%nat -> max_depth = 2%nat) /\
    ((7 <= n < 15)%nat -> max_depth = 3%nat) /\
    ((15 <= n < 31)%nat -> max_depth = 4%nat) /\
    ((31 <= n)%nat -> max_depth = 5%nat) /\
    ((n < 20)%nat -> hidden = [16%nat]) /\
    ((20 <= n)%nat -> hidden = [32%nat; 16%nat]).
Proof.
  exists (Nat.max 10 (Nat.min 100 (n / 2))),
         (Nat.min 5 (Nat.max 2 (Nat.log2 (n + 1)))),
         (if (n <? 20)%nat then [16%nat] else [32%nat; 16%nat]).
  split; [reflexivity|]. split; [reflexivity|].
  assert (Hhalf : (2 * (n / 2) <= n < 2 * (n / 2) + 2)%nat).
  { pose proof (Nat.div_mod_eq n 2). pose proof (Nat.mod_upper_bound n 2). lia. }
  assert (Hlog : forall b, (2 ^ b <= n + 1 <-> b <= Nat.log2 (n + 1))%nat)
    by (intros b; apply Nat.log2_le_pow2; lia).
  pose proof (Hlog 2%nat) as H2. pose proof (Hlog 3%nat) as H3.
  pose proof (Hlog 4%nat) as H4. pose proof (Hlog 5%nat) as H5.
  change (2 ^ 2)%nat with 4%nat in H2. change (2 ^ 3)%nat with 8%nat in H3.
  change (2 ^ 4)%nat with 16%nat in H4. change (2 ^ 5)%nat with 32%nat in H5.
  repeat split; try lia.
  - intros Hn. apply Nat.ltb_lt in Hn. rewrite Hn. reflexivity.
  - intros Hn. apply Nat.ltb_ge in Hn. rewrite Hn. reflexivity.
Qed.

End estimators.

Lemma vote_entropy_two_values_witness :
  exists preds,
    predict_with_committee (H := Reference.estimators) [[1]; [-1]] [1; 1]
      (Some tt) None None = Ok preds.
Proof.
  destruct (vote_entropy_two_values (H := Reference.estimators) [[1]; [-1]] [1; 1]
              (Some tt) None None) as (preds & Hrun & _).
  - reflexivity.
  - intros rf row _. cbn. unfold Reference.threshold_vote.
    destruct (Rlt_dec 0 (nth 0 row 0)); auto.
  - intros mlp row Hnone. discriminate Hnone.
  - exists preds. exact Hrun.
Defined.

End VoteFacts.

(** ** Score operation: training rows, their weights and the cache key *)
Module LabelFacts.
Import Models Classification PyDictFacts ClassificationFacts.

Section partition.
Context `{Estimators}.

Lemma in_rej_from_iff (selected_ids rejected_ids : gset Z) (l : list Z) :
  forall (k i : nat),
  In i (rej_from selected_ids rejected_ids k l) <->
  (k <= i)%nat /\
  exists bid, l !! (i - k)%nat = Some bid /\ (bid ∉ selected_ids) /\ bid ∈ rejected_ids.
Proof.
  induction l as [|b l IH]; intros k i; cbn [rej_from].
  - split; [intros [] | intros (_ & bid & Hl & _); discriminate].
  - assert (Hshift : forall bid, (S k <= i)%nat ->
              (b :: l) !! (i - k)%nat = Some bid <-> l !! (i - S k)%nat = Some bid).
    { intros bid Hk. replace (i - k)%nat with (S (i - S k)) by lia. reflexivity. }
    destruct (decide (b ∈ selected_ids)) as [Hb | Hb];
      [|destruct (decide (b ∈ rejected_ids)) as [Hr | Hr]]; cbn [In]; rewrite IH; split.
    + intros (Hk & bid & Hl & Hin). split; [lia|]. exists bid.
      split; [apply Hshift; assumption | exact Hin].
    + intros (Hk & bid & Hl & Hs & Hr). destruct (Nat.eq_dec k i) as [<- | N].
      * rewrite Nat.sub_diag in Hl. injection Hl as <-. contradiction.
      * split; [lia|]. exists bid. split; [apply Hshift; [lia | exact Hl] | auto].
    + intros [<- | (Hk & bid & Hl & Hin)].
      * split; [lia|]. exists b. rewrite Nat.sub_diag. auto.
      * split; [lia|]. exists bid. split; [apply Hshift; assumption | exact Hin].
    + intros (Hk & bid & Hl & Hin). destruct (Nat.eq_dec k i) as [E | N]; [left; exact E|].
      right. split; [lia|]. exists bid. split; [apply Hshift; [lia | exact Hl] | exact Hin].
    + intros (Hk & bid & Hl & Hin). split; [lia|]. exists bid.
      split; [apply Hshift; assumption | exact Hin].
    + intros (Hk & bid & Hl & Hs & Hr'). destruct (Nat.eq_dec k i) as [<- | N].
      * rewrite Nat.sub_diag in Hl. injection Hl as <-. contradiction.
      * split; [lia|]. exists bid. split; [apply Hshift; [lia | exact Hl] | auto].
Qed.

Lemma sel_from_increasing (selected_ids : gset Z) (l : list Z) : forall k,
  Sorted lt (sel_from selected_ids k l).
Proof.
  induction l as [|b l IH]; intros k; cbn [sel_from]; [constructor|].
  destruct (decide (b ∈ selected_ids)); [|apply IH].
  constructor; [apply IH|].
  pose proof (in_sel_from selected_ids l (S k)) as Hin.
  destruct (sel_from selected_ids (S k) l) as [|i rest]; constructor.
  destruct (proj1 (Hin i) (or_introl eq_refl)) as [Hk _]. lia.
Qed.

Lemma rej_from_increasing (selected_ids rejected_ids : gset Z) (l : list Z) : forall k,
  Sorted lt (rej_from selected_ids rejected_ids k l).
Proof.
  induction l as [|b l IH]; intros k; cbn [rej_from]; [constructor|].
  destruct (decide (b ∈ selected_ids)); [apply IH|].
  destruct (decide (b ∈ rejected_ids)); [|apply IH].
  constructor; [apply IH|].
  pose proof (in_rej_from_iff selected_ids rejected_ids l (S k)) as Hin.
  destruct (rej_from selected_ids rejected_ids (S k) l) as [|i rest]; constructor.
  destruct (proj1 (Hin i) (or_introl eq_refl)) as [Hk _]. lia.
Qed.

Lemma last_with_id_app (items items' : list WeightedBlockId) (x : Z) :
  last_with_id (items ++ items') x =
  match last_with_id items' x with
  | Some item => Some item
  | None => last_with_id items x
  end.
Proof.
  induction items as [|item items IH]; cbn [app last_with_id].
  - destruct (last_with_id items' x); reflexivity.
  - rewrite IH. destruct (last_with_id items' x); reflexivity.
Qed.

(** The ids gathered by a labelling loop that starts from the empty set. *)
Lemma labelled_ids (items : list WeightedBlockId) (w : gmap Z R) (x : Z) :
  x ∈ fst (add_items items ∅ w) <-> exists item, In item items /\ id item = x.
Proof.
  rewrite add_items_ids. split; [intros [Hx | Hx] | auto].
  - apply elem_of_empty in Hx. destruct Hx.
  - exact Hx.
Qed.

(** The weight the two labelling loops leave for an id. *)
Lemma labelled_weight (request : SimilarityHistogramRequest) (x : Z) :
  snd (add_items (rejected_items request) ∅
         (snd (add_items (selected_items request) ∅ ∅))) !! x =
  option_map (fun item => tier_weight (source item))
    (last_with_id (selected_items request ++ rejected_items request) x).
Proof.
  rewrite !add_items_weight, last_with_id_app.
  destruct (last_with_id (rejected_items request) x); [reflexivity|].
  destruct (last_with_id (selected_items request) x); [reflexivity|].
  apply lookup_empty.
Qed.

(** X6. The partition loop uses every candidate row at most once: a row is
    a positive training row exactly when its id is on the selected list, a
    negative training row exactly when its id is on the rejected list and
    not on the selected list, and a row whose id is on neither list is not
    used for training.  Both index lists are in the order of the rows. *)
Theorem training_rows_partition (request : SimilarityHistogramRequest)
    (arr : list Z) :
  let '(sel_indices, rej_indices, _) := label_partition request arr in
  let selected x := exists item, In item (selected_items request) /\ id item = x in
  let rejected x := exists item, In item (rejected_items request) /\ id item = x in
  (forall i, In i sel_indices <-> exists bid, arr !! i = Some bid /\ selected bid) /\
  (forall i, In i rej_indices <->
             exists bid, arr !! i = Some bid /\ ~ selected bid /\ rejected bid) /\
  (forall i, In i sel_indices -> ~ In i rej_indices) /\
  Sorted lt sel_indices /\ Sorted lt rej_indices.
Proof.
  rewrite label_partition_spec. cbv zeta.
  set (S := fst (add_items (selected_items request) ∅ ∅)).
  set (w1 := snd (add_items (selected_items request) ∅ ∅)).
  set (Rj := fst (add_items (rejected_items request) ∅ w1)).
  assert (HS : forall x, x ∈ S <-> exists item, In item (selected_items request) /\ id item = x)
    by (intros x; apply labelled_ids).
  assert (HR : forall x, x ∈ Rj <-> exists item, In item (rejected_items request) /\ id item = x)
    by (intros x; apply labelled_ids).
  assert (Hsel : forall i, In i (sel_from S 0 arr) <->
            exists bid, arr !! i = Some bid /\
              exists item, In item (selected_items request) /\ id item = bid).
  { intros i. rewrite in_sel_from, Nat.sub_0_r. split.
    - intros (_ & bid & Hl & Hin). exists bid. split; [exact Hl | apply HS; exact Hin].
    - intros (bid & Hl & Hin). split; [lia|]. exists bid.
      split; [exact Hl | apply HS; exact Hin]. }
  assert (Hrej : forall i, In i (rej_from S Rj 0 arr) <->
            exists bid, arr !! i = Some bid /\
              ~ (exists item, In item (selected_items request) /\ id item = bid) /\
              exists item, In item (rejected_items request) /\ id item = bid).
  { intros i. rewrite in_rej_from_iff, Nat.sub_0_r. split.
    - intros (_ & bid & Hl & Hs & Hr). exists bid. split; [exact Hl|]. split.
      + intros Hin. apply Hs, HS. exact Hin.
      + apply HR. exact Hr.
    - intros (bid & Hl & Hs & Hr). split; [lia|]. exists bid. split; [exact Hl|]. split.
      + intros Hin. apply Hs, HS. exact Hin.
      + apply HR. exact Hr. }
  split; [exact Hsel|]. split; [exact Hrej|]. split; [|split].
  - intros i Hi Hi'. apply Hsel in Hi as (bid & Hl & Hs).
    apply Hrej in Hi' as (bid' & Hl' & Hns & _).
    rewrite Hl in Hl'. injection Hl' as <-. exact (Hns Hs).
  - apply sel_from_increasing.
  - apply rej_from_increasing.
Qed.

(** X7. Every training row gets the weight of a labelled item: the tier
    weight of the last item that carries the row's id, reading the selected
    list and then the rejected list.  The default [CLICK_WEIGHT] of the
    lookup [id_to_weight.get(..., CLICK_WEIGHT)] is never used. *)
Theorem training_weight_is_last_tier (request : SimilarityHistogramRequest)
    (arr : list Z) :
  let '(sel_indices, rej_indices, id_to_weight) := label_partition request arr in
  let sample_weights :=
    weights_at id_to_weight arr sel_indices ++ weights_at id_to_weight arr rej_indices in
  length sample_weights = (length sel_indices + length rej_indices)%nat /\
  forall p i, (sel_indices ++ rej_indices) !! p = Some i ->
    exists bid item,
      arr !! i = Some bid /\
      last_with_id (selected_items request ++ rejected_items request) bid = Some item /\
      id_to_weight !! bid = Some (tier_weight (source item)) /\
      sample_weights !! p = Some (tier_weight (source item)).
Proof.
  rewrite label_partition_spec. cbv zeta.
  set (S := fst (add_items (selected_items request) ∅ ∅)).
  set (w1 := snd (add_items (selected_items request) ∅ ∅)).
  set (Rj := fst (add_items (rejected_items request) ∅ w1)).
  set (w := snd (add_items (rejected_items request) ∅ w1)).
  split; [rewrite length_app; unfold weights_at; rewrite !length_map; reflexivity|].
  intros p i Hp.
  assert (Hrow : exists bid, arr !! i = Some bid /\
            exists item, In item (selected_items request ++ rejected_items request) /\
                         id item = bid).
  { apply list_elem_of_lookup_2, list_elem_of_In, in_app_iff in Hp as [Hi | Hi].
    - apply in_sel_from in Hi as (_ & bid & Hl & Hin). rewrite Nat.sub_0_r in Hl.
      exists bid. split; [exact Hl|]. apply labelled_ids in Hin as (item & Hitem & Hid).
      exists item. split; [apply in_app_iff; left; exact Hitem | exact Hid].
    - apply in_rej_from_iff in Hi as (_ & bid & Hl & _ & Hin). rewrite Nat.sub_0_r in Hl.
      exists bid. split; [exact Hl|]. apply labelled_ids in Hin as (item & Hitem & Hid).
      exists item. split; [apply in_app_iff; right; exact Hitem | exact Hid]. }
  destruct Hrow as (bid & Hl & Hlabelled).
  destruct (last_with_id_Some _ bid Hlabelled) as (item & Hlast & _ & _).
  assert (Hw : w !! bid = Some (tier_weight (source item))).
  { unfold w, w1. rewrite labelled_weight, Hlast. reflexivity. }
  exists bid, item. split; [exact Hl|]. split; [exact Hlast|]. split; [exact Hw|].
  replace (weights_at w arr (sel_from S 0 arr) ++ weights_at w arr (rej_from S Rj 0 arr))
    with (weights_at w arr (sel_from S 0 arr ++ rej_from S Rj 0 arr))
    by (unfold weights_at; apply map_app).
  rewrite (weights_at_lookup w arr _ p i bid Hp Hl), Hw. reflexivity.
Qed.

End partition.

End LabelFacts.

(** ** Score operation: what the cache key depends on *)
Module CacheKeyFacts.
Import Models Classification PyDictFacts ClassificationFacts.

(** The order of the tuples [(id, source)], as a relation. *)
Lemma pair_le_total (a b : Z * Source) : pair_le a b = true \/ pair_le b a = true.
Proof.
  destruct a as [x s], b as [y t]. unfold pair_le. cbn [fst snd].
  destruct (decide (x = y)) as [-> | Hne].
  - destruct (decide (y = y)) as [_ | N]; [|congruence].
    destruct s, t; vm_compute; auto.
  - destruct (decide (y = x)) as [E | _]; [congruence|].
    destruct (Z.lt_total x y) as [Hlt | [E | Hgt]]; [left | congruence | right];
      apply bool_decide_eq_true; assumption.
Qed.

Lemma pair_le_antisym (a b : Z * Source) :
  pair_le a b = true -> pair_le b a = true -> a = b.
Proof.
  destruct a as [x s], b as [y t]. unfold pair_le. cbn [fst snd].
  destruct (decide (x = y)) as [-> | Hne].
  - destruct (decide (y = y)) as [_ | N]; [|congruence].
    destruct s, t; vm_compute; congruence.
  - destruct (decide (y = x)) as [E | _]; [congruence|].
    rewrite !bool_decide_eq_true. lia.
Qed.

Lemma pair_le_trans (a b c : Z * Source) :
  pair_le a b = true -> pair_le b c = true -> pair_le a c = true.
Proof.
  destruct a as [x s], b as [y t], c as [z u]. unfold pair_le. cbn [fst snd].
  destruct (decide (x = y)) as [-> | Hxy], (decide (y = z)) as [-> | Hyz].
  - destruct (decide (z = z)) as [_ | N]; [|congruence].
    destruct s, t, u; vm_compute; congruence.
  - destruct (decide (y = z)) as [E | _]; [congruence|]. auto.
  - destruct (decide (x = z)) as [E | _]; [congruence|]. auto.
  - destruct (decide (x = z)) as [-> | _]; rewrite !bool_decide_eq_true; lia.
Qed.

#[local] Instance pair_le_transitive : Transitive (fun a b => pair_le a b = true).
Proof. intros a b c. apply pair_le_trans. Qed.

#[local] Instance pair_le_antisymm : AntiSymm (=) (fun a b => pair_le a b = true).
Proof. intros a b. apply pair_le_antisym. Qed.

Lemma insert_pair_perm (a : Z * Source) (l : list (Z * Source)) :
  insert_pair a l ≡ₚ a :: l.
Proof.
  induction l as [|b l IH]; cbn [insert_pair]; [reflexivity|].
  destruct (pair_le a b); [reflexivity|].
  rewrite IH. apply Permutation_swap.
Qed.

Lemma insert_pair_sorted (a : Z * Source) (l : list (Z * Source)) :
  Sorted (fun a b => pair_le a b = true) l ->
  Sorted (fun a b => pair_le a b = true) (insert_pair a l).
Proof.
  induction l as [|b l IH]; intros Hs; cbn [insert_pair].
  - repeat constructor.
  - destruct (pair_le a b) eqn:Hab.
    + constructor; [exact Hs | constructor; exact Hab].
    + apply Sorted_inv in Hs as [Hs Hhd]. constructor; [apply IH; exact Hs|].
      assert (Hba : pair_le b a = true)
        by (destruct (pair_le_total a b) as [E | E]; [congruence | exact E]).
      destruct l as [|c l]; cbn [insert_pair].
      * constructor. exact Hba.
      * destruct (pair_le a c); constructor; [exact Hba|].
        apply HdRel_inv in Hhd. exact Hhd.
Qed.

Lemma sorted_pairs_sorted (items : list WeightedBlockId) :
  Sorted (fun a b => pair_le a b = true) (sorted_pairs items).
Proof.
  unfold sorted_pairs. induction items as [|item items IH]; cbn [map fold_right].
  - constructor.
  - apply insert_pair_sorted. exact IH.
Qed.

Lemma sorted_pairs_perm (items : list WeightedBlockId) :
  sorted_pairs items ≡ₚ map (fun i => (id i, source i)) items.
Proof.
  unfold sorted_pairs. induction items as [|item items IH]; cbn [map fold_right].
  - reflexivity.
  - rewrite insert_pair_perm, IH. reflexivity.
Qed.

(** The sorted list of tuples depends on the items as a multiset only. *)
Lemma sorted_pairs_permutation (items items' : list WeightedBlockId) :
  items ≡ₚ items' -> sorted_pairs items = sorted_pairs items'.
Proof.
  intros Hperm. apply (Sorted_unique (fun a b => pair_le a b = true)).
  - apply sorted_pairs_sorted.
  - apply sorted_pairs_sorted.
  - rewrite !sorted_pairs_perm. apply Permutation_map. exact Hperm.
Qed.

Section estimators.
Context `{Estimators}.

Lemma cache_key_permutation (selected selected' rejected rejected' : list WeightedBlockId) :
  selected ≡ₚ selected' -> rejected ≡ₚ rejected' ->
  _cache_key selected' rejected' = _cache_key selected rejected.
Proof.
  intros Hs Hr. unfold _cache_key.
  rewrite (sorted_pairs_permutation _ _ Hs), (sorted_pairs_permutation _ _ Hr).
  reflexivity.
Qed.

(** After a request that got past the degenerate cases, its key is cached. *)
Lemma served_key_cached (self : ClassificationService)
    (request : SimilarityHistogramRequest) :
  cache_ok self -> scorable self request = true ->
  exists entry,
    PyDict.get (_svm_cache (snd (get_similarity_score_histogram self request)))
      (request_key request) = Some entry.
Proof.
  intros Hok Hsc.
  destruct (request_cache_keys self request Hok Hsc) as [Hhit Hmiss].
  set (cache' := _svm_cache (snd (get_similarity_score_histogram self request))) in *.
  destruct (PyDict.get cache' (request_key request)) as [entry|] eqn:Hget;
    [exists entry; reflexivity|].
  exfalso. apply get_None_keys in Hget. apply Hget.
  destruct (in_dec string_dec (request_key request) (PyDict.keys (_svm_cache self)))
    as [Hin | Hout].
  - rewrite (Hhit Hin). exact Hin.
  - rewrite (Hmiss Hout). apply in_app_iff. right. left. reflexivity.
Qed.

(** X8. The cache key depends on the labelled items only, and not on their
    order: a request whose selected and rejected lists hold the same items as
    those of the request served just before, in any order and with any
    candidate list, finds the cached pair.  It is scored with the margin
    classifier and the scaler fitted for the earlier request, the cache is
    left as it is and no margin classifier is fitted. *)
Theorem reordered_labels_hit_cache (self : ClassificationService)
    (request request' : SimilarityHistogramRequest) :
  cache_ok self ->
  scorable self request = true -> scorable self request' = true ->
  selected_items request ≡ₚ selected_items request' ->
  rejected_items request ≡ₚ rejected_items request' ->
  let self1 := snd (get_similarity_score_histogram self request) in
  request_key request' = request_key request /\
  exists model scaler arr M response calls,
    PyDict.get (_svm_cache self1) (request_key request) = Some (model, scaler) /\
    _extract_metrics self (block_ids request') = Some (arr, M) /\
    fst (get_similarity_score_histogram self1 request') = Ok response /\
    Models.scores response =
      PyDict.of_items (zip (map str_int arr)
                           (map (svc_decision_row model) (scaler_transform scaler M))) /\
    _svm_cache (snd (get_similarity_score_histogram self1 request')) = _svm_cache self1 /\
    fit_log (snd (get_similarity_score_histogram self1 request')) = fit_log self1 ++ calls /\
    forall X y w, ~ In (Committee.FitSVC X y w) calls.
Proof.
  intros Hok Hsc Hsc' Hsel Hrej self1.
  assert (Hkey : request_key request' = request_key request)
    by (apply cache_key_permutation; assumption).
  split; [exact Hkey|].
  destruct (served_key_cached self request Hok Hsc) as [[model scaler] Hget].
  fold self1 in Hget.
  destruct (request_keeps_config self request) as [Hds _]. fold self1 in Hds.
  assert (Hsc1 : scorable self1 request' = true)
    by (rewrite (scorable_same_data self self1 request' Hds); exact Hsc').
  destruct (scorable_true self1 request' Hsc1)
    as (Hready & arr & M & sel & rej & w & Hext & Hpart & Hs & Hr).
  assert (Hext0 : _extract_metrics self (block_ids request') = Some (arr, M))
    by (unfold _extract_metrics in *; rewrite <- Hds; exact Hext).
  rewrite <- Hkey in Hget.
  destruct (cached_request self1 request' arr M sel rej w (model, scaler)
              Hready Hext Hpart Hs Hr Hget) as (response & Hrun & Hscores & Hcache & Hlog).
  rewrite Hkey in Hget. cbv zeta in Hscores, Hlog. cbn [fst snd] in Hscores.
  exists model, scaler, arr, M, response. eexists.
  split; [exact Hget|]. split; [exact Hext0|]. split; [exact Hrun|].
  split; [exact Hscores|]. split; [exact Hcache|]. split; [exact Hlog|].
  apply CommitteeFacts.train_committee_calls.
Qed.

End estimators.

Lemma reordered_labels_hit_cache_witness :
  let request' :=
    {| selected_items := map (fun i => {| id := i; source := click |}) [2; 1; 3]%Z;
       rejected_items := map (fun i => {| id := i; source := click |}) [4; 5; 6]%Z;
       block_ids := [1; 4]%Z |} in
  request_key (H := Reference.estimators) request' =
  request_key (H := Reference.estimators) three_against_three.
Proof.
  intros request'.
  refine (proj1 (reordered_labels_hit_cache (H := Reference.estimators)
                   (__init__ (H := Reference.estimators) six_blocks)
                   three_against_three request' _ _ _ _ _)).
  - apply init_cache_ok.
  - vm_compute. reflexivity.
  - vm_compute. reflexivity.
  - apply perm_swap.
  - reflexivity.
Defined.

End CacheKeyFacts.

(** ** Score operation: what a response holds *)
Module ResponseFacts.
Import Models Classification PyDictFacts ClassificationFacts VoteFacts LabelFacts.

Section dict.
Context {K : Type} `{EqDecision K}.

(** The keys after a run of writes depend on the keys written only. *)
Lemma fold_set_keys_ext {V W : Type} (items : list (K * V)) :
  forall (items' : list (K * W)) (d : list (K * V)) (d' : list (K * W)),
  PyDict.keys d = PyDict.keys d' -> map fst items = map fst items' ->
  PyDict.keys (fold_left (fun d e => PyDict.set d (fst e) (snd e)) items d) =
  PyDict.keys (fold_left (fun d e => PyDict.set d (fst e) (snd e)) items' d').
Proof.
  induction items as [|e items IH]; intros items' d d' Hd Hitems.
  - destruct items'; [exact Hd | discriminate].
  - destruct items' as [|e' items']; [discriminate|].
    injection Hitems as Hk Hrest. cbn [fold_left]. apply IH; [|exact Hrest].
    rewrite !keys_set, Hd, Hk. reflexivity.
Qed.

Lemma fold_set_keys_NoDup {V : Type} (items : list (K * V)) :
  forall (d : list (K * V)), NoDup (PyDict.keys d) ->
  NoDup (PyDict.keys (fold_left (fun d e => PyDict.set d (fst e) (snd e)) items d)).
Proof.
  induction items as [|e items IH]; intros d Hd; [exact Hd|].
  cbn [fold_left]. apply IH. rewrite keys_set.
  destruct (decide (fst e ∈ PyDict.keys d)) as [Hin | Hout]; [exact Hd|].
  apply NoDup_app. split; [exact Hd|]. split.
  - intros x Hx Hx'. apply list_elem_of_singleton in Hx'. subst x. exact (Hout Hx).
  - apply NoDup_singleton.
Qed.

Lemma fold_set_keys_elem {V : Type} (items : list (K * V)) :
  forall (d : list (K * V)) (k : K),
  k ∈ PyDict.keys (fold_left (fun d e => PyDict.set d (fst e) (snd e)) items d) <->
  k ∈ PyDict.keys d \/ k ∈ map fst items.
Proof.
  induction items as [|e items IH]; intros d k; cbn [fold_left map].
  - rewrite elem_of_nil. tauto.
  - rewrite IH, keys_set, elem_of_cons.
    destruct (decide (fst e ∈ PyDict.keys d)) as [Hin | Hout].
    + split; [tauto|]. intros [Hk | [-> | Hk]]; tauto.
    + rewrite elem_of_app, list_elem_of_singleton. tauto.
Qed.

(** Writing keys that are new and distinct appends them in order. *)
Lemma fold_set_new {V : Type} (items : list (K * V)) :
  forall (d : list (K * V)),
  NoDup (PyDict.keys d ++ map fst items) ->
  fold_left (fun d e => PyDict.set d (fst e) (snd e)) items d = d ++ items.
Proof.
  induction items as [|[k v] items IH]; intros d Hnd; cbn [fold_left map fst snd].
  - rewrite app_nil_r. reflexivity.
  - cbn [map fst] in Hnd.
    assert (Hnew : PyDict.get d k = None).
    { apply get_None_keys. intros Hin. apply NoDup_app in Hnd as (_ & Hdis & _).
      apply (Hdis k); [apply list_elem_of_In; exact Hin | left]. }
    rewrite (set_new d k v Hnew), IH.
    + rewrite <- app_assoc. reflexivity.
    + rewrite keys_app. cbn [PyDict.keys map fst]. rewrite <- app_assoc. exact Hnd.
Qed.

Lemma of_items_NoDup {V : Type} (items : list (K * V)) :
  NoDup (map fst items) -> PyDict.of_items items = items.
Proof. intros Hnd. unfold PyDict.of_items. apply (fold_set_new items []). exact Hnd. Qed.

Lemma get_fold_set_untouched {V : Type} (items : list (K * V)) :
  forall (d : list (K * V)) (k : K),
  k ∉ map fst items ->
  PyDict.get (fold_left (fun d e => PyDict.set d (fst e) (snd e)) items d) k = PyDict.get d k.
Proof.
  induction items as [|e items IH]; intros d k Hk; [reflexivity|].
  cbn [fold_left]. cbn [map] in Hk. apply not_elem_of_cons in Hk as [Hne Hk].
  rewrite IH by exact Hk. apply get_set_ne. congruence.
Qed.

(** The last pair written for a key decides its value. *)
Lemma get_of_items_last {V : Type} (l1 l2 : list (K * V)) (k : K) (v : V) :
  k ∉ map fst l2 -> PyDict.get (PyDict.of_items (l1 ++ (k, v) :: l2)) k = Some v.
Proof.
  intros Hk. unfold PyDict.of_items. rewrite fold_left_app. cbn [fold_left fst snd].
  rewrite get_fold_set_untouched by exact Hk. apply get_set_eq.
Qed.

Lemma get_app_new {V : Type} (d : list (K * V)) (k : K) (v : V) :
  ~ In k (PyDict.keys d) -> PyDict.get (d ++ [(k, v)]) k = Some v.
Proof.
  intros Hk. induction d as [|[k' v'] d IH]; cbn.
  - destruct (decide (k = k)); [reflexivity | congruence].
  - destruct (decide (k' = k)) as [-> | _].
    + exfalso. apply Hk. left. reflexivity.
    + apply IH. intros Hin. apply Hk. right. exact Hin.
Qed.

End dict.

Section estimators.
Context `{Estimators}.

(** A request that gets past the degenerate cases, step by step. *)
Lemma scorable_request_steps (self : ClassificationService)
    (request : SimilarityHistogramRequest) :
  cache_ok self -> scorable self request = true ->
  exists arr M sel rej w entry cache' svm_calls votes,
    _extract_metrics self (block_ids request) = Some (arr, M) /\
    label_partition request arr = (sel, rej, w) /\ sel <> [] /\ rej <> [] /\
    lookup_or_train (_svm_cache self) (_max_cache_size self) (request_key request)
      (rows_at M sel) (rows_at M rej) (weights_at w arr sel) (weights_at w arr rej)
      = Ok (entry, cache', svm_calls) /\
    let scores := SvmUtils.score_with_svm (fst entry) (snd entry) M in
    let scores_dict := PyDict.of_items (zip (map str_int arr) scores) in
    let tc := Committee.train_committee (committee_service self)
                (rows_at M sel ++ rows_at M rej)
                (SvmUtils.labels (length (rows_at M sel)) (length (rows_at M rej)))
                (weights_at w arr sel ++ weights_at w arr rej) in
    committee_votes_response (snd entry) arr M scores
      (fst (fst (fst (fst tc)))) (snd (fst (fst (fst tc)))) (snd (fst (fst tc))) = Ok votes /\
    get_similarity_score_histogram self request =
    (Ok (SvmUtils.build_similarity_histogram_response
           scores_dict (PyDict.values scores_dict) (length scores_dict) votes),
     {| data_service := data_service self;
        committee_service := snd (fst tc);
        _svm_cache := cache';
        _max_cache_size := _max_cache_size self;
        fit_log := fit_log self ++ svm_calls ++ snd tc |}).
Proof.
  intros (Hmax & Hnd & Hlen) Hs.
  destruct (scorable_true _ _ Hs)
    as (Hready & arr & M & sel & rej & w & Hex & Hpart & Hsel & Hrej).
  assert (Hlookup : exists entry cache' svm_calls,
            lookup_or_train (_svm_cache self) (_max_cache_size self) (request_key request)
              (rows_at M sel) (rows_at M rej) (weights_at w arr sel) (weights_at w arr rej)
            = Ok (entry, cache', svm_calls)).
  { destruct (PyDict.get (_svm_cache self) (request_key request)) as [entry|] eqn:Hget.
    - exists entry, (_svm_cache self), []. apply lookup_or_train_hit. exact Hget.
    - eexists. eexists. eexists.
      apply (lookup_or_train_miss (_svm_cache self) (_max_cache_size self)
               (request_key request) (rows_at M sel) (rows_at M rej)
               (weights_at w arr sel) (weights_at w arr rej) Hget ltac:(lia) Hnd). }
  destruct Hlookup as (entry & cache' & svm_calls & Hlookup).
  destruct (score_request_unfold self request arr M sel rej w entry cache' svm_calls
              Hready Hex Hpart Hsel Hrej Hlookup) as (votes & Hvotes & Hrun).
  exists arr, M, sel, rej, w, entry, cache', svm_calls, votes.
  split; [exact Hex|]. split; [exact Hpart|]. split; [exact Hsel|]. split; [exact Hrej|].
  split; [exact Hlookup|]. split; [exact Hvotes | exact Hrun].
Qed.

(** With a prediction for every id, the vote dictionary is the dictionary
    of the pairs (id, prediction). *)
Lemma vote_dict_of_items (preds : list Committee.CommitteePrediction) (ids : list string) :
  forall (k : nat) (d0 : list (string * Committee.CommitteePrediction)),
  (k + length ids <= length preds)%nat ->
  fold_left (fun d '(idx, item_id) =>
               match preds !! idx with
               | Some pred => PyDict.set d item_id pred
               | None => d
               end)
            (zip (seq k (length ids)) ids) d0
  = fold_left (fun d e => PyDict.set d (fst e) (snd e)) (zip ids (drop k preds)) d0.
Proof.
  induction ids as [|a ids IH]; intros k d0 Hlen; [reflexivity|].
  cbn [length seq zip zip_with fold_left]. cbn [length] in Hlen.
  destruct (preds !! k) as [p|] eqn:Hp;
    [|apply lookup_ge_None in Hp; lia].
  rewrite (drop_S _ _ _ Hp). cbn [zip zip_with fold_left fst snd].
  apply IH. lia.
Qed.

(** The ids with a committee record are the ids with a score. *)
Lemma committee_votes_response_keys (scaler : StandardScaler) (arr : list Z)
    (M : matrix) (scores : vector)
    (rf : option RandomForestClassifier) (mlp : option WeightedMLPClassifier)
    (cs : option StandardScaler) (votes : list (string * CommitteeVoteInfo)) :
  length scores = length M -> length arr = length M ->
  committee_votes_response scaler arr M scores rf mlp cs = Ok (Some votes) ->
  PyDict.keys votes = PyDict.keys (PyDict.of_items (zip (map str_int arr) scores)).
Proof.
  intros Hlen Harr Hrun. unfold committee_votes_response in Hrun.
  destruct (CommitteeFacts.predict_with_committee_total
              (scaler_transform scaler M) scores rf mlp cs) as (preds & Hpreds & Hplen).
  { unfold scaler_transform. rewrite length_map. symmetry. exact Hlen. }
  rewrite Hpreds in Hrun.
  assert (Hvotes : votes = PyDict.of_items
            (map (fun e => (fst e, to_vote_info (snd e)))
                 (Committee.get_vote_info_dict (map str_int arr) preds))).
  { destruct rf, mlp; cbn [mbind result_bind mret result_ret] in Hrun;
      first [discriminate Hrun | injection Hrun as Hrun; symmetry; exact Hrun]. }
  unfold Committee.get_vote_info_dict in Hvotes.
  rewrite (vote_dict_of_items preds (map str_int arr) 0 []) in Hvotes
    by (rewrite length_map; lia).
  rewrite drop_0 in Hvotes.
  set (D := fold_left (fun d e => PyDict.set d (fst e) (snd e))
                      (zip (map str_int arr) preds) []) in Hvotes.
  assert (HD : NoDup (PyDict.keys D)) by (apply fold_set_keys_NoDup; constructor).
  rewrite Hvotes, of_items_NoDup.
  - unfold PyDict.keys at 1. rewrite map_map. cbn [fst].
    change (map (fun x => fst x) D) with (PyDict.keys D).
    unfold D, PyDict.of_items. apply fold_set_keys_ext; [reflexivity|].
    rewrite !fst_zip; [reflexivity | |]; rewrite length_map; lia.
  - rewrite map_map. cbn [fst]. exact HD.
Qed.

(** X9. Every response of the score operation is consistent: [total_items]
    is the number of entries of the score mapping, the 60 histogram counts
    add up to it, the keys of the score mapping are distinct, and when the
    response carries committee votes they are recorded for exactly the ids
    that are scored, in the same order. *)
Theorem response_is_consistent (self : ClassificationService)
    (request : SimilarityHistogramRequest) (response : SimilarityHistogramResponse) :
  cache_ok self ->
  fst (get_similarity_score_histogram self request) = Ok response ->
  total_items response = length (scores response) /\
  list_sum (counts (histogram response)) = total_items response /\
  NoDup (PyDict.keys (scores response)) /\
  forall votes, committee_votes response = Some votes ->
    PyDict.keys votes = PyDict.keys (scores response).
Proof.
  intros Hok Hrun. destruct (scorable self request) eqn:Hsc.
  - destruct (scorable_request_steps self request Hok Hsc)
      as (arr & M & sel & rej & w & entry & cache' & svm_calls & votes &
          Hex & Hpart & Hsel & Hrej & Hlookup & Hvotes & Hstep).
    cbv zeta in Hvotes, Hstep. rewrite Hstep in Hrun. cbn [fst] in Hrun.
    injection Hrun as <-.
    destruct (extract_metrics_shape self _ _ _ Hex) as [Hlen Hne].
    set (scores := SvmUtils.score_with_svm (fst entry) (snd entry) M) in *.
    assert (Hslen : length scores = length M) by apply length_score_with_svm.
    set (scores_dict := PyDict.of_items (zip (map str_int arr) scores)) in *.
    assert (Hvals : PyDict.values scores_dict <> []).
    { apply of_items_nonempty. destruct arr as [|a arr]; [congruence|].
      destruct scores as [|s scores]; [cbn in Hslen; cbn in Hlen; lia | discriminate]. }
    destruct (PyDict.values scores_dict) as [|x t] eqn:Evals; [congruence|].
    rewrite SvmUtilsFacts.build_response_fields.
    cbn [total_items Models.scores histogram counts committee_votes].
    split; [reflexivity|]. split; [|split].
    + destruct (SvmUtilsFacts.histogram_shape x t) as (_ & _ & _ & _ & _ & Hsum).
      rewrite Hsum, <- Evals. unfold PyDict.values. apply length_map.
    + apply fold_set_keys_NoDup. constructor.
    + intros votes' Hv. subst votes.
      apply (committee_votes_response_keys _ _ _ _ _ _ _ _ Hslen Hlen Hvotes).
  - destruct (unscorable_request self request Hsc) as [_ Hempty].
    destruct (DataService.is_ready (data_service self)) eqn:Hready.
    + rewrite (Hempty eq_refl) in Hrun. injection Hrun as <-. cbn.
      split; [reflexivity|]. split; [reflexivity|]. split; [constructor | discriminate].
    + unfold get_similarity_score_histogram in Hrun. rewrite Hready in Hrun.
      discriminate Hrun.
Qed.

(** The pair the cache block hands out is the pair cached under the key. *)
Lemma lookup_or_train_caches (cache cache' : list (string * (SVC * StandardScaler)))
    (max_size : nat) (key : string) (sv rv : matrix) (sw rw : vector)
    (entry : SVC * StandardScaler) (calls : list Committee.FitCall) :
  (0 < max_size)%nat -> List.NoDup (PyDict.keys cache) ->
  lookup_or_train cache max_size key sv rv sw rw = Ok (entry, cache', calls) ->
  PyDict.get cache' key = Some entry.
Proof.
  intros Hmax Hnd Hrun.
  destruct (PyDict.get cache key) as [found|] eqn:Hget.
  - rewrite (lookup_or_train_hit cache max_size key sv rv sw rw found Hget) in Hrun.
    injection Hrun as <- <- _. exact Hget.
  - rewrite (lookup_or_train_miss cache max_size key sv rv sw rw Hget Hmax Hnd) in Hrun.
    injection Hrun as <- <- _. apply get_app_new.
    apply get_None_keys in Hget. intros Hin. apply Hget.
    destruct (max_size <=? length cache)%nat; [|exact Hin].
    destruct cache as [|e cache]; [destruct Hin | right; exact Hin].
Qed.

(** The ids and the rows that [_extract_metrics] returns. *)
Lemma extract_metrics_rows (self : ClassificationService) (ids : list Z)
    (frame : list DataService.MetricsRow) (arr : list Z) (M : matrix) :
  DataService._metrics_lazy (data_service self) = Some frame ->
  _extract_metrics self ids = Some (arr, M) ->
  let found := filter (fun row => DataService.block_id row ∈ ids) frame in
  arr = map DataService.block_id found /\ M = DataService.to_matrix found.
Proof.
  intros Hframe Hex. cbv zeta.
  unfold _extract_metrics, DataService.get_metrics in Hex. rewrite Hframe in Hex.
  destruct (filter _ frame) as [|r rows]; [discriminate|].
  destruct (DataService.metric_columns (data_service self)); [discriminate|].
  injection Hex as <- <-. split; reflexivity.
Qed.

(** X10. The score mapping of a request that gets past the degenerate
    cases has one entry for every candidate id that has a row in the metrics
    frame, under the decimal text of the id, and no other entry.  The score
    of an id is the decision value of the margin classifier cached under the
    request's key, on the standardized features (nulls read as 0.0) of the
    last frame row that carries the id. *)
Theorem scores_by_candidate_id (self : ClassificationService)
    (request : SimilarityHistogramRequest) (frame : list DataService.MetricsRow) :
  cache_ok self -> scorable self request = true ->
  DataService._metrics_lazy (data_service self) = Some frame ->
  exists response model scaler,
    fst (get_similarity_score_histogram self request) = Ok response /\
    PyDict.get (_svm_cache (snd (get_similarity_score_histogram self request)))
      (request_key request) = Some (model, scaler) /\
    (forall s, s ∈ PyDict.keys (scores response) <->
       exists row, row ∈ frame /\ DataService.block_id row ∈ block_ids request /\
                   s = str_int (DataService.block_id row)) /\
    (forall before row after,
       frame = before ++ row :: after ->
       DataService.block_id row ∈ block_ids request ->
       (forall row', row' ∈ after ->
          DataService.block_id row' <> DataService.block_id row) ->
       PyDict.get (scores response) (str_int (DataService.block_id row)) =
       Some (svc_decision_row model
               (scaler_transform_row scaler
                  (map (fun c => default 0 c) (DataService.cells row))))).
Proof.
  intros Hok Hsc Hframe.
  destruct (scorable_request_steps self request Hok Hsc)
    as (arr & M & sel & rej & w & [model scaler] & cache' & svm_calls & votes &
        Hex & Hpart & Hsel & Hrej & Hlookup & Hvotes & Hstep).
  cbv zeta in Hvotes, Hstep. cbn [fst snd] in Hvotes, Hstep.
  destruct (extract_metrics_shape self _ _ _ Hex) as [Hlen Hne].
  destruct (extract_metrics_rows self _ frame arr M Hframe Hex) as [Harr HM].
  set (found := filter (fun row => DataService.block_id row ∈ block_ids request) frame) in *.
  set (value := fun row : DataService.MetricsRow =>
         svc_decision_row model
           (scaler_transform_row scaler (map (fun c => default 0 c) (DataService.cells row)))).
  assert (Hitems : zip (map str_int arr) (SvmUtils.score_with_svm model scaler M) =
                   map (fun row => (str_int (DataService.block_id row), value row)) found).
  { rewrite Harr, HM. unfold SvmUtils.score_with_svm, scaler_transform, DataService.to_matrix.
    rewrite !map_map. clear. induction found as [|row found IH]; [reflexivity|].
    cbn [map zip zip_with]. f_equal. exact IH. }
  rewrite Hitems in Hstep.
  set (scores_dict := PyDict.of_items
         (map (fun row => (str_int (DataService.block_id row), value row)) found)) in *.
  assert (Hvals : PyDict.values scores_dict <> []).
  { apply of_items_nonempty. intros E. apply map_eq_nil in E. apply Hne.
    rewrite Harr, E. reflexivity. }
  destruct (PyDict.values scores_dict) as [|x t] eqn:Evals; [congruence|].
  rewrite SvmUtilsFacts.build_response_fields in Hstep.
  destruct Hok as (Hmax & Hnd & _).
  eexists. exists model, scaler. rewrite Hstep. cbn [fst snd _svm_cache Models.scores].
  split; [reflexivity|]. cbn [Models.scores]. split; [|split].
  - eapply (lookup_or_train_caches _ _ (_max_cache_size self));
      [lia | exact Hnd | exact Hlookup].
  - intros s. unfold scores_dict, PyDict.of_items. rewrite fold_set_keys_elem.
    rewrite map_map. cbn [fst PyDict.keys map]. rewrite elem_of_nil, list_elem_of_fmap.
    split.
    + intros [[] | (row & -> & Hrow)]. apply list_elem_of_filter in Hrow as [Hin Hrow].
      exists row. auto.
    + intros (row & Hrow & Hin & ->). right. exists row. split; [reflexivity|].
      apply list_elem_of_filter. auto.
  - intros before row after Hsplit Hin Hlast.
    assert (Hfound : found = filter (fun row => DataService.block_id row ∈ block_ids request) before
                       ++ row :: filter (fun row => DataService.block_id row ∈ block_ids request) after).
    { unfold found. rewrite Hsplit, filter_app, filter_cons_True by exact Hin. reflexivity. }
    unfold scores_dict. rewrite Hfound, map_app. cbn [map].
    apply get_of_items_last. rewrite map_map. cbn [fst].
    intros Hdup. apply list_elem_of_fmap in Hdup as (row' & Heq & Hrow').
    apply list_elem_of_filter in Hrow' as [_ Hrow'].
    apply (inj pretty) in Heq. exact (Hlast row' Hrow' (eq_sym Heq)).
Qed.

(** X11. On a request that gets past the degenerate cases and whose key is
    not cached, the margin classifier is fitted once: on the labelled rows,
    positives first, standardized by a scaler fitted to those same rows, with
    label 1 for the positive and 0 for the negative rows and the tier weights
    as sample weights.  Every candidate row is scored after the same
    standardization, and the pair (classifier, scaler) is stored under the
    request's key. *)
Theorem cache_miss_fits_margin_classifier_once (self : ClassificationService)
    (request : SimilarityHistogramRequest) (arr : list Z) (M : matrix)
    (sel rej : list nat) (w : gmap Z R) :
  cache_ok self ->
  DataService.is_ready (data_service self) = true ->
  _extract_metrics self (block_ids request) = Some (arr, M) ->
  label_partition request arr = (sel, rej, w) -> sel <> [] -> rej <> [] ->
  PyDict.get (_svm_cache self) (request_key request) = None ->
  let X_train := rows_at M sel ++ rows_at M rej in
  let y_train := repeat 1%Z (length sel) ++ repeat 0%Z (length rej) in
  let sample_weights := weights_at w arr sel ++ weights_at w arr rej in
  let scaler := scaler_fit X_train in
  let model := svc_fit (scaler_transform scaler X_train) y_train sample_weights in
  exists response calls,
    fst (get_similarity_score_histogram self request) = Ok response /\
    Models.scores response =
      PyDict.of_items (zip (map str_int arr)
                           (map (svc_decision_row model) (scaler_transform scaler M))) /\
    PyDict.get (_svm_cache (snd (get_similarity_score_histogram self request)))
      (request_key request) = Some (model, scaler) /\
    fit_log (snd (get_similarity_score_histogram self request)) =
      fit_log self ++
      Committee.FitSVC (scaler_transform scaler X_train) y_train sample_weights :: calls /\
    forall X y sw, ~ In (Committee.FitSVC X y sw) calls.
Proof.
  intros (Hmax & Hnd & Hlen) Hready Hex Hpart Hsel Hrej Hget. cbv zeta.
  pose proof (lookup_or_train_miss (_svm_cache self) (_max_cache_size self)
                (request_key request) (rows_at M sel) (rows_at M rej)
                (weights_at w arr sel) (weights_at w arr rej) Hget ltac:(lia) Hnd) as Hmiss.
  cbv zeta in Hmiss.
  destruct (score_request_unfold self request arr M sel rej w _ _ _
              Hready Hex Hpart Hsel Hrej Hmiss) as (votes & _ & Hrun).
  assert (Hpos : (0 < _max_cache_size self)%nat) by lia.
  pose proof (lookup_or_train_caches _ _ _ _ _ _ _ _ _ _ Hpos Hnd Hmiss) as Hcached.
  rewrite Hrun. cbn [fst snd _svm_cache fit_log].
  unfold SvmUtils.train_svm_model, SvmUtils.labels in *. cbn [fst snd default] in *.
  rewrite !length_rows_at in *.
  eexists. eexists. split; [reflexivity|]. split; [|split; [exact Hcached|split]].
  - unfold SvmUtils.build_similarity_histogram_response.
    destruct (PyDict.values _) eqn:Hvals.
    + destruct (PyDict.of_items _); [reflexivity | discriminate Hvals].
    + destruct (Np.histogram _ _). reflexivity.
  - cbn [app]. reflexivity.
  - apply CommitteeFacts.train_committee_calls.
Qed.

(** The cache block starts no fit on a hit and one fit of the margin
    classifier on a miss. *)
Lemma lookup_or_train_calls (cache cache' : list (string * (SVC * StandardScaler)))
    (max_size : nat) (key : string) (sv rv : matrix) (sw rw : vector)
    (entry : SVC * StandardScaler) (calls : list Committee.FitCall) :
  lookup_or_train cache max_size key sv rv sw rw = Ok (entry, cache', calls) ->
  calls = [] \/ exists X y w, calls = [Committee.FitSVC X y w].
Proof.
  unfold lookup_or_train, SvmUtils.train_svm_model.
  destruct (PyDict.get cache key) as [found|].
  - intros Hrun. injection Hrun as _ _ <-. left. reflexivity.
  - destruct (max_size <=? length cache)%nat.
    + destruct (PyDict.first_key cache); cbn [mbind result_bind mret result_ret];
        intros Hrun; [|discriminate Hrun].
      injection Hrun as _ _ <-. right. eexists. eexists. eexists. reflexivity.
    + cbn [mbind result_bind mret result_ret]. intros Hrun.
      injection Hrun as _ _ <-. right. eexists. eexists. eexists. reflexivity.
Qed.

(** X12. With fewer than three training rows in either class the request
    is still scored, but no auxiliary classifier is fitted, the committee
    service keeps the models it held, and the response carries no committee
    votes. *)
Theorem few_labels_no_committee (self : ClassificationService)
    (request : SimilarityHistogramRequest) (arr : list Z) (M : matrix)
    (sel rej : list nat) (w : gmap Z R) :
  cache_ok self ->
  DataService.is_ready (data_service self) = true ->
  _extract_metrics self (block_ids request) = Some (arr, M) ->
  label_partition request arr = (sel, rej, w) -> sel <> [] -> rej <> [] ->
  (length sel < 3)%nat \/ (length rej < 3)%nat ->
  exists response calls,
    fst (get_similarity_score_histogram self request) = Ok response /\
    scores response <> [] /\
    committee_votes response = None /\
    committee_service (snd (get_similarity_score_histogram self request))
      = committee_service self /\
    fit_log (snd (get_similarity_score_histogram self request)) = fit_log self ++ calls /\
    forall X y sw, ~ In (Committee.FitRF X y sw) calls /\
                   ~ In (Committee.FitMLP X y sw) calls.
Proof.
  intros (Hmax & Hnd & Hlen) Hready Hex Hpart Hsel Hrej Hfew.
  assert (Hlookup : exists entry cache' svm_calls,
            lookup_or_train (_svm_cache self) (_max_cache_size self) (request_key request)
              (rows_at M sel) (rows_at M rej) (weights_at w arr sel) (weights_at w arr rej)
            = Ok (entry, cache', svm_calls)).
  { destruct (PyDict.get (_svm_cache self) (request_key request)) as [entry|] eqn:Hget.
    - exists entry, (_svm_cache self), []. apply lookup_or_train_hit. exact Hget.
    - eexists. eexists. eexists.
      apply (lookup_or_train_miss (_svm_cache self) (_max_cache_size self)
               (request_key request) (rows_at M sel) (rows_at M rej)
               (weights_at w arr sel) (weights_at w arr rej) Hget ltac:(lia) Hnd). }
  destruct Hlookup as (entry & cache' & svm_calls & Hlookup).
  destruct (score_request_unfold self request arr M sel rej w entry cache' svm_calls
              Hready Hex Hpart Hsel Hrej Hlookup) as (votes & Hvotes & Hrun).
  destruct (count_label_labels (length (rows_at M sel)) (length (rows_at M rej)))
    as [Hc1 Hc0].
  rewrite CommitteeFacts.train_committee_insufficient in Hvotes, Hrun
    by (rewrite Hc1, Hc0, !length_rows_at; exact Hfew).
  cbn [fst snd] in Hvotes, Hrun. unfold committee_votes_response in Hvotes.
  injection Hvotes as <-. rewrite app_nil_r in Hrun.
  destruct (extract_metrics_shape self _ _ _ Hex) as [Hshape Hne].
  set (scores := SvmUtils.score_with_svm (fst entry) (snd entry) M) in *.
  assert (Hslen : length scores = length M) by apply length_score_with_svm.
  set (scores_dict := PyDict.of_items (zip (map str_int arr) scores)) in *.
  assert (Hvals : PyDict.values scores_dict <> []).
  { apply of_items_nonempty. destruct arr as [|a arr]; [congruence|].
    destruct scores as [|s scores]; [cbn in Hslen; cbn in Hshape; lia | discriminate]. }
  destruct (PyDict.values scores_dict) as [|x t] eqn:Evals; [congruence|].
  rewrite SvmUtilsFacts.build_response_fields in Hrun.
  rewrite Hrun. cbn [fst snd committee_service fit_log].
  eexists. exists svm_calls. split; [reflexivity|].
  cbn [Models.scores committee_votes]. split; [|split; [reflexivity|split; [reflexivity|]]].
  - intros E. rewrite E in Evals. discriminate Evals.
  - split; [reflexivity|]. intros X y sw.
    destruct (lookup_or_train_calls _ _ _ _ _ _ _ _ _ _ Hlookup)
      as [-> | (X' & y' & w' & ->)].
    + split; intros [].
    + split; intros [E | []]; discriminate E.
Qed.

(** The candidates that have a row in the metrics frame, as the partition
    loop sees them. *)
Lemma found_row_position (frame : list DataService.MetricsRow) (ids : list Z)
    (row : DataService.MetricsRow) :
  row ∈ frame -> DataService.block_id row ∈ ids ->
  exists i,
    map DataService.block_id (filter (fun r => DataService.block_id r ∈ ids) frame) !! i
    = Some (DataService.block_id row).
Proof.
  intros Hrow Hid. apply list_elem_of_lookup_1. apply list_elem_of_fmap.
  exists row. split; [reflexivity|]. apply list_elem_of_filter. auto.
Qed.

Lemma position_found_row (frame : list DataService.MetricsRow) (ids : list Z)
    (i : nat) (bid : Z) :
  map DataService.block_id (filter (fun r => DataService.block_id r ∈ ids) frame) !! i
    = Some bid ->
  exists row, row ∈ frame /\ DataService.block_id row ∈ ids /\ DataService.block_id row = bid.
Proof.
  intros Hi. apply list_elem_of_lookup_2, list_elem_of_fmap in Hi as (row & -> & Hrow).
  apply list_elem_of_filter in Hrow as [Hid Hrow]. exists row. auto.
Qed.

(** X25. The empty response is returned in exactly these cases (the data
    service being ready): there is no metric column, or no candidate with a
    row in the metrics frame is on the selected list, or no candidate with a
    row in the metrics frame is on the rejected list without being on the
    selected list.  In every other case the response holds scores. *)
Theorem empty_response_exactly_when (self : ClassificationService)
    (request : SimilarityHistogramRequest) :
  cache_ok self -> DataService.is_ready (data_service self) = true ->
  let candidate_row row :=
    exists frame, DataService._metrics_lazy (data_service self) = Some frame /\
                  row ∈ frame /\ DataService.block_id row ∈ block_ids request in
  let selected x := exists item, In item (selected_items request) /\ id item = x in
  let rejected x := exists item, In item (rejected_items request) /\ id item = x in
  exists response,
    fst (get_similarity_score_histogram self request) = Ok response /\
    (scores response = [] <-> response = SvmUtils.empty_response) /\
    (scores response <> [] <->
       DataService.metric_columns (data_service self) <> [] /\
       (exists row, candidate_row row /\ selected (DataService.block_id row)) /\
       (exists row, candidate_row row /\ ~ selected (DataService.block_id row) /\
                    rejected (DataService.block_id row))).
Proof.
  intros Hok Hready. cbv zeta.
  pose proof (label_partition_spec request) as Hspec. cbv zeta in Hspec.
  set (S := fst (add_items (selected_items request) ∅ ∅)) in *.
  set (w1 := snd (add_items (selected_items request) ∅ ∅)) in *.
  set (Rj := fst (add_items (rejected_items request) ∅ w1)) in *.
  assert (HS : forall x, x ∈ S <-> exists item, In item (selected_items request) /\ id item = x)
    by (intros x; apply labelled_ids).
  assert (HR : forall x, x ∈ Rj <-> exists item, In item (rejected_items request) /\ id item = x)
    by (intros x; apply labelled_ids).
  destruct (scorable self request) eqn:Hsc.
  - destruct (scorable_request_steps self request Hok Hsc)
      as (arr & M & sel & rej & w & entry & cache' & svm_calls & votes &
          Hex & Hpart & Hsel & Hrej & Hlookup & Hvotes & Hstep).
    cbv zeta in Hvotes, Hstep. rewrite Hstep. cbn [fst].
    destruct (extract_metrics_shape self _ _ _ Hex) as [Hshape Hne].
    set (scores := SvmUtils.score_with_svm (fst entry) (snd entry) M) in *.
    assert (Hslen : length scores = length M) by apply length_score_with_svm.
    set (scores_dict := PyDict.of_items (zip (map str_int arr) scores)) in *.
    assert (Hvals : PyDict.values scores_dict <> []).
    { apply of_items_nonempty. destruct arr as [|a arr]; [congruence|].
      destruct scores as [|s scores]; [cbn in Hslen; cbn in Hshape; lia | discriminate]. }
    destruct (PyDict.values scores_dict) as [|x t] eqn:Evals; [congruence|].
    rewrite SvmUtilsFacts.build_response_fields.
    assert (Hscores : scores_dict <> []).
    { intros E. rewrite E in Evals. discriminate Evals. }
    eexists. split; [reflexivity|]. cbn [Models.scores]. split.
    + split; [intros E; contradiction | intros E].
      apply (f_equal Models.scores) in E. cbn in E. contradiction.
    + split; [intros _ | intros _; exact Hscores].
      assert (Hframe : exists frame,
                DataService._metrics_lazy (data_service self) = Some frame /\
                DataService.metric_columns (data_service self) <> []).
      { unfold _extract_metrics, DataService.get_metrics in Hex.
        destruct (DataService._metrics_lazy (data_service self)) as [frame|]; [|discriminate].
        exists frame. split; [reflexivity|].
        destruct (filter _ frame); [discriminate|].
        destruct (DataService.metric_columns (data_service self)); [discriminate | discriminate]. }
      destruct Hframe as (frame & Hlazy & Hcols).
      destruct (extract_metrics_rows self _ frame arr M Hlazy Hex) as [Harr _].
      rewrite Hspec in Hpart. injection Hpart as <- <- _.
      split; [exact Hcols|]. split.
      * destruct (sel_from S 0 arr) as [|i rest] eqn:Hs; [congruence|].
        assert (Hin : In i (sel_from S 0 arr)) by (rewrite Hs; left; reflexivity).
        apply in_sel_from in Hin as (_ & bid & Hl & Hbid). rewrite Nat.sub_0_r, Harr in Hl.
        destruct (position_found_row _ _ _ _ Hl) as (row & Hrow & Hid & <-).
        exists row. split; [exists frame; auto | apply HS; exact Hbid].
      * destruct (rej_from S Rj 0 arr) as [|i rest] eqn:Hr; [congruence|].
        assert (Hin : In i (rej_from S Rj 0 arr)) by (rewrite Hr; left; reflexivity).
        apply in_rej_from_iff in Hin as (_ & bid & Hl & Hns & Hbid).
        rewrite Nat.sub_0_r, Harr in Hl.
        destruct (position_found_row _ _ _ _ Hl) as (row & Hrow & Hid & <-).
        exists row. split; [exists frame; auto|]. split.
        -- intros Hsel'. apply Hns, HS. exact Hsel'.
        -- apply HR. exact Hbid.
  - destruct (unscorable_request self request Hsc) as [_ Hempty].
    rewrite (Hempty Hready). eexists. split; [reflexivity|]. cbn [Models.scores SvmUtils.empty_response].
    split; [split; reflexivity|].
    split; [intros E; congruence|].
    intros (Hcols & (rs & (frame & Hlazy & Hrs & Hrsid) & Hrsel) &
            (rr & (frame' & Hlazy' & Hrr & Hrrid) & Hrnot & Hrrej)).
    exfalso. rewrite Hlazy in Hlazy'. injection Hlazy' as <-.
    assert (Htrue : scorable self request = true); [|congruence].
    unfold scorable. rewrite Hready. cbn [andb].
    unfold _extract_metrics, DataService.get_metrics. rewrite Hlazy.
    destruct (found_row_position frame _ rs Hrs Hrsid) as [i Hi].
    destruct (found_row_position frame _ rr Hrr Hrrid) as [j Hj].
    destruct (filter (fun row => DataService.block_id row ∈ block_ids request) frame)
      as [|r0 found] eqn:Hfound; [discriminate Hi|].
    destruct (DataService.metric_columns (data_service self)) as [|c cols]; [congruence|].
    rewrite Hspec.
    assert (Hs : In i (sel_from S 0 (map DataService.block_id (r0 :: found)))).
    { apply in_sel_from. split; [lia|]. exists (DataService.block_id rs).
      rewrite Nat.sub_0_r. split; [exact Hi | apply HS; exact Hrsel]. }
    assert (Hr : In j (rej_from S Rj 0 (map DataService.block_id (r0 :: found)))).
    { apply in_rej_from_iff. split; [lia|]. exists (DataService.block_id rr).
      rewrite Nat.sub_0_r. split; [exact Hj|]. split.
      - intros Hin. apply Hrnot, HS. exact Hin.
      - apply HR. exact Hrrej. }
    destruct (sel_from S 0 _) as [|? ?]; [destruct Hs|].
    destruct (rej_from S Rj 0 _) as [|? ?]; [destruct Hr|]. reflexivity.
Qed.

End estimators.

Section examples.
Let E := Reference.estimators.
Let fresh := __init__ (H := E) six_blocks.
Let one_against_one : SimilarityHistogramRequest :=
  {| selected_items := [ {| id := 1; source := click |} ];
     rejected_items := [ {| id := 4; source := threshold |} ];
     block_ids := [1; 4]%Z |}.

(** The steps of two requests on the six blocks. *)
Lemma fresh_request_steps (request : SimilarityHistogramRequest)
    (arr : list Z) (sel rej : list nat) :
  scorable (H := E) fresh request = true ->
  option_map fst (_extract_metrics fresh (block_ids request)) = Some arr ->
  fst (label_partition (H := E) request arr) = (sel, rej) ->
  exists M w,
    _extract_metrics fresh (block_ids request) = Some (arr, M) /\
    label_partition (H := E) request arr = (sel, rej, w).
Proof.
  intros Hs Harr Hidx.
  destruct (scorable_true (H := E) _ _ Hs) as (_ & arr' & M & sel' & rej' & w & Hex & Hpart & _).
  rewrite Hex in Harr. injection Harr as ->.
  rewrite Hpart in Hidx. injection Hidx as -> ->.
  exists M, w. split; [exact Hex | exact Hpart].
Qed.

Lemma response_is_consistent_witness :
  exists response,
    fst (get_similarity_score_histogram (H := E) fresh three_against_three) = Ok response /\
    total_items response = length (scores response) /\
    list_sum (counts (histogram response)) = total_items response.
Proof.
  destruct (request_answered (H := E) fresh three_against_three
              (init_cache_ok six_blocks) eq_refl) as [response Hrun].
  destruct (response_is_consistent (H := E) fresh three_against_three response
              (init_cache_ok six_blocks) Hrun) as (Htotal & Hsum & _).
  exists response. split; [exact Hrun|]. split; [exact Htotal | exact Hsum].
Defined.

Lemma scores_by_candidate_id_witness :
  exists response model scaler,
    fst (get_similarity_score_histogram (H := E) fresh three_against_three) = Ok response /\
    PyDict.get
      (_svm_cache (snd (get_similarity_score_histogram (H := E) fresh three_against_three)))
      (request_key (H := E) three_against_three) = Some (model, scaler).
Proof.
  destruct (scores_by_candidate_id (H := E) fresh three_against_three
              (default [] (DataService._metrics_lazy six_blocks)))
    as (response & model & scaler & Hrun & Hcached & _);
    [apply init_cache_ok | vm_compute; reflexivity | reflexivity |].
  exists response, model, scaler. split; [exact Hrun | exact Hcached].
Defined.

Lemma cache_miss_fits_margin_classifier_once_witness :
  exists response entry,
    fst (get_similarity_score_histogram (H := E) fresh three_against_three) = Ok response /\
    PyDict.get
      (_svm_cache (snd (get_similarity_score_histogram (H := E) fresh three_against_three)))
      (request_key (H := E) three_against_three) = Some entry.
Proof.
  destruct (fresh_request_steps three_against_three [1; 2; 3; 4; 5; 6]%Z
              [0; 1; 2]%nat [3; 4; 5]%nat) as (M & w & Hex & Hpart);
    [vm_compute; reflexivity | vm_compute; reflexivity | vm_compute; reflexivity |].
  destruct (cache_miss_fits_margin_classifier_once (H := E) fresh three_against_three
              [1; 2; 3; 4; 5; 6]%Z M [0; 1; 2]%nat [3; 4; 5]%nat w)
    as (response & calls & Hrun & _ & Hcached & _);
    [apply init_cache_ok | reflexivity | exact Hex | exact Hpart
     | discriminate | discriminate | reflexivity |].
  exists response. eexists. split; [exact Hrun | exact Hcached].
Defined.

Lemma few_labels_no_committee_witness :
  exists response,
    fst (get_similarity_score_histogram (H := E) fresh one_against_one) = Ok response /\
    scores response <> [] /\ committee_votes response = None.
Proof.
  destruct (fresh_request_steps one_against_one [1; 4]%Z [0%nat] [1%nat])
    as (M & w & Hex & Hpart);
    [vm_compute; reflexivity | vm_compute; reflexivity | vm_compute; reflexivity |].
  destruct (few_labels_no_committee (H := E) fresh one_against_one
              [1; 4]%Z M [0%nat] [1%nat] w)
    as (response & calls & Hrun & Hscores & Hvotes & _);
    [apply init_cache_ok | reflexivity | exact Hex | exact Hpart
     | discriminate | discriminate | left; cbn; lia |].
  exists response. split; [exact Hrun|]. split; [exact Hscores | exact Hvotes].
Defined.

Lemma empty_response_exactly_when_witness :
  exists response,
    fst (get_similarity_score_histogram (H := E) fresh one_against_one) = Ok response /\
    (scores response = [] <-> response = SvmUtils.empty_response).
Proof.
  destruct (empty_response_exactly_when (H := E) fresh one_against_one
              (init_cache_ok six_blocks) eq_refl) as (response & Hrun & Hempty & _).
  exists response. split; [exact Hrun | exact Hempty].
Defined.

End examples.

End ResponseFacts.

(** ** Data files, endpoints and start-up *)
Module AppFacts.
Import Models Classification ClassificationFacts.

Section estimators.
Context `{Estimators}.

(** The data service that [lifespan] builds when [blocks.parquet] is there. *)
Lemma initialize_loaded (dir : DataFiles.DataDir) (rows : list DataFiles.BlockRow) :
  DataFiles.blocks_parquet dir = Some rows ->
  exists ds,
    DataFiles.initialize DataFiles.__init__ dir = (Ok tt, ds) /\
    DataFiles.is_ready ds = true /\
    DataFiles._blocks_df ds = Some rows /\
    match DataFiles.metrics_parquet dir with
    | Some file =>
        DataService._metrics_lazy (DataFiles.metrics ds) = Some (DataFiles.frame file) /\
        DataFiles.metric_columns ds =
          filter (fun c => c <> "block_id"%string) (DataFiles.schema file)
    | None =>
        DataService._metrics_lazy (DataFiles.metrics ds) = None /\
        DataFiles.metric_columns ds = []
    end.
Proof.
  intros Hblocks. unfold DataFiles.initialize. rewrite Hblocks.
  destruct (DataFiles.metrics_parquet dir) as [file|];
    eexists; (split; [reflexivity|]); repeat split; reflexivity.
Qed.

(** A successful start-up, field by field. *)
Lemma lifespan_started (dir : DataFiles.DataDir) (ds : DataFiles.t) :
  DataFiles.initialize DataFiles.__init__ dir = (Ok tt, ds) ->
  Main.lifespan Main.imported dir =
  (Ok tt,
   {| Main.data_service := Some ds;
      Main.api :=
        {| Api._data_service := Some ds;
           Api._classification_service := Some (__init__ (DataFiles.metrics ds));
           Api._cold_start_service := Some (DataFiles.metrics ds) |} |}).
Proof. intros Hinit. unfold Main.lifespan. rewrite Hinit. reflexivity. Qed.

(** X13. Start-up fails exactly when [blocks.parquet] is missing.  It then
    raises [FileNotFoundError] and registers no service: the data service is
    left not ready, [/health] reports it disconnected, and each of the four
    endpoints answers 503. *)
Theorem startup_without_blocks_file (dir : DataFiles.DataDir) :
  (DataFiles.blocks_parquet dir = None <->
   fst (Main.lifespan Main.imported dir) = Raise "FileNotFoundError") /\
  (DataFiles.blocks_parquet dir <> None <->
   fst (Main.lifespan Main.imported dir) = Ok tt) /\
  (DataFiles.blocks_parquet dir = None ->
   let app := snd (Main.lifespan Main.imported dir) in
   Main.api app = Api.unset /\
   Main.health_check app = "disconnected"%string /\
   Api.status_code_of (Api.get_blocks (Main.api app)) = 503%nat /\
   (forall id, Api.status_code_of (Api.get_block_code (Main.api app) id) = 503%nat) /\
   (forall request,
      Api.status_code_of (fst (Api.similarity_score_histogram (Main.api app) request))
      = 503%nat) /\
   (forall request,
      Api.status_code_of (Api.cold_start_representative (Main.api app) request)
      = 503%nat)).
Proof.
  unfold Main.lifespan, DataFiles.initialize.
  destruct (DataFiles.blocks_parquet dir) as [rows|].
  - destruct (DataFiles.metrics_parquet dir); cbn [fst snd];
      (split; [split; discriminate|]); (split; [split; [reflexivity | discriminate]|]);
      discriminate.
  - cbn [fst snd]. split; [split; reflexivity|].
    split; [split; [congruence | discriminate]|].
    intros _. repeat split.
Qed.

(** X14. After a successful start-up [/health] reports the data service
    connected and [GET /blocks] answers 200 with one entry for every row of
    [blocks.parquet], in file order and without the code, with [total_blocks]
    their number and with the metric columns of [metrics.parquet]: its
    columns in file order, [block_id] left out (none without that file). *)
Theorem started_app_lists_blocks (dir : DataFiles.DataDir)
    (rows : list DataFiles.BlockRow) :
  DataFiles.blocks_parquet dir = Some rows ->
  let app := snd (Main.lifespan Main.imported dir) in
  Main.health_check app = "connected"%string /\
  exists listing,
    Api.get_blocks (Main.api app) = Api.Respond listing /\
    ApiModels.total_blocks listing = length rows /\
    length (ApiModels.blocks listing) = length rows /\
    (forall i row, rows !! i = Some row ->
       exists info, ApiModels.blocks listing !! i = Some info /\
         ApiModels.block_id info = DataFiles.block_id row /\
         ApiModels.file_id info = DataFiles.file_id row /\
         ApiModels.file_path info = DataFiles.file_path row /\
         ApiModels.block_type info = DataFiles.block_type row /\
         ApiModels.block_name info = DataFiles.block_name row /\
         ApiModels.language info = DataFiles.language row /\
         ApiModels.start_line info = DataFiles.start_line row /\
         ApiModels.end_line info = DataFiles.end_line row) /\
    ("block_id"%string ∉ ApiModels.metric_columns listing) /\
    match DataFiles.metrics_parquet dir with
    | Some file =>
        ApiModels.metric_columns listing `sublist_of` DataFiles.schema file /\
        forall c, c ∈ DataFiles.schema file -> c <> "block_id"%string ->
                  c ∈ ApiModels.metric_columns listing
    | None => ApiModels.metric_columns listing = []
    end.
Proof.
  intros Hblocks.
  destruct (initialize_loaded dir rows Hblocks) as (ds & Hinit & Hready & Hdf & Hmetrics).
  rewrite (lifespan_started dir ds Hinit). cbn [snd Main.api Main.health_check Main.data_service].
  rewrite Hready. split; [reflexivity|].
  unfold Api.get_blocks, Api.ready_data_service.
  cbn [Api._data_service]. rewrite Hready. cbn [mbind Api.outcome_bind].
  unfold DataFiles.get_all_blocks. rewrite Hdf.
  cbn [mbind Api.outcome_bind Api.call mret Api.outcome_ret].
  eexists. split; [reflexivity|].
  cbn [ApiModels.total_blocks ApiModels.blocks ApiModels.metric_columns].
  rewrite !length_map. split; [reflexivity|]. split; [reflexivity|]. split; [|split].
  - intros i row Hrow. eexists. split.
    + rewrite !list_lookup_fmap, Hrow. reflexivity.
    + repeat split.
  - destruct (DataFiles.metrics_parquet dir) as [file|]; destruct Hmetrics as [_ ->].
    + intros Hin. apply list_elem_of_filter in Hin as [Hne _]. congruence.
    + apply not_elem_of_nil.
  - destruct (DataFiles.metrics_parquet dir) as [file|]; destruct Hmetrics as [_ ->].
    + split; [apply sublist_filter|]. intros c Hc Hne. apply list_elem_of_filter. auto.
    + reflexivity.
Qed.

(** X15. With a ready data service, [GET /blocks/{id}/code] answers 404
    exactly when no row of the block frame carries the id; otherwise it
    answers with the code and the language of one and the same row, the
    first that carries the id.  The default language ["text"] of
    [get_block_language] is never served by the endpoint. *)
Theorem block_code_from_first_row (api : Api.t) (ds : DataFiles.t)
    (df : list DataFiles.BlockRow) (id : Z) :
  Api._data_service api = Some ds -> DataFiles.is_ready ds = true ->
  DataFiles._blocks_df ds = Some df ->
  ((forall row, row ∈ df -> DataFiles.block_id row <> id) <->
   Api.get_block_code api id = Api.HTTPException 404 "Block not found") /\
  (forall before row after,
     df = before ++ row :: after -> DataFiles.block_id row = id ->
     (forall row', row' ∈ before -> DataFiles.block_id row' <> id) ->
     Api.get_block_code api id =
     Api.Respond {| ApiModels.code_block_id := id;
                    ApiModels.code := DataFiles.code row;
                    ApiModels.code_language := DataFiles.language row |}).
Proof.
  intros Hds Hready Hdf.
  assert (Hrun : Api.get_block_code api id =
            match DataFiles.rows_with_id df id with
            | [] => Api.HTTPException 404 "Block not found"
            | row :: _ =>
                Api.Respond {| ApiModels.code_block_id := id;
                               ApiModels.code := DataFiles.code row;
                               ApiModels.code_language := DataFiles.language row |}
            end).
  { unfold Api.get_block_code, Api.ready_data_service.
    rewrite Hds, Hready. cbn [mbind Api.outcome_bind].
    unfold DataFiles.get_block_code, DataFiles.get_block_language. rewrite Hdf.
    destruct (DataFiles.rows_with_id df id); reflexivity. }
  rewrite Hrun. unfold DataFiles.rows_with_id. split; [split|].
  - intros Hnone.
    destruct (filter (fun row => DataFiles.block_id row = id) df) as [|row found] eqn:Hf;
      [reflexivity|].
    exfalso. assert (Hin : row ∈ filter (fun row => DataFiles.block_id row = id) df)
      by (rewrite Hf; left).
    apply list_elem_of_filter in Hin as [Hid Hin]. exact (Hnone row Hin Hid).
  - intros H404 row Hin Hid.
    destruct (filter (fun row => DataFiles.block_id row = id) df) as [|row' found] eqn:Hf;
      [|discriminate H404].
    assert (Hrow : row ∈ filter (fun row => DataFiles.block_id row = id) df)
      by (apply list_elem_of_filter; auto).
    rewrite Hf in Hrow. apply elem_of_nil in Hrow. exact Hrow.
  - intros before row after -> Hid Hfirst.
    rewrite filter_app, filter_cons_True by exact Hid.
    replace (filter (fun row => DataFiles.block_id row = id) before)
      with (@nil DataFiles.BlockRow); [reflexivity|].
    symmetry. clear -Hfirst. induction before as [|r before IH]; [reflexivity|].
    rewrite filter_cons_False by (apply Hfirst; left).
    apply IH. intros row' Hin. apply Hfirst. right. exact Hin.
Qed.

(** The routers after a run of score requests. *)
Lemma serve_routers (requests : list SimilarityHistogramRequest) :
  forall (app : Main.App) (svc : ClassificationService),
  Api._classification_service (Main.api app) = Some svc ->
  Main.serve app requests =
  {| Main.data_service := Main.data_service app;
     Main.api :=
       {| Api._data_service := Api._data_service (Main.api app);
          Api._classification_service := Some (serve svc requests);
          Api._cold_start_service := Api._cold_start_service (Main.api app) |} |}.
Proof.
  induction requests as [|request requests IH]; intros app svc Hsvc.
  - cbn [Main.serve fold_left serve]. destruct app as [ds [a b c]].
    cbn in Hsvc |- *. rewrite Hsvc. reflexivity.
  - unfold Main.serve. cbn [fold_left]. fold (Main.serve
      {| Main.data_service := Main.data_service app;
         Main.api := snd (Api.similarity_score_histogram (Main.api app) request) |} requests).
    rewrite serve_cons.
    rewrite (IH _ (snd (get_similarity_score_histogram svc request))).
    + unfold Api.similarity_score_histogram. rewrite Hsvc.
      destruct (get_similarity_score_histogram svc request) as [r svc']. reflexivity.
    + unfold Api.similarity_score_histogram. cbn [Main.api]. rewrite Hsvc.
      destruct (get_similarity_score_histogram svc request) as [r svc']. reflexivity.
Qed.

(** C4. In the application as started, whatever score requests were served
    before, the score operation runs on the registered classification
    service, whose data service is ready; a request in which no candidate
    has metric data, or the positive list is empty, or the negative list is
    empty, returns (without raising) the empty score mapping, empty bin,
    count and edge sequences, statistics 0 and [total_items = 0].  The
    endpoint answers it with that response and the service is left as it
    was. *)
Theorem degenerate_request_empty_result (dir : DataFiles.DataDir)
    (requests : list SimilarityHistogramRequest) (request : SimilarityHistogramRequest) :
  fst (Main.lifespan Main.imported dir) = Ok tt ->
  let app := Main.serve (snd (Main.lifespan Main.imported dir)) requests in
  exists svc,
    Api._classification_service (Main.api app) = Some svc /\
    DataService.is_ready (data_service svc) = true /\
    (no_metric_data (data_service svc) (block_ids request) \/
     selected_items request = [] \/ rejected_items request = [] ->
     exists response,
       get_similarity_score_histogram svc request = (Ok response, svc) /\
       Api.similarity_score_histogram (Main.api app) request
         = (Api.Respond response, Main.api app) /\
       scores response = [] /\
       bins (histogram response) = [] /\ counts (histogram response) = [] /\
       bin_edges (histogram response) = [] /\
       Models.min (statistics response) = 0 /\ Models.max (statistics response) = 0 /\
       mean (statistics response) = 0 /\ median (statistics response) = 0 /\
       total_items response = 0%nat).
Proof.
  intros Hstart.
  destruct (DataFiles.blocks_parquet dir) as [rows|] eqn:Hblocks.
  2: { unfold Main.lifespan, DataFiles.initialize in Hstart. rewrite Hblocks in Hstart.
       discriminate Hstart. }
  destruct (initialize_loaded dir rows Hblocks) as (ds & Hinit & Hready & _).
  rewrite (lifespan_started dir ds Hinit). cbn [snd].
  match goal with
  | |- context [Main.serve ?a requests] =>
      rewrite (serve_routers requests a (__init__ (DataFiles.metrics ds)) eq_refl)
  end.
  cbn [Main.api Api._classification_service].
  set (svc := serve (__init__ (DataFiles.metrics ds)) requests).
  destruct (serve_keeps requests (__init__ (DataFiles.metrics ds)) (init_cache_ok _))
    as [_ Hds]. fold svc in Hds.
  assert (Hsvc_ready : DataService.is_ready (data_service svc) = true)
    by (rewrite Hds; exact Hready).
  exists svc. split; [reflexivity|]. split; [exact Hsvc_ready|].
  intros Hdeg. exists SvmUtils.empty_response.
  pose proof (degenerate_request svc request Hsvc_ready Hdeg) as Hrun.
  split; [exact Hrun|]. split.
  - unfold Api.similarity_score_histogram. cbn [Api._classification_service].
    rewrite Hrun. reflexivity.
  - cbn. repeat split; reflexivity.
Qed.

(** X16. Once the application has started, every score request is answered
    with a response (status 200), whatever requests were served before: the
    endpoint never answers 503, and the [RuntimeError] of the readiness guard
    of the score operation cannot occur, since a classification service is
    only ever registered over a data service that is ready. *)
Theorem started_app_answers_scores (dir : DataFiles.DataDir)
    (requests : list SimilarityHistogramRequest) (request : SimilarityHistogramRequest) :
  fst (Main.lifespan Main.imported dir) = Ok tt ->
  let app := Main.serve (snd (Main.lifespan Main.imported dir)) requests in
  exists svc response,
    Api._classification_service (Main.api app) = Some svc /\
    DataService.is_ready (data_service svc) = true /\
    fst (Api.similarity_score_histogram (Main.api app) request) = Api.Respond response /\
    Api.status_code_of (fst (Api.similarity_score_histogram (Main.api app) request))
      = 200%nat.
Proof.
  intros Hstart.
  destruct (DataFiles.blocks_parquet dir) as [rows|] eqn:Hblocks.
  2: { unfold Main.lifespan, DataFiles.initialize in Hstart. rewrite Hblocks in Hstart.
       discriminate Hstart. }
  destruct (initialize_loaded dir rows Hblocks) as (ds & Hinit & Hready & _).
  rewrite (lifespan_started dir ds Hinit). cbn [snd].
  match goal with
  | |- context [Main.serve ?a requests] =>
      rewrite (serve_routers requests a (__init__ (DataFiles.metrics ds)) eq_refl)
  end.
  cbn [Main.api Api._classification_service].
  set (svc := serve (__init__ (DataFiles.metrics ds)) requests).
  destruct (serve_keeps requests (__init__ (DataFiles.metrics ds)) (init_cache_ok _))
    as [Hok Hds]. fold svc in Hok, Hds.
  assert (Hsvc_ready : DataService.is_ready (data_service svc) = true)
    by (rewrite Hds; exact Hready).
  destruct (request_answered svc request Hok Hsvc_ready) as [response Hrun].
  exists svc, response. split; [reflexivity|]. split; [exact Hsvc_ready|].
  unfold Api.similarity_score_histogram. cbn [Api._classification_service].
  destruct (get_similarity_score_histogram svc request) as [r svc'].
  cbn [fst] in Hrun |- *. rewrite Hrun. split; reflexivity.
Qed.

(** X17. When [metrics.parquet] is missing the application still starts,
    but without features: every score request, whatever was served before,
    gets the empty response ([total_items] 0, no scores, no committee votes)
    and trains nothing, and every cold-start request is answered from the
    random fallback over its own candidate list. *)
Theorem no_metrics_file_degrades (dir : DataFiles.DataDir)
    (rows : list DataFiles.BlockRow)
    (requests : list SimilarityHistogramRequest) :
  DataFiles.blocks_parquet dir = Some rows ->
  DataFiles.metrics_parquet dir = None ->
  let started := snd (Main.lifespan Main.imported dir) in
  let app := Main.serve started requests in
  Main.api app = Main.api started /\
  (forall request,
     Api.similarity_score_histogram (Main.api app) request =
     (Api.Respond SvmUtils.empty_response, Main.api app)) /\
  (forall request,
     Api.cold_start_representative (Main.api app) request =
     match ColdStart._random_fallback (ApiModels.block_ids request)
             (ApiModels.num_suggestions request) with
     | Ok ids => Api.Respond {| ApiModels.suggestion_ids := ids |}
     | Raise e => Api.Failure e
     end).
Proof.
  intros Hblocks Hmetrics.
  destruct (initialize_loaded dir rows Hblocks) as (ds & Hinit & Hready & _ & Hnone).
  rewrite Hmetrics in Hnone. destruct Hnone as [Hlazy _].
  rewrite (lifespan_started dir ds Hinit). cbn [snd].
  set (svc0 := __init__ (DataFiles.metrics ds)).
  assert (Hdeg : forall request,
            get_similarity_score_histogram svc0 request = (Ok SvmUtils.empty_response, svc0)).
  { intros request. apply degenerate_request; [exact Hready|]. left.
    unfold no_metric_data. cbn [svc0 __init__ data_service]. rewrite Hlazy. exact I. }
  assert (Hserve : forall reqs, serve svc0 reqs = svc0).
  { induction reqs as [|r reqs IH]; [reflexivity|]. rewrite serve_cons, Hdeg. exact IH. }
  match goal with
  | |- context [Main.serve ?a requests] => rewrite (serve_routers requests a svc0 eq_refl)
  end.
  cbn [Main.api Main.data_service
    Api._data_service Api._classification_service Api._cold_start_service].
  rewrite Hserve. split; [reflexivity|]. split.
  - intros request. unfold Api.similarity_score_histogram.
    cbn [Api._classification_service]. rewrite Hdeg. reflexivity.
  - intros request. unfold Api.cold_start_representative.
    cbn [Api._cold_start_service]. unfold ColdStart.get_suggestions, DataService.get_metrics.
    rewrite Hlazy. destruct (ColdStart._random_fallback _ _); reflexivity.
Qed.

End estimators.

Lemma started_app_lists_blocks_witness :
  Main.health_check (H := Reference.estimators)
    (snd (Main.lifespan (H := Reference.estimators) Main.imported DataFiles.blocks_only))
  = "connected"%string.
Proof.
  exact (proj1 (started_app_lists_blocks (H := Reference.estimators)
                  DataFiles.blocks_only _ eq_refl)).
Defined.

Lemma block_code_from_first_row_witness :
  exists response,
    Api.get_block_code (H := Reference.estimators)
      (Main.api (snd (Main.lifespan (H := Reference.estimators)
                        Main.imported DataFiles.blocks_only))) 2
    = Api.Respond response /\
    ApiModels.code_language response = "go"%string.
Proof.
  set (api := Main.api (snd (Main.lifespan (H := Reference.estimators)
                               Main.imported DataFiles.blocks_only))).
  destruct (block_code_from_first_row (H := Reference.estimators) api
              (default DataFiles.__init__ (Api._data_service api))
              (default [] (DataFiles.blocks_parquet DataFiles.blocks_only)) 2
              eq_refl eq_refl eq_refl) as [_ Hfound].
  eexists. split.
  - refine (Hfound [_] _ [] eq_refl eq_refl _).
    intros row' Hin. apply list_elem_of_singleton in Hin. subst row'. discriminate.
  - reflexivity.
Defined.

(** A request without positives, served after an earlier request while
    metrics are loaded. *)
Lemma degenerate_request_empty_result_witness :
  let earlier :=
    {| selected_items := [ {| id := 1; source := click |} ];
       rejected_items := [ {| id := 3; source := threshold |} ];
       block_ids := [1; 2; 3]%Z |} in
  let app := Main.serve (H := Reference.estimators)
               (snd (Main.lifespan (H := Reference.estimators)
                       Main.imported DataFiles.blocks_and_metrics))
               [earlier] in
  let request :=
    {| selected_items := [];
       rejected_items := [ {| id := 2; source := click |} ];
       block_ids := [1; 2; 3]%Z |} in
  exists response,
    fst (Api.similarity_score_histogram (H := Reference.estimators) (Main.api app) request)
      = Api.Respond response /\
    scores response = [] /\ total_items response = 0%nat.
Proof.
  intros earlier app request.
  destruct (degenerate_request_empty_result (H := Reference.estimators)
              DataFiles.blocks_and_metrics [earlier] request eq_refl)
    as (svc & _ & _ & Hdeg).
  destruct (Hdeg (or_intror (or_introl eq_refl)))
    as (response & _ & Hrun & Hscores & _ & _ & _ & _ & _ & _ & _ & Htotal).
  exists response. split; [|split; [exact Hscores | exact Htotal]].
  unfold app. rewrite Hrun. reflexivity.
Defined.

Lemma started_app_answers_scores_witness :
  exists response,
    fst (Api.similarity_score_histogram (H := Reference.estimators)
           (Main.api (Main.serve (H := Reference.estimators)
                        (snd (Main.lifespan (H := Reference.estimators)
                                Main.imported DataFiles.blocks_only))
                        [three_against_three]))
           three_against_three)
    = Api.Respond response.
Proof.
  destruct (started_app_answers_scores (H := Reference.estimators) DataFiles.blocks_only
              [three_against_three] three_against_three eq_refl)
    as (svc & response & _ & _ & Hrun & _).
  exists response. exact Hrun.
Defined.

Lemma no_metrics_file_degrades_witness :
  fst (Api.similarity_score_histogram (H := Reference.estimators)
         (Main.api (Main.serve (H := Reference.estimators)
                      (snd (Main.lifespan (H := Reference.estimators)
                              Main.imported DataFiles.blocks_only))
                      [three_against_three]))
         three_against_three)
  = Api.Respond SvmUtils.empty_response.
Proof.
  destruct (no_metrics_file_degrades (H := Reference.estimators) DataFiles.blocks_only _
              [three_against_three] eq_refl eq_refl) as (_ & Hscore & _).
  rewrite (Hscore three_against_three). reflexivity.
Defined.

End AppFacts.

(** ** The weighted MLP classifier *)
Module MlpFacts.
Import PytorchMlp PyDictFacts VoteFacts ResponseFacts.

(** *** The network *)

Lemma forward_width_raise (layers : list Layer) (e : string) :
  fold_left (fun acc layer =>
               w ← acc;
               match layer with
               | Linear in_features out_features =>
                   if decide (w = in_features) then Ok out_features
                   else Raise "RuntimeError"
               | ReLU => Ok w
               end)
            layers (Raise e) = Raise e.
Proof. induction layers as [|layer layers IH]; [reflexivity | exact IH]. Qed.

Lemma forward_width_app (l1 l2 : list Layer) (w : nat) :
  forward_width (l1 ++ l2) w =
  match forward_width l1 w with
  | Ok w' => forward_width l2 w'
  | Raise e => Raise e
  end.
Proof.
  unfold forward_width. rewrite fold_left_app.
  destruct (fold_left _ l1 (Ok w)) as [w'|e]; [reflexivity|].
  apply forward_width_raise.
Qed.

(** The loop of [_MLPNetwork.__init__]: the layers built so far take rows of
    the input width to rows of [prev_dim] values. *)
Lemma hidden_layers_width (hidden : list nat) :
  forall (layers : list Layer) (prev_dim w0 : nat),
  forward_width layers w0 = Ok prev_dim ->
  let r := fold_left (fun '(layers, prev_dim) hidden_dim =>
                        (layers ++ [Linear prev_dim hidden_dim; ReLU], hidden_dim))
                     hidden (layers, prev_dim) in
  forward_width (fst r) w0 = Ok (snd r) /\
  length (fst r) = (length layers + 2 * length hidden)%nat /\
  exists more, fst r = layers ++ more /\
    (layers = [] -> hidden <> [] -> exists out rest, more = Linear prev_dim out :: rest).
Proof.
  induction hidden as [|h hidden IH]; intros layers prev_dim w0 Hw; cbn [fold_left].
  - cbn [fst snd length]. split; [exact Hw|]. split; [lia|].
    exists []. rewrite app_nil_r. split; [reflexivity | congruence].
  - destruct (IH (layers ++ [Linear prev_dim h; ReLU]) h w0) as (Hfw & Hlen & more & Hmore & _).
    { rewrite forward_width_app, Hw. unfold forward_width. cbn.
      rewrite decide_True by reflexivity. reflexivity. }
    cbv zeta in Hfw, Hlen, Hmore |- *.
    split; [exact Hfw|]. split; [rewrite Hlen, length_app; cbn [length]; lia|].
    exists ([Linear prev_dim h; ReLU] ++ more). split.
    + rewrite Hmore, <- app_assoc. reflexivity.
    + intros _ _. eexists. eexists. reflexivity.
Qed.

(** X18. The network built for [input_dim] features, any hidden layer
    sizes and [n_classes] classes is well shaped: it has a linear layer and a
    ReLU for every hidden size and one more linear layer, each layer takes
    what the one before it gives, so that a row of [input_dim] values comes
    out as [n_classes] logits, and a row of any other width is refused. *)
Theorem network_maps_features_to_classes (input_dim : nat)
    (hidden_layer_sizes : list nat) (n_classes : nat) :
  let network := _MLPNetwork input_dim hidden_layer_sizes n_classes in
  length network = (2 * length hidden_layer_sizes + 1)%nat /\
  forward_width network input_dim = Ok n_classes /\
  forall width, width <> input_dim -> forward_width network width = Raise "RuntimeError".
Proof.
  cbv zeta. unfold _MLPNetwork.
  pose proof (hidden_layers_width hidden_layer_sizes [] input_dim input_dim eq_refl) as Hloop.
  cbv zeta in Hloop.
  destruct (fold_left _ hidden_layer_sizes ([], input_dim)) as [layers prev_dim] eqn:Hfold.
  cbn [fst snd] in Hloop. destruct Hloop as (Hfw & Hlen & more & Hmore & Hfirst).
  split; [|split].
  - rewrite length_app, Hlen. cbn [length]. lia.
  - rewrite forward_width_app, Hfw. unfold forward_width. cbn.
    rewrite decide_True by reflexivity. reflexivity.
  - intros width Hne. destruct hidden_layer_sizes as [|h hidden].
    + cbn [fold_left] in Hfold. injection Hfold as <- <-.
      unfold forward_width. cbn. rewrite decide_False by exact Hne. reflexivity.
    + destruct (Hfirst eq_refl ltac:(discriminate)) as (out & rest & ->).
      cbn [app] in Hmore. subst layers.
      unfold forward_width. cbn [app fold_left mbind result_bind].
      rewrite decide_False by exact Hne. apply forward_width_raise.
Qed.

(** *** The encoding of the labels *)

Lemma insert_unique_elem (x c : Z) (l : list Z) :
  c ∈ insert_unique x l <-> c = x \/ c ∈ l.
Proof.
  induction l as [|y t IH]; cbn [insert_unique].
  - rewrite list_elem_of_singleton, elem_of_nil. tauto.
  - destruct (x <? y)%Z eqn:Hlt; [rewrite !elem_of_cons; tauto|].
    destruct (x =? y)%Z eqn:Heq.
    + apply Z.eqb_eq in Heq. subst y. rewrite !elem_of_cons. tauto.
    + rewrite !elem_of_cons, IH. tauto.
Qed.

Lemma insert_unique_sorted (x : Z) (l : list Z) :
  Sorted Z.lt l -> Sorted Z.lt (insert_unique x l).
Proof.
  induction l as [|y t IH]; intros Hs; cbn [insert_unique].
  - repeat constructor.
  - destruct (x <? y)%Z eqn:Hlt.
    + apply Z.ltb_lt in Hlt. constructor; [exact Hs | constructor; exact Hlt].
    + destruct (x =? y)%Z eqn:Heq; [exact Hs|].
      apply Z.ltb_ge in Hlt. apply Z.eqb_neq in Heq.
      apply Sorted_inv in Hs as [Hs Hhd]. constructor; [apply IH; exact Hs|].
      destruct t as [|z t]; cbn [insert_unique].
      * constructor. lia.
      * apply HdRel_inv in Hhd.
        destruct (x <? z)%Z; [constructor; lia|].
        destruct (x =? z)%Z; constructor; exact Hhd.
Qed.

Lemma unique_elem (y : list Z) (c : Z) : c ∈ unique y <-> c ∈ y.
Proof.
  unfold unique. induction y as [|x y IH]; cbn [fold_right]; [reflexivity|].
  rewrite insert_unique_elem, elem_of_cons, IH. reflexivity.
Qed.

Lemma unique_sorted (y : list Z) : Sorted Z.lt (unique y).
Proof.
  unfold unique. induction y as [|x y IH]; cbn [fold_right]; [constructor|].
  apply insert_unique_sorted. exact IH.
Qed.

Lemma sorted_lt_NoDup (l : list Z) : Sorted Z.lt l -> NoDup l.
Proof.
  intros Hs. apply Sorted_StronglySorted in Hs; [|intros a b c; lia].
  induction Hs as [|x l Hs IH Hall]; constructor; [|exact IH].
  intros Hin. rewrite Forall_forall in Hall. specialize (Hall x Hin). lia.
Qed.

(** Looking a key up in a list of pairs with distinct keys. *)
Lemma get_lookup {K V : Type} `{EqDecision K} (d : list (K * V)) (i : nat) (k : K) (v : V) :
  NoDup (map fst d) -> d !! i = Some (k, v) -> PyDict.get d k = Some v.
Proof.
  revert i. induction d as [|[k' v'] d IH]; intros i Hnd Hi; [discriminate|].
  cbn [map fst] in Hnd. apply NoDup_cons in Hnd as [Hk' Hnd]. cbn [PyDict.get].
  destruct i as [|i].
  - injection Hi as -> ->. rewrite decide_True by reflexivity. reflexivity.
  - cbn in Hi. destruct (decide (k' = k)) as [-> | _]; [|exact (IH i Hnd Hi)].
    exfalso. apply Hk'. apply list_elem_of_fmap. exists (k, v).
    split; [reflexivity|]. eapply list_elem_of_lookup_2. exact Hi.
Qed.

Lemma label_map_lookup (classes : list Z) (i : nat) (c : Z) :
  NoDup classes -> classes !! i = Some c -> PyDict.get (label_map classes) c = Some i.
Proof.
  intros Hnd Hi. unfold label_map.
  assert (Hfst : map fst (zip classes (seq 0 (length classes))) = classes)
    by (apply fst_zip; rewrite length_seq; lia).
  rewrite of_items_NoDup by (rewrite Hfst; exact Hnd).
  apply (get_lookup _ i); [rewrite Hfst; exact Hnd|].
  apply lookup_zip_with_Some. exists c, i. split; [reflexivity|]. split; [exact Hi|].
  apply lookup_seq. split; [reflexivity|]. eapply lookup_lt_Some. exact Hi.
Qed.

(** X19. The label encoding of [fit] and the decoding of [predict] are
    inverse to each other: the classes are the distinct labels in increasing
    order, every label of the training data is mapped to its position among
    the classes (no [KeyError]), and indexing the classes with the mapped
    labels gives the labels back. *)
Theorem labels_round_trip (y : list Z) :
  let classes := unique y in
  Sorted Z.lt classes /\
  (forall c, c ∈ classes <-> c ∈ y) /\
  exists y_mapped,
    map_labels classes y = Ok y_mapped /\
    length y_mapped = length y /\
    Forall (fun idx => (idx < length classes)%nat) y_mapped /\
    take_at classes y_mapped = Ok y.
Proof.
  cbv zeta. split; [apply unique_sorted|]. split; [apply unique_elem|].
  pose proof (sorted_lt_NoDup _ (unique_sorted y)) as Hnd.
  assert (Hall : forall l, (forall c, c ∈ l -> c ∈ unique y) ->
            exists mapped,
              mapM (fun label => match PyDict.get (label_map (unique y)) label with
                                 | Some idx => Ok idx
                                 | None => Raise "KeyError"
                                 end) l = Ok mapped /\
              length mapped = length l /\
              Forall (fun idx => (idx < length (unique y))%nat) mapped /\
              take_at (unique y) mapped = Ok l).
  { induction l as [|c l IH]; intros Hl.
    - exists []. repeat split. constructor.
    - destruct IH as (mapped & Hrun & Hlen & Hlt & Hback).
      { intros c' Hc'. apply Hl. right. exact Hc'. }
      destruct (list_elem_of_lookup_1 _ c (Hl c ltac:(left))) as [i Hi].
      exists (i :: mapped). cbn [mapM].
      rewrite (label_map_lookup _ i c Hnd Hi). cbn [mbind result_bind].
      rewrite Hrun. cbn [mbind result_bind mret result_ret length].
      split; [reflexivity|]. split; [lia|]. split.
      + constructor; [eapply lookup_lt_Some; exact Hi | exact Hlt].
      + unfold take_at in *. cbn [mapM]. rewrite Hi. cbn [mbind result_bind].
        rewrite Hback. reflexivity. }
  destruct (Hall y) as (mapped & Hrun & Hlen & Hlt & Hback).
  { intros c Hc. apply unique_elem. exact Hc. }
  exists mapped. unfold map_labels. auto.
Qed.

(** *** The split into training and validation samples *)

Lemma take_at_ok {A : Type} (a : list A) (idx : list nat) :
  Forall (fun i => (i < length a)%nat) idx ->
  exists out, take_at a idx = Ok out /\ length out = length idx /\
    forall p i, idx !! p = Some i -> out !! p = a !! i.
Proof.
  unfold take_at. induction idx as [|i idx IH]; intros Hall.
  - exists []. repeat split. intros p i Hp. discriminate Hp.
  - apply Forall_cons in Hall as [Hi Hall]. destruct (IH Hall) as (out & Hrun & Hlen & Hat).
    destruct (lookup_lt_is_Some_2 a i Hi) as [x Hx].
    exists (x :: out). cbn [mapM]. rewrite Hx. cbn [mbind result_bind]. rewrite Hrun.
    cbn [mbind result_bind mret result_ret length]. split; [reflexivity|]. split; [lia|].
    intros [|p] j Hp.
    + injection Hp as <-. symmetry. exact Hx.
    + apply Hat. exact Hp.
Qed.

Lemma slices_cover {A : Type} (l : list A) (k : Z) : slice_to l k ++ slice_from l k = l.
Proof. unfold slice_to, slice_from. destruct (0 <=? k)%Z; apply take_drop. Qed.

Section net.
Context {Net : Type}.
Implicit Types self : WeightedMLPClassifier Net.

Lemma n_val_bounds self (n : nat) :
  ((1 <= n)%nat -> (0 <= n_val_of self n <= Z.of_nat n - 1)%Z) /\
  ((2 <= n)%nat -> (1 <= n_val_of self n)%Z).
Proof.
  unfold n_val_of.
  set (wanted := Z.max 1 (py_int (INR n * validation_fraction self))).
  assert (Hwanted : (1 <= wanted)%Z) by (unfold wanted; lia).
  destruct (Z.of_nat n - wanted <? 1)%Z eqn:Hfew.
  - apply Z.ltb_lt in Hfew. split; lia.
  - apply Z.ltb_ge in Hfew. split; lia.
Qed.

(** X20. [_train_val_split] uses every sample exactly once: the training
    and the validation indices together are a rearrangement of all indices,
    and each training (validation) row comes with its own label and its own
    weight.  With at least one sample the training part is not empty, with
    at least two the validation part is not empty either, and the validation
    part has [n_val] samples. *)
Theorem train_val_split_partitions self (shuffle : list nat -> list nat)
    (X : matrix) (y : list nat) (sample_weight : vector) :
  (forall l, shuffle l ≡ₚ l) ->
  length X = length y -> length sample_weight = length y ->
  exists train_idx val_idx X_train X_val y_train y_val w_train w_val,
    _train_val_split self shuffle X y sample_weight
      = Ok (X_train, X_val, y_train, y_val, w_train, w_val) /\
    val_idx ++ train_idx ≡ₚ seq 0 (length y) /\
    (forall p i, train_idx !! p = Some i ->
       X_train !! p = X !! i /\ y_train !! p = y !! i /\
       w_train !! p = sample_weight !! i) /\
    (forall p i, val_idx !! p = Some i ->
       X_val !! p = X !! i /\ y_val !! p = y !! i /\
       w_val !! p = sample_weight !! i) /\
    (length X_train = length train_idx /\ length y_train = length train_idx /\
     length w_train = length train_idx) /\
    (length X_val = length val_idx /\ length y_val = length val_idx /\
     length w_val = length val_idx) /\
    (length val_idx + length train_idx = length y)%nat /\
    ((1 <= length y)%nat ->
       (1 <= length train_idx)%nat /\
       Z.of_nat (length val_idx) = n_val_of self (length y)) /\
    ((2 <= length y)%nat -> (1 <= length val_idx)%nat).
Proof.
  intros Hshuffle HX Hw. unfold _train_val_split.
  set (n := length y). set (indices := shuffle (seq 0 n)).
  set (n_val := n_val_of self n).
  set (val_idx := slice_to indices n_val). set (train_idx := slice_from indices n_val).
  assert (Hcover : val_idx ++ train_idx = indices) by apply slices_cover.
  assert (Hperm : val_idx ++ train_idx ≡ₚ seq 0 n) by (rewrite Hcover; apply Hshuffle).
  assert (Hlen : length indices = n)
    by (unfold indices; rewrite (Permutation_length (Hshuffle _)); apply length_seq).
  assert (Hvalid : forall i, i ∈ val_idx ++ train_idx -> (i < n)%nat).
  { intros i Hi. rewrite Hperm in Hi. apply elem_of_seq in Hi. lia. }
  assert (Htrain : Forall (fun i => (i < n)%nat) train_idx).
  { apply Forall_forall. intros i Hi. apply Hvalid, elem_of_app. right. exact Hi. }
  assert (Hval : Forall (fun i => (i < n)%nat) val_idx).
  { apply Forall_forall. intros i Hi. apply Hvalid, elem_of_app. left. exact Hi. }
  destruct (take_at_ok X train_idx) as (X_train & HXt & HXtl & HXta); [rewrite HX; exact Htrain|].
  destruct (take_at_ok X val_idx) as (X_val & HXv & HXvl & HXva); [rewrite HX; exact Hval|].
  destruct (take_at_ok y train_idx) as (y_train & Hyt & Hytl & Hyta); [exact Htrain|].
  destruct (take_at_ok y val_idx) as (y_val & Hyv & Hyvl & Hyva); [exact Hval|].
  destruct (take_at_ok sample_weight train_idx) as (w_train & Hwt & Hwtl & Hwta);
    [rewrite Hw; exact Htrain|].
  destruct (take_at_ok sample_weight val_idx) as (w_val & Hwv & Hwvl & Hwva);
    [rewrite Hw; exact Hval|].
  exists train_idx, val_idx, X_train, X_val, y_train, y_val, w_train, w_val.
  rewrite HXt, HXv, Hyt, Hyv, Hwt, Hwv. cbn [mbind result_bind mret result_ret].
  split; [reflexivity|]. split; [exact Hperm|].
  split; [intros p i Hp; auto|]. split; [intros p i Hp; auto|].
  split; [auto|]. split; [auto|].
  assert (Hsum : (length val_idx + length train_idx = n)%nat)
    by (rewrite <- length_app, Hcover; exact Hlen).
  split; [exact Hsum|].
  destruct (n_val_bounds self n) as [Hone Htwo]. fold n_val in Hone, Htwo.
  assert (Hvlen : (1 <= n)%nat -> Z.of_nat (length val_idx) = n_val).
  { intros Hn. specialize (Hone Hn). unfold val_idx, slice_to.
    destruct (0 <=? n_val)%Z eqn:Hpos; [|apply Z.leb_gt in Hpos; lia].
    rewrite length_take, Hlen. lia. }
  split.
  - intros Hn. specialize (Hvlen Hn). specialize (Hone Hn). split; [lia | exact Hvlen].
  - intros Hn. specialize (Hvlen ltac:(lia)). specialize (Htwo Hn). lia.
Qed.

(** *** Early stopping *)

(** The epoch loop with early stopping, started before epoch [k] with the
    state the loop has there: it runs through its epochs, or it leaves at an
    epoch that ends a run of epochs without improvement. *)
Lemma training_loop_stops self (val_loss : nat -> R) :
  early_stopping self = true ->
  forall (m k : nat) (best : option R) (no_improve epoch : nat),
  (k = 0%nat -> best = None) ->
  ((0 < k)%nat ->
     epoch = (k - 1)%nat /\
     exists b, (b < k)%nat /\ best = Some (val_loss b) /\ no_improve = (k - 1 - b)%nat /\
       (forall e, (e < b)%nat -> val_loss b < val_loss e) /\
       (forall e, (b < e < k)%nat -> val_loss b <= val_loss e) /\
       (no_improve = 0%nat \/ (no_improve < n_iter_no_change self)%nat)) ->
  let last := training_loop self val_loss (seq k m) best no_improve epoch in
  (m = 0%nat /\ last = epoch) \/
  ((0 < m)%nat /\ last = (k + m - 1)%nat) \/
  (exists b, last = (b + Nat.max 1 (n_iter_no_change self))%nat /\ (last < k + m)%nat /\
     (forall e, (e < b)%nat -> val_loss b < val_loss e) /\
     (forall e, (b < e <= last)%nat -> val_loss b <= val_loss e)).
Proof.
  intros Hes. induction m as [|m IH]; intros k best no_improve epoch Hzero Hpos; cbv zeta.
  - left. split; reflexivity.
  - cbn [seq training_loop]. rewrite Hes.
    destruct (improves (val_loss k) best) eqn:Himp.
    + specialize (IH (S k) (Some (val_loss k)) 0%nat k ltac:(discriminate)).
      destruct IH as [[-> Hlast] | [[Hm Hlast] | (b & Hlast & Hlt & Hbest & Hafter)]].
      * intros _. split; [lia|]. exists k. split; [lia|]. split; [reflexivity|].
        split; [lia|]. split; [|split; [intros e He; lia | left; reflexivity]].
        intros e He. destruct k as [|k']; [lia|].
        destruct (Hpos ltac:(lia)) as (_ & b0 & Hb0 & -> & _ & Hbefore & Hsince & _).
        cbn [improves] in Himp.
        destruct (Rlt_dec (val_loss (S k')) (val_loss b0)) as [Hless | _]; [|discriminate].
        destruct (Nat.lt_trichotomy e b0) as [Hlt | [-> | Hgt]].
        -- specialize (Hbefore e Hlt). lra.
        -- exact Hless.
        -- specialize (Hsince e ltac:(lia)). lra.
      * right. left. split; [lia|]. rewrite Hlast. lia.
      * right. left. split; [lia|]. rewrite Hlast. lia.
      * right. right. exists b. split; [exact Hlast|]. split; [lia|]. auto.
    + destruct k as [|k']; [rewrite (Hzero eq_refl) in Himp; discriminate Himp|].
      destruct (Hpos ltac:(lia)) as (-> & b0 & Hb0 & -> & Hni & Hbefore & Hsince & Hpatience).
      cbn [improves] in Himp.
      destruct (Rlt_dec (val_loss (S k')) (val_loss b0)) as [_ | Hnot]; [discriminate|].
      destruct (n_iter_no_change self <=? S no_improve)%nat eqn:Hbreak.
      * apply Nat.leb_le in Hbreak. right. right. exists b0.
        split; [lia|]. split; [lia|]. split; [exact Hbefore|].
        intros e He. destruct (Nat.eq_dec e (S k')) as [-> | Hne]; [lra|].
        apply Hsince. lia.
      * apply Nat.leb_gt in Hbreak.
        specialize (IH (S (S k')) (Some (val_loss b0)) (S no_improve) (S k')
                       ltac:(discriminate)).
        destruct IH as [[-> Hlast] | [[Hm Hlast] | (b & Hlast & Hlt & Hbest & Hafter)]].
        -- intros _. split; [lia|]. exists b0. split; [lia|]. split; [reflexivity|].
           split; [lia|]. split; [exact Hbefore|]. split; [|right; exact Hbreak].
           intros e He. destruct (Nat.eq_dec e (S k')) as [-> | Hne]; [lra|].
           apply Hsince. lia.
        -- right. left. split; [lia|]. rewrite Hlast. lia.
        -- right. left. split; [lia|]. rewrite Hlast. lia.
        -- right. right. exists b. split; [exact Hlast|]. split; [lia|]. auto.
Qed.

Lemma training_loop_plain self (val_loss : nat -> R) :
  early_stopping self = false ->
  forall (m k : nat) (best : option R) (no_improve epoch : nat),
  training_loop self val_loss (seq k m) best no_improve epoch =
  match m with 0%nat => epoch | S _ => (k + m - 1)%nat end.
Proof.
  intros Hes. induction m as [|m IH]; intros k best no_improve epoch; [reflexivity|].
  cbn [seq training_loop]. rewrite Hes, IH. destruct m; lia.
Qed.

Lemma training_loop_improving self (val_loss : nat -> R) :
  early_stopping self = true ->
  forall (m k : nat) (best : option R) (epoch : nat),
  (k = 0%nat -> best = None) ->
  ((0 < k)%nat -> best = Some (val_loss (k - 1)%nat)) ->
  (forall e, (k <= S e < k + m)%nat -> val_loss (S e) < val_loss e) ->
  training_loop self val_loss (seq k m) best 0 epoch =
  match m with 0%nat => epoch | S _ => (k + m - 1)%nat end.
Proof.
  intros Hes. induction m as [|m IH]; intros k best epoch Hzero Hpos Hdown; [reflexivity|].
  cbn [seq training_loop]. rewrite Hes.
  assert (Himp : improves (val_loss k) best = true).
  { destruct k as [|k']; [rewrite (Hzero eq_refl); reflexivity|].
    rewrite (Hpos ltac:(lia)). cbn [improves]. replace (S k' - 1)%nat with k' by lia.
    destruct (Rlt_dec (val_loss (S k')) (val_loss k')) as [_ | Hnot]; [reflexivity|].
    exfalso. apply Hnot, Hdown. lia. }
  rewrite Himp, IH.
  - destruct m; lia.
  - discriminate.
  - intros _. replace (S k - 1)%nat with k by lia. reflexivity.
  - intros e He. apply Hdown. lia.
Qed.

(** X21. How long training runs.  [n_iter_] is at least 1 (also for
    [max_iter = 0], when no epoch runs) and at most [max_iter] otherwise.
    Without early stopping, and with early stopping while every epoch lowers
    the validation loss, all [max_iter] epochs run.  When training stops
    before [max_iter], it stops [max(1, n_iter_no_change)] epochs after the
    epoch whose validation loss was lower than that of every epoch before
    it, and no epoch since has done better. *)
Theorem early_stopping_epochs self (val_loss : nat -> R) :
  let n := n_iter_after_fit self val_loss in
  (1 <= n <= Nat.max 1 (max_iter self))%nat /\
  (early_stopping self = false -> n = Nat.max 1 (max_iter self)) /\
  ((forall e, (S e < max_iter self)%nat -> val_loss (S e) < val_loss e) ->
   n = Nat.max 1 (max_iter self)) /\
  ((n < max_iter self)%nat ->
   early_stopping self = true /\
   exists best_epoch,
     n = (best_epoch + Nat.max 1 (n_iter_no_change self) + 1)%nat /\
     (forall e, (e < best_epoch)%nat -> val_loss best_epoch < val_loss e) /\
     (forall e, (best_epoch < e < n)%nat -> val_loss best_epoch <= val_loss e)).
Proof.
  cbv zeta. unfold n_iter_after_fit.
  destruct (early_stopping self) eqn:Hes.
  - pose proof (training_loop_stops self val_loss Hes (max_iter self) 0 None 0 0
                  ltac:(reflexivity) ltac:(lia)) as Hrun.
    cbv zeta in Hrun.
    set (last := training_loop self val_loss (seq 0 (max_iter self)) None 0 0) in *.
    split; [|split; [discriminate|split]].
    + destruct Hrun as [[Hm ->] | [[Hm ->] | (b & _ & Hlt & _)]]; lia.
    + intros Hdown. unfold last.
      rewrite (training_loop_improving self val_loss Hes (max_iter self) 0 None 0);
        [destruct (max_iter self); lia | reflexivity | lia |].
      intros e He. apply Hdown. lia.
    + intros Hearly. split; [reflexivity|].
      destruct Hrun as [[Hm Hlast] | [[Hm Hlast] | (b & Hlast & Hlt & Hbest & Hafter)]];
        [lia | lia |].
      exists b. split; [lia|]. split; [exact Hbest|].
      intros e He. apply Hafter. lia.
  - rewrite (training_loop_plain self val_loss Hes).
    split; [destruct (max_iter self); lia|]. split; [intros _; destruct (max_iter self); lia|].
    split; [intros _; destruct (max_iter self); lia|].
    intros Hearly. destruct (max_iter self); lia.
Qed.

(** *** Prediction *)

Lemma torch_max_index_spec (logits : vector) :
  logits <> [] ->
  exists i, torch_max_index logits = Ok i /\ (i < length logits)%nat /\
    forall j, (j < length logits)%nat -> nth j logits 0 <= nth i logits 0.
Proof.
  destruct logits as [|x t]; [congruence|]. intros _.
  destruct (NpFacts.first_max_spec t x) as (Hlt & Hnth & Hmax & _).
  exists (fst (Np.first_max x t)). split; [reflexivity|]. cbn [length].
  split; [lia|]. intros j Hj. rewrite Hnth. apply Hmax. lia.
Qed.

(** X22. [predict] raises [RuntimeError] on a classifier that has not been
    fitted.  On a fitted one whose network gives one logit per class it
    returns one label for every row, and each label is one of the classes
    seen in training: the class at the index of the largest logit of the
    row. *)
Theorem predict_returns_training_labels (forward : Net -> vector -> vector)
    self (X : matrix) :
  (_model self = None \/ _classes self = None ->
   predict forward self X = Raise "RuntimeError") /\
  (forall model classes,
     _model self = Some model -> _classes self = Some classes ->
     classes <> [] -> X <> [] ->
     (forall row, row ∈ X -> length (forward model row) = length classes) ->
     exists labels,
       predict forward self X = Ok labels /\
       length labels = length X /\
       Forall (fun label => label ∈ classes) labels /\
       forall p row label, X !! p = Some row -> labels !! p = Some label ->
         exists i, classes !! i = Some label /\
           forall j, (j < length classes)%nat ->
             nth j (forward model row) 0 <= nth i (forward model row) 0).
Proof.
  split.
  - unfold predict. intros [-> | Hc]; [reflexivity|]. rewrite Hc.
    destruct (_model self); reflexivity.
  - intros model classes Hmodel Hclasses Hne _ Hwidth. unfold predict.
    rewrite Hmodel, Hclasses. clear Hmodel Hclasses.
    induction X as [|row X IH].
    + exists []. repeat split; [constructor|]. intros p row label Hp. discriminate Hp.
    + destruct IH as (labels & Hrun & Hlen & Hin & Hat).
      { intros r Hr. apply Hwidth. right. exact Hr. }
      destruct (mapM (fun row => torch_max_index (forward model row)) X)
        as [predicted|e] eqn:Hpred; [|discriminate Hrun].
      cbn [mbind result_bind] in Hrun.
      destruct (torch_max_index_spec (forward model row)) as (i & Hi & Hlt & Hmax).
      { intros E. apply Hne. apply length_zero_iff_nil.
        rewrite <- (Hwidth row ltac:(left)), E. reflexivity. }
      rewrite (Hwidth row ltac:(left)) in Hlt.
      destruct (lookup_lt_is_Some_2 classes i Hlt) as [label Hlabel].
      exists (label :: labels). cbn [mapM]. rewrite Hi. cbn [mbind result_bind].
      rewrite Hpred. cbn [mbind result_bind mret result_ret].
      unfold take_at in *. cbn [mapM]. rewrite Hlabel.
      cbn [mbind result_bind]. rewrite Hrun. cbn [mbind result_bind mret result_ret length].
      split; [reflexivity|]. split; [lia|]. split.
      * constructor; [eapply list_elem_of_lookup_2; exact Hlabel | exact Hin].
      * intros [|p] r l Hp Hl.
        -- injection Hp as <-. injection Hl as <-. exists i. split; [exact Hlabel|].
           intros j Hj. apply Hmax. rewrite (Hwidth row ltac:(left)). exact Hj.
        -- exact (Hat p r l Hp Hl).
Qed.

End net.

Lemma train_val_split_partitions_witness :
  exists split,
    _train_val_split (Net := unit) __init__ (fun l => rev l)
      [[1]; [2]; [3]] [0; 1; 0]%nat [1; 1; 1 / 2] = Ok split.
Proof.
  destruct (train_val_split_partitions (Net := unit) __init__ (fun l => rev l)
              [[1]; [2]; [3]] [0; 1; 0]%nat [1; 1; 1 / 2])
    as (train_idx & val_idx & X_train & X_val & y_train & y_val & w_train & w_val & Hrun & _).
  - intros l. symmetry. apply Permutation_rev.
  - reflexivity.
  - reflexivity.
  - eexists. exact Hrun.
Defined.

End MlpFacts.
